(** * cloudportal: the recurring-task engine of [apps/tasks/views.py]
      and the reminder mails of [config/email.py]

    The views are embedded as functions from a task table to a task table
    and a response.  The table is a finite map from primary keys to rows;
    a model instance held by a view is a copy of a row, so every [save()]
    is an explicit write of that copy back into the table. *)

From Stdlib Require Import ZArith String Ascii List Lia.
From stdpp Require Import gmap strings list fin_maps relations pretty.

Local Open Scope string_scope.
Local Open Scope Z_scope.

(** ** Calendar dates ([datetime.date]) *)

Record date := mkDate { year : Z; month : Z; day : Z }.

Record time := mkTime { hour : Z; minute : Z }.

#[global] Instance date_eq_dec : EqDecision date.
Proof. solve_decision. Defined.

#[global] Instance time_eq_dec : EqDecision time.
Proof. solve_decision. Defined.

(** [date.weekday()] as the interpreter computes it: the proleptic
    Gregorian ordinal of the date, shifted so that Monday is 0. *)
Definition is_leap (y : Z) : bool :=
  (y mod 4 =? 0) && (negb (y mod 100 =? 0) || (y mod 400 =? 0)).

Definition days_before_year (y : Z) : Z :=
  let p := y - 1 in p * 365 + p / 4 - p / 100 + p / 400.

Definition DAYS_BEFORE_MONTH : list Z :=
  [0; 31; 59; 90; 120; 151; 181; 212; 243; 273; 304; 334].

Definition days_before_month (y m : Z) : Z :=
  nth (Z.to_nat (m - 1)) DAYS_BEFORE_MONTH 0
  + (if (2 <? m) && is_leap y then 1 else 0).

Definition toordinal (d : date) : Z :=
  days_before_year (year d) + days_before_month (year d) (month d) + day d.

Definition weekday (d : date) : Z := (toordinal d + 6) mod 7.

(** Order on dates, used by [order_by("-due_date")]. *)
Definition date_ltb (a b : date) : bool :=
  (year a <? year b)
  || ((year a =? year b)
      && ((month a <? month b) || ((month a =? month b) && (day a <? day b)))).

(** ** The task table

    [apps/tasks/models.py] is not among the sources; the row type below
    stands for its [Task] model. *)

Definition pk := nat.
Definition user_id := nat.
Definition folder_id := nat.

(** [status]: 0 is pending, 1 is complete. *)
Inductive Status := Pending | Complete.

#[global] Instance Status_eq_dec : EqDecision Status.
Proof. solve_decision. Defined.

Definition status_code (st : Status) : Z :=
  match st with Pending => 0 | Complete => 1 end.

Module models.

(** Modelled from the spec: the [Task] model of [apps/tasks/models.py],
    which is not among the sources.  One row carries the attributes of the
    data model: owning user, optional folder, title, priority, status, due
    date, due time, completed date, archived flag, the recurrence columns,
    [last_generated], and the self-reference [parent_task]. *)
Record Task := mkTask {
  user : user_id;
  folder : option folder_id;
  title : string;
  priority : Z;
  status : Status;
  due_date : option date;
  due_time : option time;
  completed_date : option date;
  archived : bool;
  is_recurring : bool;
  recurrence_type : option string;
  recurrence_day : option Z;
  recurrence_month : option Z;
  last_generated : option date;
  parent_task : option pk
}.

#[global] Instance Task_eq_dec : EqDecision Task.
Proof. solve_decision. Defined.

(** Attribute assignment [task.f = v] on the in-memory copy. *)
Definition set_user v t :=
  mkTask v (folder t) (title t) (priority t) (status t) (due_date t)
    (due_time t) (completed_date t) (archived t) (is_recurring t)
    (recurrence_type t) (recurrence_day t) (recurrence_month t)
    (last_generated t) (parent_task t).
Definition set_folder v t :=
  mkTask (user t) v (title t) (priority t) (status t) (due_date t)
    (due_time t) (completed_date t) (archived t) (is_recurring t)
    (recurrence_type t) (recurrence_day t) (recurrence_month t)
    (last_generated t) (parent_task t).
Definition set_title v t :=
  mkTask (user t) (folder t) v (priority t) (status t) (due_date t)
    (due_time t) (completed_date t) (archived t) (is_recurring t)
    (recurrence_type t) (recurrence_day t) (recurrence_month t)
    (last_generated t) (parent_task t).
Definition set_priority v t :=
  mkTask (user t) (folder t) (title t) v (status t) (due_date t)
    (due_time t) (completed_date t) (archived t) (is_recurring t)
    (recurrence_type t) (recurrence_day t) (recurrence_month t)
    (last_generated t) (parent_task t).
Definition set_status v t :=
  mkTask (user t) (folder t) (title t) (priority t) v (due_date t)
    (due_time t) (completed_date t) (archived t) (is_recurring t)
    (recurrence_type t) (recurrence_day t) (recurrence_month t)
    (last_generated t) (parent_task t).
Definition set_due_date v t :=
  mkTask (user t) (folder t) (title t) (priority t) (status t) v
    (due_time t) (completed_date t) (archived t) (is_recurring t)
    (recurrence_type t) (recurrence_day t) (recurrence_month t)
    (last_generated t) (parent_task t).
Definition set_due_time v t :=
  mkTask (user t) (folder t) (title t) (priority t) (status t) (due_date t)
    v (completed_date t) (archived t) (is_recurring t)
    (recurrence_type t) (recurrence_day t) (recurrence_month t)
    (last_generated t) (parent_task t).
Definition set_completed_date v t :=
  mkTask (user t) (folder t) (title t) (priority t) (status t) (due_date t)
    (due_time t) v (archived t) (is_recurring t)
    (recurrence_type t) (recurrence_day t) (recurrence_month t)
    (last_generated t) (parent_task t).
Definition set_is_recurring v t :=
  mkTask (user t) (folder t) (title t) (priority t) (status t) (due_date t)
    (due_time t) (completed_date t) (archived t) v
    (recurrence_type t) (recurrence_day t) (recurrence_month t)
    (last_generated t) (parent_task t).
Definition set_recurrence_type v t :=
  mkTask (user t) (folder t) (title t) (priority t) (status t) (due_date t)
    (due_time t) (completed_date t) (archived t) (is_recurring t)
    v (recurrence_day t) (recurrence_month t)
    (last_generated t) (parent_task t).
Definition set_recurrence_day v t :=
  mkTask (user t) (folder t) (title t) (priority t) (status t) (due_date t)
    (due_time t) (completed_date t) (archived t) (is_recurring t)
    (recurrence_type t) v (recurrence_month t)
    (last_generated t) (parent_task t).
Definition set_recurrence_month v t :=
  mkTask (user t) (folder t) (title t) (priority t) (status t) (due_date t)
    (due_time t) (completed_date t) (archived t) (is_recurring t)
    (recurrence_type t) (recurrence_day t) v
    (last_generated t) (parent_task t).
Definition set_last_generated v t :=
  mkTask (user t) (folder t) (title t) (priority t) (status t) (due_date t)
    (due_time t) (completed_date t) (archived t) (is_recurring t)
    (recurrence_type t) (recurrence_day t) (recurrence_month t)
    v (parent_task t).
Definition set_parent_task v t :=
  mkTask (user t) (folder t) (title t) (priority t) (status t) (due_date t)
    (due_time t) (completed_date t) (archived t) (is_recurring t)
    (recurrence_type t) (recurrence_day t) (recurrence_month t)
    (last_generated t) v.

End models.

Import models.

(** The table [Task.objects]. *)
Abbreviation Store := (gmap pk Task).

(** What the foreign key [parent_task] does to the rows that point at a
    deleted row.  The declaration is in the absent [models.py]; both
    policies under which [parent_task.delete()] can succeed while an
    instance still refers to the template are modelled. *)
Inductive OnDelete := CASCADE | SET_NULL.

Definition refers_to (dead : gset pk) (t : Task) : bool :=
  match parent_task t with
  | Some p => bool_decide (p ∈ dead)
  | None => false
  end.

(** The rows a cascading delete collects: the deleted rows and, round after
    round, every row whose [parent_task] is already collected. *)
Fixpoint collect (fuel : nat) (dead : gset pk) (s : Store) : gset pk :=
  match fuel with
  | O => dead
  | S fuel' =>
      collect fuel' (dead ∪ dom (filter (λ kt, refers_to dead kt.2 = true) s)) s
  end.

Definition detach (k : pk) (t : Task) : Task :=
  if bool_decide (parent_task t = Some k) then set_parent_task None t else t.

(** [row.delete()] *)
Definition delete_row (pol : OnDelete) (k : pk) (s : Store) : Store :=
  match pol with
  | CASCADE =>
      let dead := collect (size s) {[k]} s in
      filter (λ kt, kt.1 ∉ dead) s
  | SET_NULL => detach k <$> base.delete k s
  end.

(** The key given to a row made by [Task.objects.create].  The database
    draws it from a sequence, so that it is the key of no row, present or
    deleted; the table keeps no trace of deleted rows, and the key taken
    here is one that no present row has.  Statements use that it is free
    and nothing else about it. *)
Definition fresh_pk (s : Store) : pk :=
  S (foldr Nat.max O (map fst (map_to_list s))).

(** [row.save()] writes every column; [save(update_fields=[f])] writes one. *)
Definition save (k : pk) (t : Task) (s : Store) : Store := <[k := t]> s.

Definition save_last_generated (k : pk) (v : option date) (s : Store) : Store :=
  alter (set_last_generated v) k s.

Definition create (t : Task) (s : Store) : Store := <[fresh_pk s := t]> s.

(** [qs.exists()] and the rows of a queryset. *)
Definition rows (P : pk → Task → bool) (s : Store) : list (pk * Task) :=
  List.filter (λ kt, P kt.1 kt.2) (map_to_list s).

Definition exists_row (P : pk → Task → bool) (s : Store) : bool :=
  existsb (λ kt, P kt.1 kt.2) (map_to_list s).

(** [qs.order_by("-due_date").first()]: the row with the latest due date.
    Rows without a due date sort after the dated ones (the order of the
    default database backend); rows with equal dates are taken in key
    order. *)
Definition sorts_before (a b : pk * Task) : bool :=
  match due_date a.2, due_date b.2 with
  | Some x, Some y => date_ltb y x || (bool_decide (x = y) && (a.1 <? b.1)%nat)
  | Some _, None => true
  | None, Some _ => false
  | None, None => (a.1 <? b.1)%nat
  end.

Definition first_of (l : list (pk * Task)) : option (pk * Task) :=
  foldr (λ x acc,
           match acc with
           | None => Some x
           | Some y => if sorts_before x y then Some x else Some y
           end) None l.

(** Reading the attribute [task.parent_task] loads the referenced row. *)
Inductive Fetched :=
  | NoParent
  | Parent (p : pk) (row : Task)
  | Missing.

Definition fetch_parent (s : Store) (t : Task) : Fetched :=
  match parent_task t with
  | None => NoParent
  | Some p =>
      match s !! p with
      | Some row => Parent p row
      | None => Missing
      end
  end.

(** ** Strings

    Text is held as its characters below 128: [is_ascii].  On such text
    [upper] is [str.upper()] of one character and [capitalize] is
    [title[0].upper() + title[1:]], with [None] for the [IndexError] of
    an empty title.  What the interpreter does with the other characters
    is not modelled, and a statement about the letters of a title takes
    [is_ascii] as a hypothesis. *)
Fixpoint is_ascii (s : string) : bool :=
  match s with
  | EmptyString => true
  | String c rest => (nat_of_ascii c <? 128)%nat && is_ascii rest
  end.

Definition upper (c : ascii) : ascii :=
  let n := nat_of_ascii c in
  if ((97 <=? n) && (n <=? 122))%nat then ascii_of_nat (n - 32) else c.

Definition capitalize (s : string) : option string :=
  match s with
  | EmptyString => None
  | String c rest => Some (String (upper c) rest)
  end.

(** Truth value of a string in a condition. *)
Definition truthy (r : string) : bool :=
  match r with
  | EmptyString => false
  | String _ _ => true
  end.

(** ** Requests and responses *)

Module forms.

(** Modelled from the spec: [apps/tasks/forms.py] is not among the sources.
    The cleaned payload of a valid [TaskForm] carries the fields [folder],
    [title], [priority], [due_date], [due_time], [recurrence] and [status];
    all but [recurrence] are columns of the task, and an absent
    [recurrence] reads as the empty string. *)
Record TaskForm := mkTaskForm {
  folder : option folder_id;
  title : string;
  priority : Z;
  due_date : option date;
  due_time : option time;
  status : Status;
  recurrence : string
}.

(** [form.save(commit=False)]: the columns of the form are assigned to the
    instance, nothing is written. *)
Definition save_commit_False (f : TaskForm) (t : Task) : Task :=
  set_status (status f)
    (set_due_time (due_time f)
       (set_due_date (due_date f)
          (set_priority (priority f)
             (set_title (title f)
                (set_folder (folder f) t))))).

End forms.

(** A request that reached a view: [login_required] has let it through,
    so it carries a user. *)
Inductive Method := GET | POST.

(** [int(request.GET.get("status", 0))] *)
Inductive StatusParam :=
  | Absent
  | Malformed
  | Int (z : Z).

Record Request := mkRequest {
  method : Method;
  request_user : user_id;
  (** the bound form when [form.is_valid()], [None] otherwise *)
  cleaned_data : option forms.TaskForm;
  GET_status : StatusParam;
  (** [request.session.get("tasks_all", False)] *)
  session_tasks_all : bool;
  (** [select_folder(request, "tasks")] *)
  selected_folder : option folder_id;
  (** the keys of the rows of [get_task_folders(request)], a queryset of
      the absent [apps/folders/folders.py] *)
  task_folders : list folder_id
}.

(** [Render] says that the view is through with its own statements and
    hands over to the rendering of a template, for the task list by way
    of [_get_task_list_context]; what the rendering does, and whether it
    fails, is not modelled. *)
Inductive Response :=
  | Redirect (to : string)
  | Render (template : string)
  | NoContent (trigger : string)
  | Http404
  | Uncaught (exception : string).

#[global] Instance Response_eq_dec : EqDecision Response.
Proof. solve_decision. Defined.

(** The rule that derives the recurrence columns from a due date; the
    views spell it out four times ([edit] and [task_form], for the
    template of an instance and for the task itself). *)
Definition derive_recurrence (recurrence : string) (due : option date)
    (t : Task) : Task :=
  match due with
  | Some d =>
      if String.eqb recurrence "daily" then set_recurrence_day None t
      else if String.eqb recurrence "monthly" then
        set_recurrence_day (Some (day d)) t
      else if String.eqb recurrence "weekly" then
        set_recurrence_day (Some (weekday d)) t
      else if String.eqb recurrence "yearly" then
        set_recurrence_month (Some (month d))
          (set_recurrence_day (Some (day d)) t)
      else t
  | None => t
  end.

(** [Task.objects.create(user=.., folder=.., title=.., priority=..,
    status=0, due_date=.., due_time=.., parent_task=..)]: the columns not
    named take the defaults of the model. *)
Definition new_instance (defaults : Task) (u : user_id)
    (f : option folder_id) (ttl : string) (pr : Z) (dd : option date)
    (dt : option time) (p : pk) : Task :=
  mkTask u f ttl pr Pending dd dt (completed_date defaults)
    (archived defaults) (is_recurring defaults) (recurrence_type defaults)
    (recurrence_day defaults) (recurrence_month defaults)
    (last_generated defaults) (Some p).

(** The filter [parent_task=p, status=0, archived=False]. *)
Definition pending_instance_of (p : pk) (t : Task) : bool :=
  bool_decide (parent_task t = Some p)
  && bool_decide (status t = Pending)
  && negb (archived t).

(** The filter [parent_task=p, status=0]. *)
Definition pending_of (p : pk) (t : Task) : bool :=
  bool_decide (parent_task t = Some p) && bool_decide (status t = Pending).

(** The form marks complete a task that was not. *)
Definition completes (form : forms.TaskForm) (t : Task) : bool :=
  bool_decide (forms.status form = Complete)
  && bool_decide (status t ≠ Complete).

(** ** Further inputs and tables of the views *)

(** A parameter of the query string or of the posted form that the view
    reads as a number: missing, empty, not a number, or a number. *)
Inductive QueryParam :=
  | NoParam
  | EmptyParam
  | NotANumber
  | Number (z : Z).

(** The rows of [Folder] the views read: the owner ([user]) and the
    editors.  [apps/folders/models.py] is not among the sources. *)
Record Folder := mkFolder {
  folder_owner : user_id;
  folder_editors : gset user_id
}.

Abbreviation Folders := (gmap folder_id Folder).

(** [Folder.objects.filter(pk=param).get()]: a missing parameter is the
    query [pk=None], which finds nothing; text that is not a number is
    refused before the query runs. *)
Inductive Found (A : Type) :=
  | Got (k : nat) (row : A)
  | NotFound
  | BadValue.
Arguments Got {A} k row.
Arguments NotFound {A}.
Arguments BadValue {A}.

Definition get_by_pk {A} (table : gmap nat A) (param : QueryParam) : Found A :=
  match param with
  | NoParam => NotFound
  | EmptyParam | NotANumber => BadValue
  | Number z =>
      if z <? 0 then NotFound
      else
        match table !! Z.to_nat z with
        | Some row => Got (Z.to_nat z) row
        | None => NotFound
        end
  end.

Definition set_archived (v : bool) (t : Task) : Task :=
  mkTask (user t) (folder t) (title t) (priority t) (status t) (due_date t)
    (due_time t) (completed_date t) v (is_recurring t)
    (recurrence_type t) (recurrence_day t) (recurrence_month t)
    (last_generated t) (parent_task t).

(** [qs.update(...)]: the rows of the queryset are rewritten in place. *)
Definition update_where (P : Task → bool) (f : Task → Task) (s : Store)
    : Store :=
  (λ t, if P t then f t else t) <$> s.

(** [qs.delete()]: the rows of the queryset go, and with them (CASCADE) the
    rows that reach them through [parent_task], or (SET_NULL) the
    references to them. *)
Definition detach_all (dead : gset pk) (t : Task) : Task :=
  if refers_to dead t then set_parent_task None t else t.

Definition delete_where (pol : OnDelete) (P : Task → bool) (s : Store)
    : Store :=
  let doomed := dom (filter (λ kt, P kt.2 = true) s) in
  match pol with
  | CASCADE =>
      let dead := collect (size s) doomed s in
      filter (λ kt, kt.1 ∉ dead) s
  | SET_NULL =>
      detach_all doomed <$> filter (λ kt, kt.1 ∉ doomed) s
  end.

(** [str.strip()] on text that [is_ascii]: the blanks below 128 are the
    characters 9 to 13 and 28 to 32. *)
Definition isspace (c : ascii) : bool :=
  let n := nat_of_ascii c in
  ((9 <=? n) && (n <=? 13) || (28 <=? n) && (n <=? 32))%nat.

Fixpoint lstrip (s : string) : string :=
  match s with
  | EmptyString => EmptyString
  | String c rest => if isspace c then lstrip rest else s
  end.

Fixpoint rstrip (s : string) : string :=
  match s with
  | EmptyString => EmptyString
  | String c rest =>
      match rstrip rest with
      | EmptyString => if isspace c then EmptyString else String c EmptyString
      | rest' => String c rest'
      end
  end.

Definition strip (s : string) : string := rstrip (lstrip s).

(** The session keys the task views use, and the folder selection kept on
    the user ([request.user.tasks_folder]). *)
Inductive FilterVal :=
  | FStr (v : string)
  | FInt (z : Z).

#[global] Instance FilterVal_eq_dec : EqDecision FilterVal.
Proof. solve_decision. Defined.

Module session.

Record Stash := mkStash {
  stash_tasks_filter : gmap string FilterVal;
  stash_tasks_all : bool;
  stash_tasks_folder : Z
}.

Record Session := mkSession {
  tasks_filter : option (gmap string FilterVal);
  tasks_filter_stash : option Stash;
  tasks_all : option bool;
  tasks_page : option Z
}.

Definition set_tasks_filter v (ss : Session) :=
  mkSession v (tasks_filter_stash ss) (tasks_all ss) (tasks_page ss).
Definition set_tasks_filter_stash v (ss : Session) :=
  mkSession (tasks_filter ss) v (tasks_all ss) (tasks_page ss).
Definition set_tasks_all v (ss : Session) :=
  mkSession (tasks_filter ss) (tasks_filter_stash ss) v (tasks_page ss).
Definition set_tasks_page v (ss : Session) :=
  mkSession (tasks_filter ss) (tasks_filter_stash ss) (tasks_all ss) v.

End session.

(** ** The views of [apps/tasks/views.py]

    Every view takes today's date ([date.today()]), the table and the
    request, and returns the table it leaves and its response.  A view
    that fails with an exception keeps the writes it made before. *)

Module views.

Section Views.

(** The declarations of the absent [models.py] the views depend on: what
    deleting a template does to its instances, and the column defaults. *)
Variable on_delete : OnDelete.
Variable Task_defaults : Task.

Definition status (today : date) (s : Store) (request : Request) (id : pk)
    (origin : string) : Store * Response :=
  match s !! id with
  | None => (s, Http404)
  | Some task =>
      let task :=
        if bool_decide (models.status task = Complete) then
          set_completed_date None (set_status Pending task)
        else
          set_completed_date (Some today) (set_status Complete task) in
      (save id task s, Redirect origin)
  end.

Definition edit (today : date) (s : Store) (request : Request) (id : pk)
    : Store * Response :=
  let user := request_user request in
  match method request with
  | POST =>
      match s !! id with
      | None => (s, Http404)
      | Some task =>
          let was_recurring := is_recurring task in
          match fetch_parent s task with
          | Missing => (s, Uncaught "DoesNotExist")
          | fetched =>
              match cleaned_data request with
              | None => (s, Redirect "tasks")
              | Some form =>
                  let task := forms.save_commit_False form task in
                  let task := set_user user task in
                  match capitalize (title task) with
                  | None => (s, Uncaught "IndexError")
                  | Some ttl =>
                      let task := set_title ttl task in
                      let recurrence := forms.recurrence form in
                      match fetched with
                      | Parent p parent_task =>
                          let s := save id task s in
                          let parent_task := set_folder (folder task) parent_task in
                          let parent_task := set_title (title task) parent_task in
                          let parent_task := set_priority (priority task) parent_task in
                          let parent_task := set_due_time (due_time task) parent_task in
                          if truthy recurrence then
                            let parent_task :=
                              set_recurrence_type (Some recurrence) parent_task in
                            let parent_task :=
                              derive_recurrence recurrence (due_date task) parent_task in
                            (save p parent_task s, Redirect "tasks")
                          else
                            let s := delete_row on_delete p s in
                            let task := set_parent_task None task in
                            (save id task s, Redirect "tasks")
                      | _ =>
                          let task :=
                            if truthy recurrence then
                              let task := set_is_recurring true task in
                              let task := set_recurrence_type (Some recurrence) task in
                              derive_recurrence recurrence (due_date task) task
                            else
                              let task := set_is_recurring false task in
                              let task := set_recurrence_type None task in
                              let task := set_recurrence_day None task in
                              set_recurrence_month None task in
                          let s := save id task s in
                          if is_recurring task && negb was_recurring then
                            let s :=
                              create
                                (new_instance Task_defaults (models.user task)
                                   (folder task) (title task) (priority task)
                                   (due_date task) (due_time task) id) s in
                            (save_last_generated id (Some today) s, Redirect "tasks")
                          else if is_recurring task && was_recurring then
                            match first_of (rows (λ _ t, pending_of id t) s) with
                            | Some (k, latest_instance) =>
                                let latest_instance :=
                                  set_folder (folder task) latest_instance in
                                let latest_instance :=
                                  set_title (title task) latest_instance in
                                let latest_instance :=
                                  set_priority (priority task) latest_instance in
                                let latest_instance :=
                                  set_due_time (due_time task) latest_instance in
                                (save k latest_instance s, Redirect "tasks")
                            | None => (s, Redirect "tasks")
                            end
                          else (s, Redirect "tasks")
                      end
                  end
              end
          end
      end
  | GET =>
      match s !! id with
      | None => (s, Http404)
      | Some task =>
          let folders := task_folders request in
          (* the display of the form, which reads [task.parent_task] *)
          let display :=
            match fetch_parent s task with
            | Missing => (s, Uncaught "DoesNotExist")
            | _ => (s, Render "tasks/content.html")
            end in
          (* [folders.filter(id=task.folder.id).get()]; without a folder,
             [task.folder.id] is the [AttributeError] the view catches *)
          match folder task with
          | Some f =>
              match List.filter (Nat.eqb f) folders with
              | [] => (s, Uncaught "DoesNotExist")
              | [_] => display
              | _ => (s, Uncaught "MultipleObjectsReturned")
              end
          | None => display
          end
      end
  end.

Definition delete (s : Store) (request : Request) (id : pk)
    : Store * Response :=
  match s !! id with
  | Some task =>
      if bool_decide (models.user task = request_user request) then
        (delete_row on_delete id s, Redirect "tasks")
      else (s, Http404)
  | None => (s, Http404)
  end.

Definition task_form (today : date) (s : Store) (request : Request) (id : pk)
    : Store * Response :=
  let user := request_user request in
  match s !! id with
  | None => (s, Http404)
  | Some task =>
      match method request with
      | POST =>
          let was_recurring := is_recurring task in
          match fetch_parent s task with
          | Missing => (s, Uncaught "DoesNotExist")
          | fetched =>
              let old_status := models.status task in
              match cleaned_data request with
              | None => (s, Render "tasks/modal-form.html")
              | Some form =>
                  let task := forms.save_commit_False form task in
                  let task := set_user user task in
                  match capitalize (title task) with
                  | None => (s, Uncaught "IndexError")
                  | Some ttl =>
                      let task := set_title ttl task in
                      let recurrence := forms.recurrence form in
                      if bool_decide (models.status task = Complete)
                         && bool_decide (old_status ≠ Complete) then
                        (* [date.today()]: the import further down makes
                           [date] a local name of the view, not yet bound *)
                        (s, Uncaught "UnboundLocalError")
                      else
                      let task :=
                        if bool_decide (models.status task ≠ Complete)
                           && bool_decide (old_status = Complete) then
                          set_completed_date None task
                        else task in
                      match fetched with
                      | Parent p parent_task =>
                          let s := save id task s in
                          let parent_task := set_folder (folder task) parent_task in
                          let parent_task := set_title (title task) parent_task in
                          let parent_task := set_priority (priority task) parent_task in
                          let parent_task := set_due_time (due_time task) parent_task in
                          if truthy recurrence then
                            let parent_task :=
                              set_recurrence_type (Some recurrence) parent_task in
                            let parent_task :=
                              derive_recurrence recurrence (due_date task) parent_task in
                            (save p parent_task s, NoContent "tasksChanged")
                          else
                            let s := delete_row on_delete p s in
                            let task := set_parent_task None task in
                            (save id task s, NoContent "tasksChanged")
                      | _ =>
                          let task :=
                            if truthy recurrence then
                              let task := set_is_recurring true task in
                              let task := set_recurrence_type (Some recurrence) task in
                              derive_recurrence recurrence (due_date task) task
                            else
                              let task := set_is_recurring false task in
                              let task := set_recurrence_type None task in
                              let task := set_recurrence_day None task in
                              set_recurrence_month None task in
                          let s := save id task s in
                          if is_recurring task && negb was_recurring then
                            let s :=
                              create
                                (new_instance Task_defaults (models.user task)
                                   (folder task) (title task) (priority task)
                                   (due_date task) (due_time task) id) s in
                            (save_last_generated id (Some today) s,
                             NoContent "tasksChanged")
                          else if is_recurring task && was_recurring then
                            match first_of (rows (λ _ t, pending_of id t) s) with
                            | Some (k, latest_instance) =>
                                let latest_instance :=
                                  set_folder (folder task) latest_instance in
                                let latest_instance :=
                                  set_title (title task) latest_instance in
                                let latest_instance :=
                                  set_priority (priority task) latest_instance in
                                let latest_instance :=
                                  set_due_time (due_time task) latest_instance in
                                (save k latest_instance s, NoContent "tasksChanged")
                            | None => (s, NoContent "tasksChanged")
                            end
                          else (s, NoContent "tasksChanged")
                      end
                  end
              end
          end
      | GET =>
          match fetch_parent s task with
          | Missing => (s, Uncaught "DoesNotExist")
          | _ => (s, Render "tasks/modal-form.html")
          end
      end
  end.

Definition status_htmx (today : date) (s : Store) (request : Request)
    (id : pk) : Store * Response :=
  match s !! id with
  | None => (s, Http404)
  | Some task =>
      let task :=
        if bool_decide (models.status task = Complete) then
          set_completed_date None (set_status Pending task)
        else
          set_completed_date (Some today) (set_status Complete task) in
      let s := save id task s in
      if bool_decide (models.status task = Complete) then
        match fetch_parent s task with
        | Missing => (s, Uncaught "DoesNotExist")
        | Parent p parent =>
            if is_recurring parent && negb (archived parent) then
              let has_pending := exists_row (λ _ t, pending_instance_of p t) s in
              if negb has_pending then
                let s :=
                  create
                    (new_instance Task_defaults (models.user parent)
                       (folder parent) (title parent) (priority parent)
                       (Some today) (due_time parent) p) s in
                (save_last_generated p (Some today) s, Render "tasks/list.html")
              else (s, Render "tasks/list.html")
            else (s, Render "tasks/list.html")
        | NoParent => (s, Render "tasks/list.html")
        end
      else (s, Render "tasks/list.html")
  end.

Definition delete_htmx (s : Store) (request : Request) (id : pk)
    : Store * Response :=
  match s !! id with
  | Some task =>
      if bool_decide (models.user task = request_user request) then
        (delete_row on_delete id s, NoContent "tasksChanged")
      else (s, Http404)
  | None => (s, Http404)
  end.

(** The queryset [qs] of [bulk_status_htmx]. *)
Definition bulk_qs (request : Request) (t : Task) : bool :=
  if session_tasks_all request then
    bool_decide (models.user t = request_user request)
    && negb (is_recurring t) && negb (archived t)
  else
    match selected_folder request with
    | Some f =>
        bool_decide (folder t = Some f)
        && negb (is_recurring t) && negb (archived t)
    | None =>
        bool_decide (models.user t = request_user request)
        && bool_decide (folder t = None)
        && negb (is_recurring t) && negb (archived t)
    end.

Definition bulk_status_htmx (today : date) (s : Store) (request : Request)
    : Store * Response :=
  match GET_status request with
  | Malformed => (s, Uncaught "ValueError")
  | param =>
      let new_status := match param with Int z => z | _ => 0 end in
      if new_status =? 1 then
        ((λ t, if bulk_qs request t && bool_decide (models.status t = Pending)
               then set_completed_date (Some today) (set_status Complete t)
               else t) <$> s,
         Render "tasks/list.html")
      else
        ((λ t, if bulk_qs request t && bool_decide (models.status t = Complete)
               then set_completed_date None (set_status Pending t)
               else t) <$> s,
         Render "tasks/list.html")
  end.

(** *** The other views of the module

    The views below take what they read of the request beside
    [Request] as further arguments.  A view that ends by rendering the
    task list is modelled up to its own writes. *)

Definition add (s : Store) (folders : Folders) (request : Request)
    (POST_title : option string) (POST_folder_id : QueryParam)
    : Store * Response :=
  match method request with
  | POST =>
      let task := Task_defaults in
      let task := set_user (request_user request) task in
      match POST_title with
      | None => (s, Uncaught "TypeError")
      | Some ttl =>
          let task := set_title ttl task in
          match capitalize (title task) with
          | None => (s, Uncaught "IndexError")
          | Some ttl =>
              let task := set_title ttl task in
              match get_by_pk folders POST_folder_id with
              | Got f _ =>
                  let task := set_folder (Some f) task in
                  (create task s, Redirect "tasks")
              | BadValue => (create task s, Redirect "tasks")
              | NotFound => (s, Uncaught "DoesNotExist")
              end
          end
      end
  | GET => (s, Uncaught "ValueError")
  end.

(** The queryset of completed tasks that [clear] archives. *)
Definition clear_qs (request : Request) (t : Task) : bool :=
  match selected_folder request with
  | Some f =>
      bool_decide (folder t = Some f)
      && bool_decide (models.status t = Complete)
  | None =>
      bool_decide (models.user t = request_user request)
      && bool_decide (folder t = None)
      && bool_decide (models.status t = Complete)
  end.

Definition clear (s : Store) (request : Request) : Store * Response :=
  (update_where (clear_qs request) (set_archived true) s, Redirect "/tasks/").

Definition add_editor (folders : Folders) (users : gset user_id)
    (request : Request) (folder_id : folder_id) (user_id : user_id)
    : Folders * Response :=
  match folders !! folder_id with
  | None => (folders, Http404)
  | Some folder =>
      if bool_decide (user_id ∈ users) then
        (<[folder_id :=
             mkFolder (folder_owner folder)
               (folder_editors folder ∪ {[user_id]})]> folders,
         Redirect "/tasks/")
      else (folders, Http404)
  end.

Definition remove_editor (folders : Folders) (users : gset user_id)
    (request : Request) (folder_id : folder_id) (user_id : user_id)
    : Folders * Response :=
  match folders !! folder_id with
  | None => (folders, Http404)
  | Some folder =>
      if bool_decide (user_id ∈ users) then
        (<[folder_id :=
             mkFolder (folder_owner folder)
               (folder_editors folder ∖ {[user_id]})]> folders,
         Redirect "/tasks/")
      else (folders, Http404)
  end.

Definition tasks_all (ss : session.Session) (tasks_folder : Z)
    : session.Session * Z * Response :=
  (session.set_tasks_all (Some true) ss, 0,
   Render "tasks/tasks-with-folders-oob.html").

(** [date.today().strftime("%Y-%m-%d")] *)
Variable strftime_ymd : date → string.

Definition tasks_due (today : date) (ss : session.Session) (tasks_folder : Z)
    : session.Session * Z * Response :=
  let current_filter := default ∅ (session.tasks_filter ss) in
  let restore :=
    match session.tasks_filter_stash ss with
    | Some stash =>
        if bool_decide (current_filter !! "filter_label" = Some (FStr "due"))
        then Some stash else None
    | None => None
    end in
  match restore with
  | Some stash =>
      let ss :=
        session.set_tasks_filter (Some (session.stash_tasks_filter stash)) ss in
      let ss := session.set_tasks_all (Some (session.stash_tasks_all stash)) ss in
      let ss := session.set_tasks_filter_stash None ss in
      (ss, session.stash_tasks_folder stash,
       Render "tasks/tasks-with-folders-oob.html")
  | None =>
      let stash :=
        session.mkStash current_filter (default false (session.tasks_all ss))
          tasks_folder in
      let ss := session.set_tasks_filter_stash (Some stash) ss in
      let ss := session.set_tasks_all (Some true) ss in
      let ss :=
        session.set_tasks_filter
          (Some {[ "filter_label" := FStr "due";
                   "status" := FStr "Pending";
                   "due_date_max" := FStr (strftime_ymd today);
                   "sort" := FStr "due_date" ]}) ss in
      (ss, 0, Render "tasks/tasks-with-folders-oob.html")
  end.

Definition task_filter (ss : session.Session) (request : Request)
    (POST_items : gmap string string) : session.Session * Response :=
  match method request with
  | POST =>
      let filter_data :=
        FStr <$> filter (λ kv, kv.1 ≠ "csrfmiddlewaretoken") POST_items in
      let filter_data := <["filter_label" := FStr "custom"]> filter_data in
      let ss := session.set_tasks_filter (Some filter_data) ss in
      let ss := session.set_tasks_filter_stash None ss in
      (ss, NoContent "tasksChanged")
  | GET => (ss, Render "tasks/filter.html")
  end.

Definition tasks_order_by (ss : session.Session) (order : string)
    : session.Session * Response :=
  let filter_data := default ∅ (session.tasks_filter ss) in
  let current_sort := default (FStr "priority") (filter_data !! "sort") in
  let new_sort :=
    if bool_decide (current_sort = FStr order) then String "-" order
    else if bool_decide (current_sort = FStr (String "-" order)) then order
    else order in
  let filter_data := <["sort" := FStr new_sort]> filter_data in
  let ss := session.set_tasks_filter (Some filter_data) ss in
  let ss := session.set_tasks_page (Some 1) ss in
  let ss := session.set_tasks_filter_stash None ss in
  (ss, NoContent "tasksChanged").

Definition task_filter_default (ss : session.Session)
    : session.Session * Response :=
  let ss := session.set_tasks_filter None ss in
  let ss := session.set_tasks_filter_stash None ss in
  (ss, NoContent "tasksChanged").

Definition add_htmx (s : Store) (folders : Folders) (request : Request)
    (POST_title : option string) (POST_folder_id : QueryParam)
    : Store * Response :=
  match method request with
  | POST =>
      let task := Task_defaults in
      let task := set_user (request_user request) task in
      let task := set_title (strip (default EmptyString POST_title)) task in
      if truthy (title task) then
        match capitalize (title task) with
        | None => (s, Uncaught "IndexError")
        | Some ttl =>
            let task := set_title ttl task in
            let task :=
              match get_by_pk folders POST_folder_id with
              | Got f _ => set_folder (Some f) task
              | _ => task
              end in
            (create task s, Render "tasks/list.html")
        end
      else (s, Render "tasks/list.html")
  | GET => (s, Render "tasks/list.html")
  end.

(** The range of the column [priority] is declared in the absent
    [models.py]; a number the database refuses for its size is not
    modelled. *)
Definition priority_htmx (s : Store) (request : Request) (id : pk)
    (GET_priority : QueryParam) : Store * Response :=
  match s !! id with
  | None => (s, Http404)
  | Some task =>
      match GET_priority with
      | NoParam | EmptyParam => (s, Render "tasks/list.html")
      | NotANumber => (s, Uncaught "ValueError")
      | Number z => (alter (set_priority z) id s, Render "tasks/list.html")
      end
  end.

(** The folders a view works on: all of the user, the selected one, or the
    tasks of the user outside any folder. *)
Definition in_scope (request : Request) (t : Task) : bool :=
  if session_tasks_all request then
    bool_decide (models.user t = request_user request)
  else
    match selected_folder request with
    | Some f => bool_decide (folder t = Some f)
    | None =>
        bool_decide (models.user t = request_user request)
        && bool_decide (folder t = None)
    end.

Definition clear_htmx (s : Store) (request : Request) : Store * Response :=
  (update_where
     (λ t, in_scope request t && bool_decide (models.status t = Complete))
     (set_archived true) s,
   Render "tasks/list.html").

Definition delete_completed_htmx (s : Store) (request : Request)
    : Store * Response :=
  (delete_where on_delete
     (λ t, in_scope request t && bool_decide (models.status t = Complete)) s,
   Render "tasks/list.html").

Definition filter_priority_htmx (ss : session.Session) (priority_value : Z)
    : session.Session * Response :=
  let filter_data := default ∅ (session.tasks_filter ss) in
  let filter_data :=
    <["priority" :=
        if priority_value =? 0 then FStr EmptyString else FInt priority_value]>
      filter_data in
  let ss := session.set_tasks_filter (Some filter_data) ss in
  let ss := session.set_tasks_filter_stash None ss in
  (ss, Render "tasks/list.html").

Definition move_folder_htmx (s : Store) (folders : Folders)
    (request : Request) (GET_folder_id : QueryParam) : Store * Response :=
  let qs t :=
    in_scope request t && bool_decide (models.status t = Complete)
    && negb (archived t) in
  match GET_folder_id with
  | NoParam | EmptyParam =>
      (update_where qs (set_folder None) s, Render "tasks/list.html")
  | param =>
      match get_by_pk folders param with
      | BadValue => (s, Uncaught "ValueError")
      | NotFound => (s, Http404)
      | Got f row =>
          if bool_decide (folder_owner row = request_user request) then
            (update_where qs (set_folder (Some f)) s, Render "tasks/list.html")
          else (s, Http404)
      end
  end.

End Views.

End views.

(** ** The reminder mails of [config/email.py]

    A function of this module either returns or raises, and appends to the
    log on the way. *)

Module email.

Local Open Scope list_scope.

Inductive Outcome (A : Type) :=
  | Returns (a : A)
  | Raises (e : string).
Arguments Returns {A} a.
Arguments Raises {A} e.

Inductive LogRecord :=
  | INFO (msg : string)
  | ERROR (msg : string).

Definition M (A : Type) : Type := list LogRecord → Outcome A * list LogRecord.

#[global] Instance M_ret : MRet M := λ A a log, (Returns a, log).

#[global] Instance M_bind : MBind M := λ A B k m log,
  match m log with
  | (Returns a, log') => k a log'
  | (Raises e, log') => (Raises e, log')
  end.

(** [try: body except Exception as e: handler(str(e))] *)
Definition try_except {A} (body : M A) (handler : string → M A) : M A :=
  λ log,
    match body log with
    | (Returns a, log') => (Returns a, log')
    | (Raises e, log') => handler e log'
    end.

Definition call {A} (o : Outcome A) : M A := λ log, (o, log).

Definition logger_info (msg : string) : M unit :=
  λ log, (Returns tt, log ++ [INFO msg]).

Definition logger_error (msg : string) : M unit :=
  λ log, (Returns tt, log ++ [ERROR msg]).

(** Values held by the returned dict. *)
Inductive PyVal :=
  | PyBool (b : bool)
  | PyStr (s : string).

(** The two address columns of [accounts.models.CustomUser]. *)
Record CustomUser := mkUser {
  notification_email : option string;
  user_email : option string
}.

(** [a or b] and [not a] on an optional string. *)
Definition py_or (a b : option string) : option string :=
  match a with
  | Some (String _ _) => a
  | _ => b
  end.

Definition py_not (a : option string) : bool :=
  match a with
  | Some (String _ _) => false
  | _ => true
  end.

Definition newline : string := String (ascii_of_nat 10) EmptyString.
Definition dquote : string := String (ascii_of_nat 34) EmptyString.

Section Email.

(** The mail transport, the settings and the formatting of the platform. *)
Variable send_mail : string → string → string → list string → Outcome nat.
Variable SERVER_EMAIL : string.
Variable SITE_NAME : string.
(** [strftime('%B %-d, %Y')] and [strftime('%-I:%M %p')] *)
Variable strftime_date : date → string.
Variable strftime_time : time → string.
(** [folder.name] *)
Variable folder_name : folder_id → string.

Definition _build_body (task : Task) (reminder_type : string) : string :=
  let lines := [] in
  let lines :=
    if String.eqb reminder_type "due_today" then
      lines ++ ["Your task " +:+ dquote +:+ title task +:+ dquote +:+ " is due today."]
    else if String.eqb reminder_type "due_soon" then
      let time_str :=
        match due_time task with
        | Some t => strftime_time t
        | None => EmptyString
        end in
      lines ++ ["Your task " +:+ dquote +:+ title task +:+ dquote
                +:+ " is due soon at " +:+ time_str +:+ "."]
    else if String.eqb reminder_type "overdue" then
      lines ++ ["Your task " +:+ dquote +:+ title task +:+ dquote +:+ " is overdue."]
    else lines in
  let lines := lines ++ [EmptyString] in
  let lines :=
    match due_date task with
    | Some d => lines ++ ["Due date: " +:+ strftime_date d]
    | None => lines
    end in
  let lines :=
    match due_time task with
    | Some t => lines ++ ["Due time: " +:+ strftime_time t]
    | None => lines
    end in
  let lines :=
    match folder task with
    | Some f => lines ++ ["Folder: " +:+ folder_name f]
    | None => lines
    end in
  let lines := lines ++ [EmptyString] in
  let lines := lines ++ ["-- " +:+ SITE_NAME] in
  String.concat newline lines.

Definition send_task_reminder_email (user : CustomUser) (task_id : pk)
    (task : Task) (reminder_type : string) : M (gmap string PyVal) :=
  let recipient := py_or (notification_email user) (user_email user) in
  if py_not recipient then
    mret {[ "success" := PyBool false;
           "error" := PyStr "User has no email address" ]}
  else
    let recipient := default EmptyString recipient in
    let subject_map : gmap string string :=
      {[ "due_today" := "Task Due Today: " +:+ title task;
         "due_soon" := "Task Due Soon: " +:+ title task;
         "overdue" := "Overdue Task: " +:+ title task ]} in
    let subject :=
      default ("Task Reminder: " +:+ title task) (subject_map !! reminder_type) in
    let body := _build_body task reminder_type in
    try_except
      (call (send_mail subject body SERVER_EMAIL [recipient]);;
       logger_info
             ("Reminder sent to " +:+ recipient +:+ " for task "
              +:+ pretty task_id +:+ " (" +:+ reminder_type +:+ ")");;
       mret {[ "success" := PyBool true ]})
      (λ e,
         logger_error
               ("Failed to send reminder to " +:+ recipient +:+ " for task "
                +:+ pretty task_id +:+ ": " +:+ e);;
         mret {[ "success" := PyBool false; "error" := PyStr e ]}).

Definition digest_line (task : Task) : string :=
  let parts := ["- " +:+ title task] in
  let parts :=
    match due_date task with
    | Some d => parts ++ ["(due " +:+ strftime_date d +:+ ")"]
    | None => parts
    end in
  let parts :=
    match folder task with
    | Some f => parts ++ ["[" +:+ folder_name f +:+ "]"]
    | None => parts
    end in
  String.concat " " parts.

Definition send_past_due_digest_email (user : CustomUser)
    (tasks : list Task) : M (gmap string PyVal) :=
  let recipient := py_or (notification_email user) (user_email user) in
  if py_not recipient then
    mret {[ "success" := PyBool false;
           "error" := PyStr "User has no email address" ]}
  else
    let recipient := default EmptyString recipient in
    let lines := ["You have the following past due tasks:"; EmptyString] in
    let lines := lines ++ map digest_line tasks in
    let lines := lines ++ [EmptyString] in
    let lines := lines ++ ["-- " +:+ SITE_NAME] in
    let body := String.concat newline lines in
    try_except
      (call (send_mail "Past Due Tasks" body SERVER_EMAIL [recipient]);;
       logger_info
             ("Past due digest sent to " +:+ recipient +:+ " ("
              +:+ pretty (length tasks) +:+ " tasks)");;
       mret {[ "success" := PyBool true ]})
      (λ e,
         logger_error
               ("Failed to send past due digest to " +:+ recipient +:+ ": " +:+ e);;
         mret {[ "success" := PyBool false; "error" := PyStr e ]}).

End Email.

End email.

(** ** The engine as a whole

    At most one pending, live instance per template. *)

Definition at_most_one_pending (s : Store) : Prop :=
  ∀ T i j ti tj,
    s !! i = Some ti → s !! j = Some tj →
    pending_instance_of T ti = true → pending_instance_of T tj = true →
    i = j.

(** The same, as a check that runs on a table. *)
Definition clash (a b : pk * Task) : bool :=
  match parent_task a.2 with
  | Some T =>
      pending_instance_of T a.2 && pending_instance_of T b.2
      && negb (bool_decide (a.1 = b.1))
  | None => false
  end.

Definition at_most_one_pendingb (s : Store) : bool :=
  forallb (λ a, forallb (λ b, negb (clash a b)) (map_to_list s))
    (map_to_list s).

(** [status] / [completed_date] after a toggle. *)
Definition toggled (today : date) (t : Task) : Task :=
  if bool_decide (status t = Complete) then
    set_completed_date None (set_status Pending t)
  else set_completed_date (Some today) (set_status Complete t).

(** One request to the engine: an edit or a completion toggle, through
    either entry point. *)
Inductive engine_step (on_delete : OnDelete) (Task_defaults : Task)
    (s : Store) : Store → Prop :=
  | step_status today request id origin :
      engine_step on_delete Task_defaults s
        (views.status today s request id origin).1
  | step_status_htmx today request id :
      engine_step on_delete Task_defaults s
        (views.status_htmx Task_defaults today s request id).1
  | step_edit today request id :
      engine_step on_delete Task_defaults s
        (views.edit on_delete Task_defaults today s request id).1
  | step_task_form today request id :
      engine_step on_delete Task_defaults s
        (views.task_form on_delete Task_defaults today s request id).1.

(** A toggle that cannot add a pending instance: it completes a pending
    task, or it reverts a task that is no live instance, or one whose
    template has no pending, live instance. *)
Definition toggle_respects_bound (s : Store) (id : pk) : bool :=
  match s !! id with
  | Some t =>
      match parent_task t with
      | Some T =>
          bool_decide (status t = Pending)
          || archived t
          || negb (exists_row (λ _ r, pending_instance_of T r) s)
      | None => true
      end
  | None => true
  end.

(** An edit that cannot add a pending instance.  A request that is no
    POST of a valid form with a title writes nothing.  Otherwise the edit
    of an instance is one unless the form keeps the recurrence and sets
    to pending a live instance that was not, while its template has a
    pending, live instance; the edit of a task without [parent_task] is
    one unless it turns recurrence on for a task that still has a
    pending, live instance. *)
Definition edit_respects_bound (s : Store) (request : Request) (id : pk)
    : bool :=
  match method request, s !! id, cleaned_data request with
  | POST, Some t, Some form =>
      negb (truthy (forms.title form))
      || match parent_task t with
         | Some T =>
             negb (truthy (forms.recurrence form))
             || bool_decide (forms.status form = Complete)
             || bool_decide (status t = Pending)
             || archived t
             || negb (exists_row (λ _ r, pending_instance_of T r) s)
         | None =>
             is_recurring t
             || negb (truthy (forms.recurrence form))
             || negb (exists_row (λ _ r, pending_instance_of id r) s)
         end
  | _, _, _ => true
  end.

(** Through [task_form] an edit adds no pending instance either when it
    stops on the unbound [date]. *)
Definition task_form_respects_bound (s : Store) (request : Request) (id : pk)
    : bool :=
  edit_respects_bound s request id
  || match s !! id, cleaned_data request with
     | Some t, Some form => completes form t
     | _, _ => false
     end.

(** The requests under which the bound is kept: the toggles and the edits
    above, through either entry point. *)
Inductive bounded_step (on_delete : OnDelete) (Task_defaults : Task)
    (s : Store) : Store → Prop :=
  | bounded_status today request id origin :
      toggle_respects_bound s id = true →
      bounded_step on_delete Task_defaults s
        (views.status today s request id origin).1
  | bounded_status_htmx today request id :
      toggle_respects_bound s id = true →
      bounded_step on_delete Task_defaults s
        (views.status_htmx Task_defaults today s request id).1
  | bounded_edit today request id :
      edit_respects_bound s request id = true →
      bounded_step on_delete Task_defaults s
        (views.edit on_delete Task_defaults today s request id).1
  | bounded_task_form today request id :
      task_form_respects_bound s request id = true →
      bounded_step on_delete Task_defaults s
        (views.task_form on_delete Task_defaults today s request id).1.

(** ** The writes of an edit

    [edit] and [task_form] are two copies of one sequence of writes; it is
    stated once here and each view is proved to perform it
    ([edit_store], [task_form_store]). *)

(** The instance as the view holds it once the form is bound. *)
Definition edited (u : user_id) (form : forms.TaskForm) (ttl : string)
    (t : Task) : Task :=
  set_title ttl (set_user u (forms.save_commit_False form t)).

(** The adjustment of [completed_date] that only [task_form] makes.  On a
    task that becomes complete the view asks for [date.today()] while the
    name [date] is unbound, and stops there: [None]. *)
Definition with_completed_date (old_status : Status) (task : Task)
    : option Task :=
  if bool_decide (status task = Complete)
     && bool_decide (old_status ≠ Complete) then
    None
  else if bool_decide (status task ≠ Complete)
          && bool_decide (old_status = Complete) then
    Some (set_completed_date None task)
  else Some task.

(** The recurrence columns of a task edited directly. *)
Definition recurrence_applied (recurrence : string) (task : Task) : Task :=
  if truthy recurrence then
    let task := set_is_recurring true task in
    let task := set_recurrence_type (Some recurrence) task in
    derive_recurrence recurrence (due_date task) task
  else
    set_recurrence_month None
      (set_recurrence_day None
         (set_recurrence_type None (set_is_recurring false task))).

(** The columns an edit copies between a template and its instance. *)
Definition synced (task other : Task) : Task :=
  set_due_time (due_time task)
    (set_priority (priority task)
       (set_title (title task) (set_folder (folder task) other))).

Definition edit_writes (on_delete : OnDelete) (Task_defaults : Task)
    (today : date) (s : Store) (id : pk) (was_recurring : bool)
    (fetched : Fetched) (recurrence : string) (task : Task) : Store :=
  match fetched with
  | Parent p parent_task =>
      let s := save id task s in
      if truthy recurrence then
        save p
          (derive_recurrence recurrence (due_date task)
             (set_recurrence_type (Some recurrence) (synced task parent_task)))
          s
      else save id (set_parent_task None task) (delete_row on_delete p s)
  | _ =>
      let task := recurrence_applied recurrence task in
      let s := save id task s in
      if is_recurring task && negb was_recurring then
        save_last_generated id (Some today)
          (create
             (new_instance Task_defaults (user task) (folder task) (title task)
                (priority task) (due_date task) (due_time task) id) s)
      else if is_recurring task && was_recurring then
        match first_of (rows (λ _ t, pending_of id t) s) with
        | Some (k, latest_instance) => save k (synced task latest_instance) s
        | None => s
        end
      else s
  end.

(** Columns the recurrence steps leave alone. *)
Definition same_columns (a b : Task) : Prop :=
  user a = user b ∧ folder a = folder b ∧ title a = title b
  ∧ priority a = priority b ∧ status a = status b
  ∧ due_date a = due_date b ∧ due_time a = due_time b
  ∧ completed_date a = completed_date b ∧ archived a = archived b
  ∧ parent_task a = parent_task b.

(** The rule of the specification for the recurrence columns, between the
    row before an edit and the row after it. *)
Definition follows_derivation_rule (recurrence : string) (due : option date)
    (before after : Task) : Prop :=
  match due with
  | Some d =>
      (recurrence = "daily" →
         recurrence_day after = None
         ∧ recurrence_month after = recurrence_month before)
      ∧ (recurrence = "monthly" →
           recurrence_day after = Some (day d)
           ∧ recurrence_month after = recurrence_month before)
      ∧ (recurrence = "weekly" →
           recurrence_day after = Some (weekday d)
           ∧ 0 ≤ weekday d ≤ 6
           ∧ recurrence_month after = recurrence_month before)
      ∧ (recurrence = "yearly" →
           recurrence_day after = Some (day d)
           ∧ recurrence_month after = Some (month d))
  | None =>
      recurrence_day after = recurrence_day before
      ∧ recurrence_month after = recurrence_month before
  end.

(** ** The outcome a mail function reports

    A dict with a boolean under [success] and, when that boolean is false,
    a string under [error]. *)
Definition structured_report (d : gmap string email.PyVal) : Prop :=
  match d !! "success" with
  | Some (email.PyBool true) => True
  | Some (email.PyBool false) => ∃ e, d !! "error" = Some (email.PyStr e)
  | _ => False
  end.

(** The columns [bulk_status_htmx] may write. *)
Definition same_but_status (t t' : Task) : Prop :=
  t' = set_completed_date (completed_date t') (set_status (status t') t).

(** [a] comes strictly before [b] by due date alone: a later date, or a
    date against none. *)
Definition outranks (a b : Task) : bool :=
  match due_date a, due_date b with
  | Some x, Some y => date_ltb y x
  | Some _, None => true
  | _, _ => false
  end.

(** ** The table across requests *)

(** Every [parent_task] names a row of the table. *)
Definition well_referenced (s : Store) : Prop :=
  ∀ k t p, s !! k = Some t → parent_task t = Some p → is_Some (s !! p).

(** The same, as a check that runs on a table. *)
Definition well_referencedb (s : Store) : bool :=
  forallb (λ kt : pk * Task,
             match parent_task kt.2 with
             | Some p => bool_decide (is_Some (s !! p))
             | None => true
             end) (map_to_list s).

(** One request to any view of the module that writes tasks. *)
Inductive request_step (on_delete : OnDelete) (Task_defaults : Task)
    (s : Store) : Store → Prop :=
  | req_engine s' :
      engine_step on_delete Task_defaults s s' →
      request_step on_delete Task_defaults s s'
  | req_delete request id :
      request_step on_delete Task_defaults s
        (views.delete on_delete s request id).1
  | req_delete_htmx request id :
      request_step on_delete Task_defaults s
        (views.delete_htmx on_delete s request id).1
  | req_bulk_status_htmx today request :
      request_step on_delete Task_defaults s
        (views.bulk_status_htmx today s request).1
  | req_add folders request ttl folder_id :
      request_step on_delete Task_defaults s
        (views.add Task_defaults s folders request ttl folder_id).1
  | req_add_htmx folders request ttl folder_id :
      request_step on_delete Task_defaults s
        (views.add_htmx Task_defaults s folders request ttl folder_id).1
  | req_clear request :
      request_step on_delete Task_defaults s (views.clear s request).1
  | req_clear_htmx request :
      request_step on_delete Task_defaults s (views.clear_htmx s request).1
  | req_priority_htmx request id priority :
      request_step on_delete Task_defaults s
        (views.priority_htmx s request id priority).1
  | req_delete_completed_htmx request :
      request_step on_delete Task_defaults s
        (views.delete_completed_htmx on_delete s request).1
  | req_move_folder_htmx folders request folder_id :
      request_step on_delete Task_defaults s
        (views.move_folder_htmx s folders request folder_id).1.

(** The requests beside the engine that keep the bound on pending
    instances: adding, archiving, reprioritising, moving and deleting
    tasks, and marking the visible tasks complete. *)
Inductive housekeeping_step (on_delete : OnDelete) (Task_defaults : Task)
    (s : Store) : Store → Prop :=
  | hk_delete request id :
      housekeeping_step on_delete Task_defaults s
        (views.delete on_delete s request id).1
  | hk_delete_htmx request id :
      housekeeping_step on_delete Task_defaults s
        (views.delete_htmx on_delete s request id).1
  | hk_bulk_complete today request :
      GET_status request = Int 1 →
      housekeeping_step on_delete Task_defaults s
        (views.bulk_status_htmx today s request).1
  | hk_add folders request ttl folder_id :
      housekeeping_step on_delete Task_defaults s
        (views.add Task_defaults s folders request ttl folder_id).1
  | hk_add_htmx folders request ttl folder_id :
      housekeeping_step on_delete Task_defaults s
        (views.add_htmx Task_defaults s folders request ttl folder_id).1
  | hk_clear request :
      housekeeping_step on_delete Task_defaults s (views.clear s request).1
  | hk_clear_htmx request :
      housekeeping_step on_delete Task_defaults s (views.clear_htmx s request).1
  | hk_priority_htmx request id priority :
      housekeeping_step on_delete Task_defaults s
        (views.priority_htmx s request id priority).1
  | hk_delete_completed_htmx request :
      housekeeping_step on_delete Task_defaults s
        (views.delete_completed_htmx on_delete s request).1
  | hk_move_folder_htmx folders request folder_id :
      housekeeping_step on_delete Task_defaults s
        (views.move_folder_htmx s folders request folder_id).1.

(** ** The session across requests *)

(** The filter and the sort the task list is drawn with:
    [session.get("tasks_filter", {})] and [filter_data.get("sort",
    "priority")]. *)
Definition filter_data (ss : session.Session) : gmap string FilterVal :=
  default ∅ (session.tasks_filter ss).

Definition current_sort (ss : session.Session) : FilterVal :=
  default (FStr "priority") (filter_data ss !! "sort").

(** The due view is on. *)
Definition in_due_view (ss : session.Session) : Prop :=
  filter_data ss !! "filter_label" = Some (FStr "due").

(** Once the due view is on with nothing but a due filter to go back to,
    [tasks_due] keeps it on. *)
Definition stuck (ss : session.Session) : Prop :=
  in_due_view ss
  ∧ match session.tasks_filter_stash ss with
    | Some stash => session.stash_tasks_filter stash !! "filter_label"
                    = Some (FStr "due")
    | None => True
    end.

(** [tasks_due] asked once a day over a list of days. *)
Definition tasks_due_each (strftime_ymd : date → string) (days : list date)
    (ss : session.Session) (tasks_folder : Z) : session.Session * Z :=
  foldl (λ st today, (views.tasks_due strftime_ymd today st.1 st.2).1)
    (ss, tasks_folder) days.

(** ** Sample data *)

Definition march_14 : date := mkDate 2024 3 14.
Definition march_15 : date := mkDate 2024 3 15.

Definition sample_defaults : Task :=
  mkTask 0%nat None EmptyString 5 Pending None None None false false
    None None None None None.

Definition sample_template : Task :=
  mkTask 1%nat (Some 7%nat) "Water plants" 3 Pending None None None false true
    (Some "daily") None None (Some march_14) None.

Definition sample_instance (st : Status) (due : date) (done : option date)
    : Task :=
  mkTask 1%nat (Some 7%nat) "Water plants" 3 st (Some due) None done false
    false None None None None (Some 1%nat).

Definition sample_request : Request :=
  mkRequest GET 1%nat None Absent false None [7%nat].

(** A template with its pending instance. *)
Definition one_instance : Store :=
  {[ 1%nat := sample_template;
     2%nat := sample_instance Pending march_15 None ]}.

(** A template with a completed instance and the pending one after it. *)
Definition two_instances : Store :=
  {[ 1%nat := sample_template;
     2%nat := sample_instance Complete march_14 (Some march_14);
     3%nat := sample_instance Pending march_15 None ]}.

(** A standalone task completed the day before. *)
Definition done_yesterday : Store :=
  {[ 1%nat :=
       mkTask 1%nat None "File taxes" 2 Complete (Some march_14) None
         (Some march_14) false false None None None None None ]}.

(** A standalone pending task, and the form that marks it complete. *)
Definition taxes : Task :=
  mkTask 1%nat None "File taxes" 2 Pending (Some march_14) None
    None false false None None None None None.

Definition standalone : Store := {[ 1%nat := taxes ]}.

Definition complete_it : Request :=
  mkRequest POST 1%nat
    (Some (forms.mkTaskForm None "File taxes" 2 (Some march_14) None Complete
             EmptyString))
    Absent false None [7%nat].

(** The form that sets the task of [done_yesterday] back to pending. *)
Definition reopen_it : Request :=
  mkRequest POST 1%nat
    (Some (forms.mkTaskForm None "File taxes" 2 (Some march_14) None Pending
             EmptyString))
    Absent false None [7%nat].

Definition march_20 : date := mkDate 2024 3 20.

(** Forms that turn recurrence on, with a due date of 15 March 2024. *)
Definition weekly_form : forms.TaskForm :=
  forms.mkTaskForm None "file taxes" 2 (Some march_15) None Pending "weekly".

Definition yearly_form : forms.TaskForm :=
  forms.mkTaskForm None "file taxes" 2 (Some march_15) None Pending "yearly".

Definition make_weekly : Request :=
  mkRequest POST 1%nat (Some weekly_form) Absent false None [7%nat].

Definition make_yearly : Request :=
  mkRequest POST 1%nat (Some yearly_form) Absent false None [7%nat].

(** A form that clears the recurrence. *)
Definition cleared_form : forms.TaskForm :=
  forms.mkTaskForm (Some 7%nat) "water plants" 3 (Some march_15) None Pending
    EmptyString.

Definition clear_recurrence : Request :=
  mkRequest POST 1%nat (Some cleared_form) Absent false None [7%nat].

(** A form that clears the recurrence and marks the task complete. *)
Definition complete_and_clear : Request :=
  mkRequest POST 1%nat
    (Some (forms.mkTaskForm (Some 7%nat) "water plants" 3 (Some march_15)
             None Complete EmptyString))
    Absent false None [7%nat].

(** A request of a user who owns none of the sample tasks. *)
Definition stranger : Request :=
  mkRequest GET 9%nat None Absent false None [].

(** [?status=1] on the list of all folders. *)
Definition complete_all : Request :=
  mkRequest GET 1%nat None (Int 1) true None [7%nat].

(** A form that sets an instance back to pending. *)
Definition reopen_form : forms.TaskForm :=
  forms.mkTaskForm (Some 7%nat) "water plants" 3 (Some march_14) None Pending
    "daily".

Definition reopen : Request :=
  mkRequest POST 1%nat (Some reopen_form) Absent false None [7%nat].

(** A task that was a template once and kept its pending instance. *)
Definition former_template : Store :=
  {[ 1%nat := taxes;
     2%nat :=
       mkTask 1%nat None "File taxes" 2 Pending (Some march_14) None None
         false false None None None None (Some 1%nat) ]}.

(** A form that renames the instance spawned after [one_instance]. *)
Definition rename_form : forms.TaskForm :=
  forms.mkTaskForm (Some 7%nat) "water the plants" 3 (Some march_20) None
    Pending "daily".

Definition rename_next : Request :=
  mkRequest POST 1%nat (Some rename_form) Absent false None [7%nat].

(** A valid form posted by a user who owns none of the sample tasks. *)
Definition takeover : Request :=
  mkRequest POST 9%nat (Some cleared_form) Absent false None [].

(** No folder at all, and a bare POST of the sample user. *)
Definition no_folders : Folders := ∅.

Definition post_request : Request :=
  mkRequest POST 1%nat None Absent false None [7%nat].

(** The list of all folders of the sample user. *)
Definition all_folders : Request :=
  mkRequest GET 1%nat None Absent true None [7%nat].

(** Folder 7 of user 1 and folder 8 of user 2; users 1, 2 and 9. *)
Definition two_folders : Folders :=
  {[ 7%nat := mkFolder 1%nat ∅; 8%nat := mkFolder 2%nat ∅ ]}.

Definition three_users : gset user_id := {[ 1%nat; 2%nat; 9%nat ]}.

(** A template with two completed instances. *)
Definition two_completed : Store :=
  {[ 1%nat := sample_template;
     2%nat := sample_instance Complete march_14 (Some march_14);
     3%nat := sample_instance Complete march_15 (Some march_15) ]}.

(** A session with the list sorted by title and nothing stashed. *)
Definition sorted_by_title : session.Session :=
  session.mkSession (Some {[ "sort" := FStr "title" ]}) None (Some false)
    (Some 3).

(** * Properties *)

(** ** The table *)

Section StoreFacts.

Implicit Types (s : Store) (k : pk) (t : Task).

Lemma key_le_max (l : list nat) (k : nat) :
  k ∈ l → (k ≤ foldr Nat.max O l)%nat.
Proof.
  induction l as [|x l IH]; intros Hin.
  - by apply elem_of_nil in Hin.
  - apply elem_of_cons in Hin as [->|Hin]; simpl; [lia|].
    specialize (IH Hin). lia.
Qed.

Lemma fresh_pk_None s : s !! fresh_pk s = None.
Proof.
  destruct (s !! fresh_pk s) as [t|] eqn:Hl; [|done].
  exfalso.
  assert (fresh_pk s ∈ map fst (map_to_list s)) as Hin.
  { apply list_elem_of_In, in_map_iff. exists (fresh_pk s, t). split; [done|].
    apply list_elem_of_In. by apply elem_of_map_to_list. }
  apply key_le_max in Hin. exact (Nat.nle_succ_diag_l _ Hin).
Qed.

Lemma fresh_pk_ne s k t : s !! k = Some t → fresh_pk s ≠ k.
Proof. intros Hk Heq. rewrite <- Heq, fresh_pk_None in Hk. discriminate. Qed.

Lemma exists_row_true (P : pk → Task → bool) s :
  exists_row P s = true ↔ ∃ k t, s !! k = Some t ∧ P k t = true.
Proof.
  unfold exists_row. rewrite existsb_exists. split.
  - intros [[k t] [Hin HP]]. exists k, t. split; [|done].
    by apply elem_of_map_to_list, list_elem_of_In.
  - intros (k & t & Hl & HP). exists (k, t). split; [|done].
    by apply list_elem_of_In, elem_of_map_to_list.
Qed.

Lemma exists_row_false (P : pk → Task → bool) s k t :
  exists_row P s = false → s !! k = Some t → P k t = false.
Proof.
  intros Hex Hl. destruct (P k t) eqn:HP; [|done].
  assert (exists_row P s = true) by (apply exists_row_true; eauto).
  congruence.
Qed.

Lemma elem_of_rows (P : pk → Task → bool) s k t :
  (k, t) ∈ rows P s ↔ s !! k = Some t ∧ P k t = true.
Proof.
  unfold rows. rewrite list_elem_of_In, filter_In, <- list_elem_of_In.
  by rewrite elem_of_map_to_list.
Qed.

Lemma first_of_elem (l : list (pk * Task)) x : first_of l = Some x → x ∈ l.
Proof.
  revert x. induction l as [|y l IH]; intros x; simpl; [done|].
  destruct (first_of l) as [z|] eqn:Hz.
  - destruct (sorts_before y z); intros [= <-].
    + apply elem_of_cons; by left.
    + apply elem_of_cons; right. by apply IH.
  - intros [= <-]. apply elem_of_cons; by left.
Qed.

Lemma first_of_None (l : list (pk * Task)) : first_of l = None → l = [].
Proof.
  destruct l as [|y l]; [done|]. simpl.
  destruct (first_of l); [destruct (sorts_before _ _)|]; discriminate.
Qed.

Lemma collect_grows fuel (dead : gset pk) s : dead ⊆ collect fuel dead s.
Proof.
  revert dead. induction fuel as [|n IH]; intros dead; simpl; [done|].
  etrans; [|apply IH]. set_solver.
Qed.

Lemma delete_row_self pol k s : delete_row pol k s !! k = None.
Proof.
  destruct pol; simpl.
  - apply map_lookup_filter_None. right. intros t _ Hno. apply Hno.
    simpl. apply collect_grows. set_solver.
  - by rewrite lookup_fmap, lookup_delete_eq.
Qed.

Lemma lookup_save k k' t s :
  save k t s !! k' = if decide (k = k') then Some t else s !! k'.
Proof. unfold save. apply lookup_insert. Qed.

Lemma lookup_save_eq k t s : save k t s !! k = Some t.
Proof. apply lookup_insert_eq. Qed.

Lemma lookup_save_ne k k' t s : k ≠ k' → save k t s !! k' = s !! k'.
Proof. apply lookup_insert_ne. Qed.

Lemma lookup_create_fresh t s : create t s !! fresh_pk s = Some t.
Proof. apply lookup_insert_eq. Qed.

Lemma lookup_create_old t s k t' :
  s !! k = Some t' → create t s !! k = Some t'.
Proof.
  intros Hk. unfold create. rewrite lookup_insert_ne; [done|].
  by eapply fresh_pk_ne.
Qed.

Lemma lookup_save_last_generated k k' v s :
  save_last_generated k v s !! k'
  = if decide (k = k') then set_last_generated v <$> s !! k' else s !! k'.
Proof.
  unfold save_last_generated. rewrite lookup_alter. by repeat case_decide; subst.
Qed.

Lemma pending_instance_of_parent T t :
  pending_instance_of T t = true → parent_task t = Some T.
Proof.
  unfold pending_instance_of. intros H.
  apply andb_true_iff in H as [H _]. apply andb_true_iff in H as [H _].
  by apply bool_decide_eq_true in H.
Qed.

Lemma pending_instance_of_status T t :
  pending_instance_of T t = true → status t = Pending.
Proof.
  unfold pending_instance_of. intros H.
  apply andb_true_iff in H as [H _]. apply andb_true_iff in H as [_ H].
  by apply bool_decide_eq_true in H.
Qed.

End StoreFacts.

(** ** Completion toggles *)

Lemma toggled_pending today t :
  status t = Pending → status (toggled today t) = Complete.
Proof. intros H. unfold toggled. by rewrite bool_decide_eq_false_2; [|congruence]. Qed.

Lemma status_store today s request id origin t :
  s !! id = Some t →
  (views.status today s request id origin).1 = save id (toggled today t) s.
Proof. intros Hl. unfold views.status. by rewrite Hl. Qed.

Lemma toggled_status today t :
  status (toggled today t)
  = match status t with Pending => Complete | Complete => Pending end.
Proof. unfold toggled. destruct t as [? ? ? ? []]; reflexivity. Qed.

Lemma toggled_completed_date today t :
  completed_date (toggled today t)
  = match status t with Pending => Some today | Complete => None end.
Proof. unfold toggled. destruct t as [? ? ? ? []]; reflexivity. Qed.

Lemma status_row today s request id origin t :
  s !! id = Some t →
  (views.status today s request id origin).1 !! id = Some (toggled today t).
Proof.
  intros Hl. rewrite (status_store _ _ _ _ _ _ Hl). apply lookup_save_eq.
Qed.

(** The row a [status_htmx] toggle leaves under the toggled key: the
    toggled row, up to [last_generated]. *)
Lemma status_htmx_row Task_defaults today s request id t :
  s !! id = Some t →
  ∃ t', (views.status_htmx Task_defaults today s request id).1 !! id = Some t'
        ∧ status t' = status (toggled today t)
        ∧ completed_date t' = completed_date (toggled today t).
Proof.
  intros Hl. unfold views.status_htmx. rewrite Hl. fold (toggled today t).
  assert (save id (toggled today t) s !! id = Some (toggled today t)) as Hs
    by apply lookup_save_eq.
  case_bool_decide; [|eauto].
  destruct (fetch_parent _ _) as [|p parent|]; simpl; [eauto| |eauto].
  destruct (is_recurring parent && negb (archived parent)); [|eauto].
  destruct (exists_row _ _); simpl; [eauto|].
  rewrite lookup_save_last_generated.
  rewrite (lookup_create_old _ _ _ _ Hs).
  case_decide; simpl; eauto.
Qed.

(** What [status_htmx] does when it completes the one pending instance of
    a live recurring template: a single row is added, built from the
    template, and the template is stamped. *)
Lemma status_htmx_spawns (Task_defaults : Task) (today : date) (s : Store)
    (request : Request) (id p : pk) (t parent : Task) :
  s !! id = Some t → status t = Pending →
  parent_task t = Some p → p ≠ id → s !! p = Some parent →
  is_recurring parent = true → archived parent = false →
  (∀ k r, s !! k = Some r → k ≠ id → pending_instance_of p r = false) →
  let s' := (views.status_htmx Task_defaults today s request id).1 in
  ∃ n inst,
    s !! n = None
    ∧ s' !! n = Some inst
    ∧ s' !! id = Some (toggled today t)
    ∧ s' !! p = Some (set_last_generated (Some today) parent)
    ∧ (∀ k, k ≠ n → k ≠ id → k ≠ p → s' !! k = s !! k)
    ∧ user inst = user parent ∧ folder inst = folder parent
    ∧ title inst = title parent ∧ priority inst = priority parent
    ∧ due_date inst = Some today ∧ due_time inst = due_time parent
    ∧ status inst = Pending ∧ parent_task inst = Some p.
Proof.
  intros Hl Hp Hpar Hne Hlp Hrec Harch Hnone s'. subst s'.
  unfold views.status_htmx. rewrite Hl. fold (toggled today t).
  set (s1 := save id (toggled today t) s).
  assert (status (toggled today t) = Complete) as Hc by by apply toggled_pending.
  rewrite (bool_decide_eq_true_2 _ Hc).
  assert (s1 !! p = Some parent) as Hlp1.
  { unfold s1. by rewrite lookup_save_ne. }
  assert (fetch_parent s1 (toggled today t) = Parent p parent) as ->.
  { unfold fetch_parent.
    replace (parent_task (toggled today t)) with (Some p).
    - by rewrite Hlp1.
    - rewrite <- Hpar. unfold toggled. by case_bool_decide. }
  rewrite Hrec, Harch. simpl.
  assert (exists_row (λ _ r, pending_instance_of p r) s1 = false) as ->.
  { destruct (exists_row _ s1) eqn:Hex; [|done].
    apply exists_row_true in Hex as (k & r & Hk & Hr).
    unfold s1 in Hk. rewrite lookup_save in Hk. case_decide.
    - injection Hk as <-. apply pending_instance_of_status in Hr. congruence.
    - by rewrite (Hnone k r Hk) in Hr. }
  simpl. set (inst := new_instance _ _ _ _ _ _ _ _).
  exists (fresh_pk s1), inst.
  assert (s1 !! fresh_pk s1 = None) as Hfresh by apply fresh_pk_None.
  assert (fresh_pk s1 ≠ id) as Hnid.
  { eapply fresh_pk_ne. apply lookup_save_eq. }
  assert (fresh_pk s1 ≠ p) as Hnp.
  { by eapply fresh_pk_ne. }
  split; [|split; [|split; [|split; [|split]]]].
  - unfold s1 in Hfresh. by rewrite lookup_save_ne in Hfresh.
  - rewrite lookup_save_last_generated, decide_False by done.
    apply lookup_create_fresh.
  - rewrite lookup_save_last_generated, decide_False by done.
    apply lookup_create_old, lookup_save_eq.
  - rewrite lookup_save_last_generated, decide_True by done.
    by rewrite (lookup_create_old _ _ _ _ Hlp1).
  - intros k Hkn Hkid Hkp.
    rewrite lookup_save_last_generated, decide_False by done.
    unfold create. rewrite lookup_insert_ne by done.
    unfold s1. by rewrite lookup_save_ne.
  - by repeat split.
Qed.

(** ** Edits *)

Lemma capitalize_truthy (x ttl : string) :
  capitalize x = Some ttl → truthy x = true.
Proof. by destruct x. Qed.

Section Edits.

Variable on_delete : OnDelete.
Variable Task_defaults : Task.

Implicit Types (s : Store) (t task : Task) (form : forms.TaskForm).

Ltac bind_form Hc :=
  cbn [title set_user forms.save_commit_False set_status set_due_time
       set_due_date set_priority set_title set_folder];
  rewrite Hc.

Ltac split_branches :=
  cbv zeta;
  repeat match goal with
         | |- context [if ?b then _ else _] => destruct b; cbv beta iota
         | |- context [first_of ?l] => destruct (first_of l) as [[? ?]|]
         end;
  reflexivity.

Lemma derive_recurrence_same recurrence due t :
  same_columns (derive_recurrence recurrence due t) t
  ∧ is_recurring (derive_recurrence recurrence due t) = is_recurring t
  ∧ recurrence_type (derive_recurrence recurrence due t) = recurrence_type t
  ∧ last_generated (derive_recurrence recurrence due t) = last_generated t.
Proof.
  unfold derive_recurrence, same_columns. destruct due as [d|]; [|done].
  repeat (destruct (String.eqb _ _); [done|]). done.
Qed.

Lemma recurrence_applied_same recurrence task :
  same_columns (recurrence_applied recurrence task) task
  ∧ is_recurring (recurrence_applied recurrence task) = truthy recurrence
  ∧ last_generated (recurrence_applied recurrence task) = last_generated task.
Proof.
  unfold recurrence_applied. destruct (truthy recurrence); [|done].
  cbv zeta.
  destruct (derive_recurrence_same recurrence
              (due_date (set_recurrence_type (Some recurrence)
                           (set_is_recurring true task)))
              (set_recurrence_type (Some recurrence)
                 (set_is_recurring true task)))
    as (Hsame & Hrec & _ & Hlast).
  split; [exact Hsame|]. split; [exact Hrec|exact Hlast].
Qed.

Lemma recurrence_applied_type recurrence task :
  truthy recurrence = true →
  recurrence_type (recurrence_applied recurrence task) = Some recurrence.
Proof.
  intros Htr. unfold recurrence_applied. rewrite Htr. cbv zeta.
  by destruct (derive_recurrence_same recurrence
                 (due_date (set_recurrence_type (Some recurrence)
                              (set_is_recurring true task)))
                 (set_recurrence_type (Some recurrence)
                    (set_is_recurring true task)))
    as (_ & _ & -> & _).
Qed.

Lemma with_completed_date_same old task task' :
  with_completed_date old task = Some task' →
  user task' = user task
  ∧ folder task' = folder task
  ∧ title task' = title task
  ∧ priority task' = priority task
  ∧ status task' = status task
  ∧ due_date task' = due_date task
  ∧ due_time task' = due_time task
  ∧ is_recurring task' = is_recurring task
  ∧ recurrence_day task' = recurrence_day task
  ∧ recurrence_month task' = recurrence_month task
  ∧ parent_task task' = parent_task task
  ∧ archived task' = archived task.
Proof.
  unfold with_completed_date.
  destruct (_ && _); [done|]. destruct (_ && _); by intros [= <-].
Qed.

(** [task_form] stops on the unbound [date] exactly when the form marks
    complete a task that was not. *)
Lemma with_completed_date_None u form ttl t :
  with_completed_date (status t) (edited u form ttl t) = None
  ↔ completes form t = true.
Proof.
  unfold with_completed_date, completes.
  change (status (edited u form ttl t)) with (forms.status form).
  destruct (_ && _); [done|]. by destruct (_ && _).
Qed.

Lemma with_completed_date_Some u form ttl t :
  completes form t = false →
  ∃ task, with_completed_date (status t) (edited u form ttl t) = Some task.
Proof.
  intros Hc.
  destruct (with_completed_date (status t) (edited u form ttl t)) as [task|]
    eqn:Hw; [by exists task|].
  apply with_completed_date_None in Hw. congruence.
Qed.

Lemma weekday_next_day y m d :
  weekday (mkDate y m (d + 1)) = (weekday (mkDate y m d) + 1) mod 7.
Proof.
  unfold weekday, toordinal. cbn [year month day].
  rewrite Zplus_mod_idemp_l. f_equal. lia.
Qed.

Lemma weekday_range d : 0 ≤ weekday d ≤ 6.
Proof.
  unfold weekday. pose proof (Z.mod_pos_bound (toordinal d + 6) 7). lia.
Qed.

Lemma derive_recurrence_rule recurrence due before t :
  recurrence_day t = recurrence_day before →
  recurrence_month t = recurrence_month before →
  follows_derivation_rule recurrence due before
    (derive_recurrence recurrence due t).
Proof.
  intros Hd Hm. unfold follows_derivation_rule, derive_recurrence.
  destruct due as [d|]; [|done].
  split; [|split; [|split]]; intros ->; simpl; [done|done| |done].
  split; [done|]. split; [apply weekday_range|done].
Qed.

Lemma edit_store today s request id t form ttl :
  s !! id = Some t →
  method request = POST →
  cleaned_data request = Some form →
  capitalize (forms.title form) = Some ttl →
  fetch_parent s t ≠ Missing →
  (views.edit on_delete Task_defaults today s request id).1
  = edit_writes on_delete Task_defaults today s id (is_recurring t)
      (fetch_parent s t) (forms.recurrence form)
      (edited (request_user request) form ttl t).
Proof.
  intros Hl Hm Hf Hc Hfetch.
  unfold views.edit, edit_writes. rewrite Hm, Hl, Hf. bind_form Hc.
  fold (forms.save_commit_False form t).
  fold (edited (request_user request) form ttl t).
  destruct (fetch_parent s t) as [|p parent|]; [| |done].
  - unfold recurrence_applied. set (task := edited _ _ _ _). split_branches.
  - unfold synced. set (task := edited _ _ _ _). split_branches.
Qed.

Lemma task_form_store today s request id t form ttl task :
  s !! id = Some t →
  method request = POST →
  cleaned_data request = Some form →
  capitalize (forms.title form) = Some ttl →
  fetch_parent s t ≠ Missing →
  with_completed_date (status t) (edited (request_user request) form ttl t)
  = Some task →
  (views.task_form on_delete Task_defaults today s request id).1
  = edit_writes on_delete Task_defaults today s id (is_recurring t)
      (fetch_parent s t) (forms.recurrence form) task.
Proof.
  intros Hl Hm Hf Hc Hfetch Hw.
  unfold views.task_form, edit_writes. rewrite Hm, Hl, Hf. bind_form Hc.
  fold (forms.save_commit_False form t).
  fold (edited (request_user request) form ttl t).
  unfold with_completed_date in Hw.
  destruct (bool_decide (status (edited (request_user request) form ttl t)
                         = Complete) && bool_decide (status t ≠ Complete));
    [done|].
  assert (task
          = if bool_decide (status (edited (request_user request) form ttl t)
                            ≠ Complete) && bool_decide (status t = Complete)
            then set_completed_date None
                   (edited (request_user request) form ttl t)
            else edited (request_user request) form ttl t) as Htask.
  { destruct (_ && _); by injection Hw as <-. }
  rewrite <- Htask. clear Hw Htask.
  destruct (fetch_parent s t) as [|p parent|]; [| |done].
  - unfold recurrence_applied. split_branches.
  - unfold synced. split_branches.
Qed.

(** The same request when the form marks complete a task that was not:
    the view fails before its first write. *)
Lemma task_form_unbound today s request id t form ttl :
  s !! id = Some t →
  method request = POST →
  cleaned_data request = Some form →
  capitalize (forms.title form) = Some ttl →
  fetch_parent s t ≠ Missing →
  completes form t = true →
  views.task_form on_delete Task_defaults today s request id
  = (s, Uncaught "UnboundLocalError").
Proof.
  intros Hl Hm Hf Hc Hfetch Hcomp.
  unfold views.task_form. rewrite Hm, Hl, Hf. bind_form Hc.
  fold (forms.save_commit_False form t).
  fold (edited (request_user request) form ttl t).
  change (status (edited (request_user request) form ttl t))
    with (forms.status form).
  unfold completes in Hcomp. rewrite Hcomp.
  by destruct (fetch_parent s t).
Qed.

Lemma fetch_parent_None s t : parent_task t = None → fetch_parent s t = NoParent.
Proof. intros H. unfold fetch_parent. by rewrite H. Qed.

Lemma fetch_parent_Some s t p parent :
  parent_task t = Some p → s !! p = Some parent →
  fetch_parent s t = Parent p parent.
Proof. intros H Hp. unfold fetch_parent. by rewrite H, Hp. Qed.

(** The writes of an edit that turns recurrence on. *)
Lemma edit_writes_first_instance today s id task recurrence :
  truthy recurrence = true →
  ∃ n tk inst,
    s !! n = None
    ∧ edit_writes on_delete Task_defaults today s id false NoParent
        recurrence task !! n = Some inst
    ∧ edit_writes on_delete Task_defaults today s id false NoParent
        recurrence task !! id = Some tk
    ∧ (∀ k, k ≠ n → k ≠ id →
         edit_writes on_delete Task_defaults today s id false NoParent
           recurrence task !! k = s !! k)
    ∧ is_recurring tk = true ∧ last_generated tk = Some today
    ∧ same_columns tk task
    ∧ user inst = user tk ∧ folder inst = folder tk ∧ title inst = title tk
    ∧ priority inst = priority tk ∧ due_date inst = due_date tk
    ∧ due_time inst = due_time tk
    ∧ status inst = Pending ∧ parent_task inst = Some id
    ∧ archived inst = archived Task_defaults.
Proof.
  intros Htr. unfold edit_writes.
  destruct (recurrence_applied_same recurrence task) as (Hsame & Hrec & _).
  set (task' := recurrence_applied recurrence task) in *.
  rewrite Hrec, Htr. cbn [negb andb]. cbv zeta.
  set (s1 := save id task' s).
  set (inst := new_instance _ _ _ _ _ _ _ _).
  assert (s1 !! id = Some task') as Hid by apply lookup_save_eq.
  assert (fresh_pk s1 ≠ id) as Hnid by by eapply fresh_pk_ne.
  exists (fresh_pk s1), (set_last_generated (Some today) task'), inst.
  split; [|split; [|split; [|split]]].
  - rewrite <- (lookup_save_ne id (fresh_pk s1) task' s) by done.
    apply fresh_pk_None.
  - rewrite lookup_save_last_generated, decide_False by done.
    apply lookup_create_fresh.
  - rewrite lookup_save_last_generated, decide_True by done.
    by rewrite (lookup_create_old _ _ _ _ Hid).
  - intros k Hkn Hkid.
    rewrite lookup_save_last_generated, decide_False by done.
    unfold create. rewrite lookup_insert_ne by done.
    unfold s1. by rewrite lookup_save_ne.
  - split; [by rewrite <- Htr, <- Hrec|]. by repeat split; try apply Hsame.
Qed.

Lemma pending_of_parent p t : pending_of p t = true → parent_task t = Some p.
Proof.
  unfold pending_of. intros H. apply andb_true_iff in H as [H _].
  by apply bool_decide_eq_true in H.
Qed.

(** The row an edit leaves under the key of a task edited directly. *)
Lemma edit_writes_plain_row today s id was_recurring recurrence task :
  parent_task task = None →
  ∃ row,
    edit_writes on_delete Task_defaults today s id was_recurring NoParent
      recurrence task !! id = Some row
    ∧ (row = recurrence_applied recurrence task
       ∨ row = set_last_generated (Some today)
                 (recurrence_applied recurrence task)).
Proof.
  intros Hpar. unfold edit_writes.
  destruct (recurrence_applied_same recurrence task) as (Hsame & _).
  set (task' := recurrence_applied recurrence task) in *.
  cbv zeta. set (s1 := save id task' s).
  assert (s1 !! id = Some task') as Hid by apply lookup_save_eq.
  destruct (is_recurring task' && negb was_recurring).
  { exists (set_last_generated (Some today) task'). split; [|by right].
    rewrite lookup_save_last_generated, decide_True by done.
    by rewrite (lookup_create_old _ _ _ _ Hid). }
  destruct (is_recurring task' && was_recurring); [|eauto].
  destruct (first_of _) as [[k li]|] eqn:Hfirst; [|eauto].
  exists task'. split; [|by left].
  apply first_of_elem, elem_of_rows in Hfirst as [Hk Hpend].
  apply pending_of_parent in Hpend.
  rewrite lookup_save_ne; [done|]. intros ->.
  rewrite Hid in Hk. injection Hk as <-.
  destruct Hsame as (_ & _ & _ & _ & _ & _ & _ & _ & _ & Hp).
  congruence.
Qed.

(** The row an edit of an instance leaves under the key of its template
    when the form names a recurrence. *)
Lemma edit_writes_template_row today s id was_recurring recurrence task p
    parent :
  truthy recurrence = true →
  edit_writes on_delete Task_defaults today s id was_recurring
    (Parent p parent) recurrence task !! p
  = Some (derive_recurrence recurrence (due_date task)
            (set_recurrence_type (Some recurrence) (synced task parent))).
Proof. intros Htr. unfold edit_writes. rewrite Htr. apply lookup_save_eq. Qed.

(** An edit is one sequence of writes on an instance bound to the form. *)
Lemma edit_cases today s s' request id t form ttl :
  s !! id = Some t →
  method request = POST →
  cleaned_data request = Some form →
  capitalize (forms.title form) = Some ttl →
  fetch_parent s t ≠ Missing →
  s' = (views.edit on_delete Task_defaults today s request id).1
  ∨ (completes form t = false
     ∧ s' = (views.task_form on_delete Task_defaults today s request id).1) →
  ∃ task,
    s' = edit_writes on_delete Task_defaults today s id (is_recurring t)
           (fetch_parent s t) (forms.recurrence form) task
    ∧ user task = request_user request ∧ folder task = forms.folder form
    ∧ title task = ttl ∧ priority task = forms.priority form
    ∧ status task = forms.status form
    ∧ due_date task = forms.due_date form
    ∧ due_time task = forms.due_time form
    ∧ is_recurring task = is_recurring t
    ∧ recurrence_day task = recurrence_day t
    ∧ recurrence_month task = recurrence_month t
    ∧ parent_task task = parent_task t
    ∧ archived task = archived t.
Proof.
  intros Hl Hm Hf Hc Hnm [-> | [Hcomp ->]].
  - rewrite (edit_store _ _ _ _ _ _ _ Hl Hm Hf Hc Hnm).
    eexists. split; [reflexivity|]. by repeat split.
  - destruct (with_completed_date_Some (request_user request) form ttl t Hcomp)
      as (task & Hw).
    rewrite (task_form_store _ _ _ _ _ _ _ _ Hl Hm Hf Hc Hnm Hw).
    exists task. split; [reflexivity|].
    destruct (with_completed_date_same _ _ _ Hw)
      as (-> & -> & -> & -> & -> & -> & -> & -> & -> & -> & -> & ->).
    by repeat split.
Qed.

(** The writes of an edit of an instance whose form clears the recurrence. *)
Lemma edit_writes_detach today s id was_recurring recurrence task p parent :
  truthy recurrence = false →
  p ≠ id →
  edit_writes on_delete Task_defaults today s id was_recurring
    (Parent p parent) recurrence task !! p = None
  ∧ edit_writes on_delete Task_defaults today s id was_recurring
      (Parent p parent) recurrence task !! id
    = Some (set_parent_task None task).
Proof.
  intros Htr Hne. unfold edit_writes. rewrite Htr. cbv zeta. split.
  - rewrite lookup_save_ne by done. apply delete_row_self.
  - apply lookup_save_eq.
Qed.

(** Whatever the branch, an edit leaves a row under the edited key, and
    that row carries the folder, title, priority and due time of the
    form. *)
Lemma edit_writes_row today s id t recurrence task :
  fetch_parent s t ≠ Missing →
  parent_task task = parent_task t →
  ∃ row,
    edit_writes on_delete Task_defaults today s id (is_recurring t)
      (fetch_parent s t) recurrence task !! id = Some row
    ∧ folder row = folder task ∧ title row = title task
    ∧ priority row = priority task ∧ due_time row = due_time task.
Proof.
  intros Hnm Hpar. unfold fetch_parent in *.
  destruct (parent_task t) as [p|] eqn:Hp.
  - destruct (s !! p) as [parent|]; [|done].
    unfold edit_writes. destruct (truthy recurrence); cbv zeta.
    + rewrite lookup_save. case_decide.
      * eexists. split; [reflexivity|].
        destruct (derive_recurrence_same recurrence (due_date task)
                    (set_recurrence_type (Some recurrence)
                       (synced task parent)))
          as ((_ & -> & -> & -> & _ & _ & -> & _) & _).
        by repeat split.
      * rewrite lookup_save_eq. eexists. split; [reflexivity|by repeat split].
    + rewrite lookup_save_eq. eexists. split; [reflexivity|by repeat split].
  - destruct (edit_writes_plain_row today s id (is_recurring t) recurrence
                task Hpar) as (row & Hrow & Hshape).
    exists row. split; [done|].
    destruct (recurrence_applied_same recurrence task)
      as ((_ & Hf & Ht & Hpr & _ & _ & Hdt & _) & _).
    by destruct Hshape as [-> | ->].
Qed.

End Edits.

(** ** One pending instance per template *)

Lemma at_most_one_pendingb_sound s :
  at_most_one_pendingb s = true → at_most_one_pending s.
Proof.
  unfold at_most_one_pendingb. rewrite forallb_forall.
  intros Hall T i j ti tj Hi Hj Pi Pj.
  specialize (Hall (i, ti)). rewrite forallb_forall in Hall.
  assert (negb (clash (i, ti) (j, tj)) = true) as Hc.
  { apply Hall; apply list_elem_of_In; by apply elem_of_map_to_list. }
  unfold clash in Hc. simpl in Hc.
  rewrite (pending_instance_of_parent _ _ Pi), Pi, Pj in Hc. simpl in Hc.
  apply negb_true_iff, negb_false_iff, bool_decide_eq_true in Hc. done.
Qed.

(** A table whose pending instances are all pending instances of another
    table, under the same keys, inherits the bound. *)
Lemma at_most_one_pending_shrink (s s' : Store) :
  (∀ T i t', s' !! i = Some t' → pending_instance_of T t' = true →
     ∃ t, s !! i = Some t ∧ pending_instance_of T t = true) →
  at_most_one_pending s → at_most_one_pending s'.
Proof.
  intros Hsub Hinv T i j ti tj Hi Hj Pi Pj.
  destruct (Hsub T i ti Hi Pi) as (ti0 & Hi0 & Pi0).
  destruct (Hsub T j tj Hj Pj) as (tj0 & Hj0 & Pj0).
  by eapply Hinv.
Qed.

Lemma save_complete_keeps_bound (s : Store) id t :
  status t = Complete →
  at_most_one_pending s → at_most_one_pending (save id t s).
Proof.
  intros Hc. apply at_most_one_pending_shrink. intros T i t' Hi Pi.
  rewrite lookup_save in Hi. case_decide; [|eauto].
  injection Hi as <-. apply pending_instance_of_status in Pi. congruence.
Qed.

Lemma create_keeps_bound (s : Store) t p :
  parent_task t = Some p →
  exists_row (λ _ r, pending_instance_of p r) s = false →
  at_most_one_pending s → at_most_one_pending (create t s).
Proof.
  intros Hp Hnone Hinv T i j ti tj Hi Hj Pi Pj.
  unfold create in Hi, Hj.
  rewrite lookup_insert in Hi, Hj.
  destruct (decide (fresh_pk s = i)) as [<-|Hni];
    destruct (decide (fresh_pk s = j)) as [<-|Hnj]; [done| | |by eapply Hinv].
  - exfalso. injection Hi as <-.
    apply pending_instance_of_parent in Pi. rewrite Hp in Pi. injection Pi as <-.
    by rewrite (exists_row_false _ _ _ _ Hnone Hj) in Pj.
  - exfalso. injection Hj as <-.
    apply pending_instance_of_parent in Pj. rewrite Hp in Pj. injection Pj as <-.
    by rewrite (exists_row_false _ _ _ _ Hnone Hi) in Pi.
Qed.

Lemma save_last_generated_keeps_bound (s : Store) k v :
  at_most_one_pending s → at_most_one_pending (save_last_generated k v s).
Proof.
  apply at_most_one_pending_shrink. intros T i t' Hi Pi.
  rewrite lookup_save_last_generated in Hi. case_decide; [|eauto].
  destruct (s !! i) as [t|] eqn:Hl; [|done]. injection Hi as <-. eauto.
Qed.

Lemma pending_instance_of_cols T (a b : Task) :
  status a = status b → archived a = archived b →
  parent_task a = parent_task b →
  pending_instance_of T a = pending_instance_of T b.
Proof. unfold pending_instance_of. by intros -> -> ->. Qed.

Lemma not_instance_not_pending T (t : Task) :
  parent_task t = None → pending_instance_of T t = false.
Proof. intros H. unfold pending_instance_of. by rewrite H. Qed.

(** A row written next to no pending, live instance of its template. *)
Lemma save_sole_keeps_bound (s : Store) id x T :
  parent_task x = Some T →
  exists_row (λ _ r, pending_instance_of T r) s = false →
  at_most_one_pending s → at_most_one_pending (save id x s).
Proof.
  intros Hp Hnone Hinv T' i j ti tj Hi Hj Pi Pj.
  rewrite lookup_save in Hi, Hj.
  destruct (decide (id = i)) as [<-|Hni];
    destruct (decide (id = j)) as [<-|Hnj]; [done| | |by eapply Hinv].
  - exfalso. injection Hi as <-.
    apply pending_instance_of_parent in Pi. rewrite Hp in Pi. injection Pi as <-.
    by rewrite (exists_row_false _ _ _ _ Hnone Hj) in Pj.
  - exfalso. injection Hj as <-.
    apply pending_instance_of_parent in Pj. rewrite Hp in Pj. injection Pj as <-.
    by rewrite (exists_row_false _ _ _ _ Hnone Hi) in Pi.
Qed.

Lemma toggled_parent_task today t : parent_task (toggled today t) = parent_task t.
Proof. unfold toggled. by case_bool_decide. Qed.

Lemma toggled_archived today t : archived (toggled today t) = archived t.
Proof. unfold toggled. by case_bool_decide. Qed.

Lemma save_toggled_keeps_bound today (s : Store) id t :
  s !! id = Some t →
  toggle_respects_bound s id = true →
  at_most_one_pending s → at_most_one_pending (save id (toggled today t) s).
Proof.
  intros Hl Hok Hinv. unfold toggle_respects_bound in Hok. rewrite Hl in Hok.
  destruct (status t) eqn:Hst.
  { apply save_complete_keeps_bound; [by apply toggled_pending|done]. }
  pose proof (toggled_parent_task today t) as Hpar.
  pose proof (toggled_archived today t) as Harch.
  destruct (parent_task t) as [T|] eqn:Hp.
  - rewrite bool_decide_eq_false_2 in Hok by congruence. simpl in Hok.
    apply orb_true_iff in Hok as [Har|Hnone].
    + revert Hinv. apply at_most_one_pending_shrink. intros T' i t' Hi Pi.
      rewrite lookup_save in Hi. case_decide; [|eauto].
      injection Hi as <-. unfold pending_instance_of in Pi.
      rewrite Harch, Har in Pi. simpl in Pi.
      by rewrite andb_false_r in Pi.
    + apply negb_true_iff in Hnone. by eapply save_sole_keeps_bound.
  - revert Hinv. apply at_most_one_pending_shrink. intros T' i t' Hi Pi.
    rewrite lookup_save in Hi. case_decide; [|eauto].
    injection Hi as <-. by rewrite not_instance_not_pending in Pi.
Qed.

Lemma toggles_keep_bound Task_defaults today (s : Store) request id origin :
  toggle_respects_bound s id = true →
  at_most_one_pending s →
  at_most_one_pending (views.status today s request id origin).1
  ∧ at_most_one_pending
      (views.status_htmx Task_defaults today s request id).1.
Proof.
  intros Hok Hinv. unfold views.status, views.status_htmx.
  destruct (s !! id) as [t|] eqn:Hl; [|done].
  fold (toggled today t).
  assert (at_most_one_pending (save id (toggled today t) s)) as Hinv1
    by by apply save_toggled_keeps_bound.
  split; [done|].
  case_bool_decide; [|done].
  destruct (fetch_parent _ _) as [|p parent|] eqn:Hf; simpl; [done| |done].
  destruct (is_recurring parent && negb (archived parent)); [|done].
  destruct (exists_row _ _) eqn:Hex; simpl; [done|].
  apply save_last_generated_keeps_bound.
  eapply create_keeps_bound; [reflexivity|exact Hex|done].
Qed.

(** The toggles left out do break the bound: reverting a live instance
    whose template has a pending, live instance leaves two. *)
Lemma other_toggles_break_bound Task_defaults today (s : Store) request id
    origin :
  toggle_respects_bound s id = false →
  ¬ at_most_one_pending (views.status today s request id origin).1
  ∧ ¬ at_most_one_pending
        (views.status_htmx Task_defaults today s request id).1.
Proof.
  intros Hno. unfold toggle_respects_bound in Hno.
  destruct (s !! id) as [t|] eqn:Hl; [|done].
  destruct (parent_task t) as [T|] eqn:Hp; [|done].
  apply orb_false_iff in Hno as [Hno Hex].
  apply orb_false_iff in Hno as [Hst Har].
  apply bool_decide_eq_false in Hst. apply negb_false_iff in Hex.
  apply exists_row_true in Hex as (k & r & Hk & Hr).
  assert (status t = Complete) as Hc by by destruct (status t).
  assert (k ≠ id) as Hne.
  { intros ->. rewrite Hl in Hk. injection Hk as <-.
    apply pending_instance_of_status in Hr. congruence. }
  assert (pending_instance_of T (toggled today t) = true) as Ht.
  { unfold pending_instance_of.
    rewrite toggled_parent_task, toggled_archived, toggled_status, Hp, Hc, Har.
    by rewrite !bool_decide_eq_true_2. }
  assert (¬ at_most_one_pending (save id (toggled today t) s)) as Hbreak.
  { intros Hinv. apply Hne. symmetry.
    apply (Hinv T id k (toggled today t) r);
      [apply lookup_save_eq|by rewrite lookup_save_ne|done|done]. }
  unfold views.status, views.status_htmx. rewrite Hl. fold (toggled today t).
  split; [done|].
  rewrite bool_decide_eq_false_2; [done|].
  rewrite toggled_status, Hc. discriminate.
Qed.

(** ** Edits and the bound on pending instances *)

Section EditsKeepBound.

Variable on_delete : OnDelete.
Variable Task_defaults : Task.

Implicit Types (s : Store) (t task : Task).

Lemma delete_row_pending pol p s T i t' :
  delete_row pol p s !! i = Some t' →
  pending_instance_of T t' = true →
  s !! i = Some t'.
Proof.
  destruct pol; simpl.
  - intros H _. by apply map_lookup_filter_Some in H as [H _].
  - rewrite lookup_fmap. intros H Hp.
    destruct (base.delete p s !! i) as [t|] eqn:Hd; [|done].
    simpl in H. injection H as <-.
    apply lookup_delete_Some in Hd as [_ Hd]. rewrite Hd. f_equal.
    unfold detach in *. case_bool_decide; [|done].
    apply pending_instance_of_parent in Hp. discriminate.
Qed.

Lemma exists_row_save_false (P : pk → Task → bool) id x s :
  exists_row P s = false → P id x = false →
  exists_row P (save id x s) = false.
Proof.
  intros Hs Hx. destruct (exists_row P (save id x s)) eqn:Hex; [|done].
  apply exists_row_true in Hex as (k & r & Hk & Hr).
  rewrite lookup_save in Hk. case_decide.
  - injection Hk as <-. subst. congruence.
  - by rewrite (exists_row_false _ _ _ _ Hs Hk) in Hr.
Qed.

(** The writes of an edit keep the bound when the edit neither reopens a
    live instance next to a pending one nor turns recurrence on over a
    pending instance. *)
Lemma edit_writes_keeps_bound today s id t recurrence task :
  s !! id = Some t →
  fetch_parent s t ≠ Missing →
  parent_task task = parent_task t →
  archived task = archived t →
  match parent_task t with
  | Some T =>
      truthy recurrence = true → status task = Pending →
      status t = Pending ∨ archived t = true
      ∨ exists_row (λ _ r, pending_instance_of T r) s = false
  | None =>
      is_recurring t = false → truthy recurrence = true →
      exists_row (λ _ r, pending_instance_of id r) s = false
  end →
  at_most_one_pending s →
  at_most_one_pending
    (edit_writes on_delete Task_defaults today s id (is_recurring t)
       (fetch_parent s t) recurrence task).
Proof.
  intros Hl Hnm Hpar Harch Hcond Hinv. unfold fetch_parent in *.
  destruct (parent_task t) as [p|] eqn:Hp.
  - destruct (s !! p) as [parent|] eqn:Hlp; [|done].
    unfold edit_writes. destruct (truthy recurrence); cbv zeta.
    + set (parent' := derive_recurrence _ _ _).
      assert (∀ T, pending_instance_of T parent'
                   = pending_instance_of T parent) as Hparent.
      { intros T.
        destruct (derive_recurrence_same recurrence (due_date task)
                    (set_recurrence_type (Some recurrence)
                       (synced task parent)))
          as ((_ & _ & _ & _ & Hst & _ & _ & _ & Har & Hpa) & _).
        by apply pending_instance_of_cols. }
      destruct (decide (p = id)) as [->|Hne].
      { unfold save. rewrite insert_insert_eq.
        revert Hinv. apply at_most_one_pending_shrink. intros T i t' Hi Pi.
        rewrite lookup_insert in Hi. case_decide; [|eauto]. subst.
        injection Hi as <-. exists parent. split; [done|].
        by rewrite <- Hparent. }
      assert (at_most_one_pending (save id task s)) as Hinv1.
      { destruct (status task) eqn:Hst;
          [|by apply save_complete_keeps_bound].
        destruct (Hcond eq_refl eq_refl) as [Hwas|[Har|Hnone]].
        - revert Hinv. apply at_most_one_pending_shrink. intros T i t' Hi Pi.
          rewrite lookup_save in Hi. case_decide; [|eauto]. subst.
          injection Hi as <-. exists t. split; [done|]. rewrite <- Pi.
          symmetry. apply pending_instance_of_cols; congruence.
        - revert Hinv. apply at_most_one_pending_shrink. intros T i t' Hi Pi.
          rewrite lookup_save in Hi. case_decide; [|eauto]. subst.
          injection Hi as <-. unfold pending_instance_of in Pi.
          rewrite Harch, Har in Pi. by rewrite andb_false_r in Pi.
        - by eapply save_sole_keeps_bound. }
      revert Hinv1. apply at_most_one_pending_shrink. intros T i t' Hi Pi.
      rewrite lookup_save in Hi. case_decide; [|eauto]. subst.
      injection Hi as <-. exists parent.
      split; [by rewrite lookup_save_ne|]. by rewrite <- Hparent.
    + revert Hinv. apply at_most_one_pending_shrink. intros T i t' Hi Pi.
      rewrite lookup_save in Hi. case_decide; subst.
      * injection Hi as <-. by rewrite not_instance_not_pending in Pi.
      * apply (delete_row_pending _ _ _ _ _ _ Hi) in Pi as Hi1.
        rewrite lookup_save_ne in Hi1 by done. eauto.
  - unfold edit_writes.
    destruct (recurrence_applied_same recurrence task) as (Hsame & Hrec & _).
    set (task' := recurrence_applied recurrence task) in *.
    cbv zeta. set (s1 := save id task' s).
    assert (parent_task task' = None) as Hnone.
    { destruct Hsame as (_ & _ & _ & _ & _ & _ & _ & _ & _ & ->). congruence. }
    assert (at_most_one_pending s1) as Hinv1.
    { revert Hinv. apply at_most_one_pending_shrink. intros T i t' Hi Pi.
      unfold s1 in Hi. rewrite lookup_save in Hi. case_decide; [|eauto].
      injection Hi as <-. by rewrite not_instance_not_pending in Pi. }
    destruct (is_recurring task' && negb (is_recurring t)) eqn:Hbecame.
    { apply andb_true_iff in Hbecame as [Hnow Hwas].
      apply negb_true_iff in Hwas. rewrite Hrec in Hnow.
      apply save_last_generated_keeps_bound.
      eapply create_keeps_bound; [reflexivity| |done].
      apply exists_row_save_false; [by apply Hcond|].
      by apply not_instance_not_pending. }
    destruct (is_recurring task' && is_recurring t); [|done].
    destruct (first_of _) as [[k li]|] eqn:Hfirst; [|done].
    apply first_of_elem, elem_of_rows in Hfirst as [Hk _].
    revert Hinv1. apply at_most_one_pending_shrink. intros T i t' Hi Pi.
    rewrite lookup_save in Hi. case_decide; [|eauto]. subst.
    injection Hi as <-. eauto.
Qed.

(** [edit] either writes nothing or is a POST of a valid form for a row
    that exists; so is [task_form]. *)
Lemma edit_writes_or_not today s request id :
  (views.edit on_delete Task_defaults today s request id).1 = s
  ∨ ∃ t form ttl,
      s !! id = Some t ∧ method request = POST
      ∧ cleaned_data request = Some form
      ∧ capitalize (forms.title form) = Some ttl
      ∧ fetch_parent s t ≠ Missing.
Proof.
  unfold views.edit.
  destruct (method request) eqn:Hm;
    destruct (s !! id) as [t|] eqn:Hl; try by left.
  - left. cbv zeta.
    destruct (folder t); [destruct (List.filter _ _) as [|? [|? ?]]|];
      try done; by destruct (fetch_parent s t).
  - destruct (fetch_parent s t) eqn:Hf; [| |by left];
      (destruct (cleaned_data request) as [form|] eqn:Hc; [|by left]);
      cbn [title set_user forms.save_commit_False set_status set_due_time
           set_due_date set_priority set_title set_folder];
      (destruct (capitalize (forms.title form)) as [ttl|] eqn:Hcap; [|by left]);
      right; exists t, form, ttl; rewrite Hf; by repeat split.
Qed.

Lemma task_form_posts_or_not today s request id :
  (views.task_form on_delete Task_defaults today s request id).1 = s
  ∨ ∃ t form ttl,
      s !! id = Some t ∧ method request = POST
      ∧ cleaned_data request = Some form
      ∧ capitalize (forms.title form) = Some ttl
      ∧ fetch_parent s t ≠ Missing.
Proof.
  unfold views.task_form.
  destruct (s !! id) as [t|] eqn:Hl; [|by left].
  destruct (method request) eqn:Hm.
  - destruct (fetch_parent s t); by left.
  - destruct (fetch_parent s t) eqn:Hf; [| |by left];
      (destruct (cleaned_data request) as [form|] eqn:Hc; [|by left]);
      cbn [title set_user forms.save_commit_False set_status set_due_time
           set_due_date set_priority set_title set_folder];
      (destruct (capitalize (forms.title form)) as [ttl|] eqn:Hcap; [|by left]);
      right; exists t, form, ttl; rewrite Hf; by repeat split.
Qed.

(** [task_form] writes nothing, too, when it stops on the unbound
    [date]. *)
Lemma task_form_writes_or_not today s request id :
  (views.task_form on_delete Task_defaults today s request id).1 = s
  ∨ ∃ t form ttl,
      s !! id = Some t ∧ method request = POST
      ∧ cleaned_data request = Some form
      ∧ capitalize (forms.title form) = Some ttl
      ∧ fetch_parent s t ≠ Missing
      ∧ completes form t = false.
Proof.
  destruct (task_form_posts_or_not today s request id)
    as [Heq|(t & form & ttl & Hl & Hm & Hf & Hc & Hnm)]; [by left|].
  destruct (completes form t) eqn:Hcomp.
  - left. by rewrite (task_form_unbound on_delete Task_defaults today s request
                        id t form ttl Hl Hm Hf Hc Hnm Hcomp).
  - right. by exists t, form, ttl.
Qed.

(** Both views at once: nothing is written, or the request is one that
    [edit_cases] describes. *)
Lemma edit_views_write_or_not today s s' request id :
  s' = (views.edit on_delete Task_defaults today s request id).1
  ∨ s' = (views.task_form on_delete Task_defaults today s request id).1 →
  s' = s
  ∨ ∃ t form ttl,
      s !! id = Some t ∧ method request = POST
      ∧ cleaned_data request = Some form
      ∧ capitalize (forms.title form) = Some ttl
      ∧ fetch_parent s t ≠ Missing
      ∧ (s' = (views.edit on_delete Task_defaults today s request id).1
         ∨ (completes form t = false
            ∧ s' = (views.task_form on_delete Task_defaults today s request
                      id).1)).
Proof.
  intros [-> | ->].
  - destruct (edit_writes_or_not today s request id)
      as [Heq|(t & form & ttl & Hl & Hm & Hf & Hc & Hnm)]; [by left|].
    right. exists t, form, ttl. repeat split; try done. by left.
  - destruct (task_form_writes_or_not today s request id)
      as [Heq|(t & form & ttl & Hl & Hm & Hf & Hc & Hnm & Hcomp)]; [by left|].
    right. exists t, form, ttl. repeat split; try done. by right.
Qed.

Lemma edit_views_keep_bound today s s' request id :
  edit_respects_bound s request id = true →
  s' = (views.edit on_delete Task_defaults today s request id).1
  ∨ s' = (views.task_form on_delete Task_defaults today s request id).1 →
  at_most_one_pending s → at_most_one_pending s'.
Proof.
  intros Hok Hs' Hinv.
  destruct (edit_views_write_or_not today s s' request id Hs')
    as [->|(t & form & ttl & Hl & Hm & Hf & Hc & Hnm & Hcase)]; [done|].
  destruct (edit_cases on_delete Task_defaults today s s' request id t form
              ttl Hl Hm Hf Hc Hnm Hcase) as (task & -> & Hcols).
  destruct Hcols as (_ & _ & _ & _ & Hst & _ & _ & _ & _ & _ & Hpar & Harch).
  apply edit_writes_keeps_bound; try done.
  unfold edit_respects_bound in Hok. rewrite Hm, Hl, Hf in Hok.
  rewrite (capitalize_truthy _ _ Hc) in Hok. simpl in Hok.
  destruct (parent_task t) as [p|].
  - rewrite Hst. intros Htr Hpend. rewrite Htr, Hpend in Hok. simpl in Hok.
    apply orb_true_iff in Hok as [Hok|Hnone];
      [|right; right; by apply negb_true_iff in Hnone].
    apply orb_true_iff in Hok as [Hwas|Har]; [|by right; left].
    left. by apply bool_decide_eq_true in Hwas.
  - intros Hwas Htr. rewrite Hwas, Htr in Hok. simpl in Hok.
    by apply negb_true_iff in Hok.
Qed.

Lemma edit_writes_break_bound today s s' request id t form ttl :
  s !! id = Some t →
  method request = POST →
  cleaned_data request = Some form →
  capitalize (forms.title form) = Some ttl →
  fetch_parent s t ≠ Missing →
  parent_task t ≠ Some id →
  archived Task_defaults = false →
  s' = (views.edit on_delete Task_defaults today s request id).1
  ∨ (completes form t = false
     ∧ s' = (views.task_form on_delete Task_defaults today s request id).1) →
  edit_respects_bound s request id = false →
  ¬ at_most_one_pending s'.
Proof.
  intros Hl Hm Hf Hc Hnm Hself Hdef Hs' Hno Hinv.
  destruct (edit_cases on_delete Task_defaults today s s' request id t form
              ttl Hl Hm Hf Hc Hnm Hs') as (task & -> & Hcols).
  destruct Hcols as (_ & _ & _ & _ & Hst & _ & _ & _ & _ & _ & Hpar & Harch).
  unfold edit_respects_bound in Hno. rewrite Hm, Hl, Hf in Hno.
  rewrite (capitalize_truthy _ _ Hc) in Hno. simpl in Hno.
  unfold fetch_parent in *.
  destruct (parent_task t) as [T|] eqn:Hp.
  - destruct (s !! T) as [parent|] eqn:HT; [|done].
    repeat (apply orb_false_iff in Hno as [Hno ?]).
    apply negb_false_iff in Hno.
    repeat match goal with
           | H : bool_decide _ = false |- _ => apply bool_decide_eq_false in H
           | H : negb _ = false |- _ => apply negb_false_iff in H
           end.
    match goal with
    | H : exists_row _ _ = true |- _ =>
        apply exists_row_true in H as (k & r & Hk & Hr)
    end.
    assert (T ≠ id) as HTid by congruence.
    assert (k ≠ id) as Hkid.
    { intros ->. rewrite Hl in Hk. injection Hk as <-.
      by apply pending_instance_of_status in Hr. }
    assert (pending_instance_of T task = true) as Htask.
    { unfold pending_instance_of. rewrite Hpar, Harch, Hst.
      destruct (forms.status form); [|done].
      rewrite !bool_decide_eq_true_2 by done.
      match goal with H : archived t = false |- _ => by rewrite H end. }
    unfold edit_writes in Hinv. rewrite Hno in Hinv. cbv zeta in Hinv.
    set (parent' := derive_recurrence _ _ _) in Hinv.
    assert (∃ r', save T parent' (save id task s) !! k = Some r'
                  ∧ pending_instance_of T r' = true) as (r' & Hk' & Hr').
    { destruct (decide (T = k)) as [<-|HTk].
      - exists parent'. split; [apply lookup_save_eq|].
        rewrite HT in Hk. injection Hk as ->. rewrite <- Hr.
        destruct (derive_recurrence_same (forms.recurrence form)
                    (due_date task)
                    (set_recurrence_type (Some (forms.recurrence form))
                       (synced task r)))
          as ((_ & _ & _ & _ & ? & _ & _ & _ & ? & ?) & _).
        by apply pending_instance_of_cols.
      - exists r. split; [|done]. by rewrite !lookup_save_ne. }
    apply Hkid. symmetry.
    apply (Hinv T id k task r'); [|done|done|done].
    rewrite lookup_save_ne by done. apply lookup_save_eq.
  - apply orb_false_iff in Hno as [Hno Hex].
    apply orb_false_iff in Hno as [Hwas Htr].
    apply negb_false_iff in Htr, Hex.
    apply exists_row_true in Hex as (k & r & Hk & Hr).
    rewrite Hwas in Hinv.
    destruct (edit_writes_first_instance on_delete Task_defaults today s id
                task (forms.recurrence form) Htr)
      as (n & tk & inst & Hn & Hin & _ & Hrest & _ & _ & _ & _ & _ & _ & _ & _
          & _ & Hist & Hipar & Hiarch).
    assert (k ≠ n) as Hkn by congruence.
    assert (k ≠ id) as Hkid.
    { intros ->. rewrite Hl in Hk. injection Hk as <-.
      apply pending_instance_of_parent in Hr. congruence. }
    apply Hkn.
    apply (Hinv id k n r inst); [|done|done|].
    + by rewrite Hrest.
    + unfold pending_instance_of. rewrite Hipar, Hist, Hiarch, Hdef.
      by rewrite !bool_decide_eq_true_2.
Qed.

Lemma edit_respects_bound_false s request id :
  edit_respects_bound s request id = false →
  ∃ t form ttl,
    s !! id = Some t ∧ method request = POST
    ∧ cleaned_data request = Some form
    ∧ capitalize (forms.title form) = Some ttl.
Proof.
  unfold edit_respects_bound.
  destruct (method request); [done|].
  destruct (s !! id) as [t|]; [|done].
  destruct (cleaned_data request) as [form|]; [|done].
  destruct (forms.title form) as [|c rest] eqn:Ht; [done|]. intros _.
  exists t, form, (String (upper c) rest). by rewrite Ht.
Qed.

(** The edits left out do break the bound, in a table where the edited
    task has its parent and is not its own parent, when a new task is
    created unarchived. *)
Lemma other_edits_break_bound today s request id t :
  s !! id = Some t →
  fetch_parent s t ≠ Missing →
  parent_task t ≠ Some id →
  archived Task_defaults = false →
  (edit_respects_bound s request id = false →
   ¬ at_most_one_pending
       (views.edit on_delete Task_defaults today s request id).1)
  ∧ (task_form_respects_bound s request id = false →
     ¬ at_most_one_pending
         (views.task_form on_delete Task_defaults today s request id).1).
Proof.
  intros Hl Hnm Hself Hdef. split.
  - intros Hno.
    destruct (edit_respects_bound_false s request id Hno)
      as (t' & form & ttl & Hl' & Hm & Hf & Hc).
    rewrite Hl in Hl'. injection Hl' as <-.
    by eapply edit_writes_break_bound; [..|left; reflexivity|].
  - intros Hno. unfold task_form_respects_bound in Hno.
    apply orb_false_iff in Hno as [Hno Hcomp].
    destruct (edit_respects_bound_false s request id Hno)
      as (t' & form & ttl & Hl' & Hm & Hf & Hc).
    rewrite Hl in Hl'. injection Hl' as <-.
    rewrite Hl, Hf in Hcomp.
    by eapply edit_writes_break_bound; [..|right; split; [|reflexivity]|].
Qed.

Lemma bounded_step_keeps_bound s s' :
  bounded_step on_delete Task_defaults s s' →
  at_most_one_pending s → at_most_one_pending s'.
Proof.
  intros [today request id origin Hok | today request id Hok
         | today request id Hok | today request id Hok] Hinv.
  - by apply (toggles_keep_bound Task_defaults today s request id origin).
  - by apply (toggles_keep_bound Task_defaults today s request id EmptyString).
  - eapply edit_views_keep_bound; [exact Hok|by left|done].
  - unfold task_form_respects_bound in Hok.
    apply orb_true_iff in Hok as [Hok|Hstops].
    { eapply edit_views_keep_bound; [exact Hok|by right|done]. }
    destruct (task_form_writes_or_not today s request id)
      as [->|(t & form & ttl & Hl & _ & Hf & _ & _ & Hcomp)]; [done|].
    rewrite Hl, Hf in Hstops. congruence.
Qed.

End EditsKeepBound.

(** C1, as stated, fails: in a table that satisfies the bound, reverting a
    completed instance to pending while the next instance is pending leaves
    two pending, live instances of the same template. *)
Lemma reverting_breaks_bound :
  at_most_one_pending two_instances
  ∧ rtc (engine_step CASCADE sample_defaults) two_instances
      (views.status_htmx sample_defaults march_15 two_instances
         sample_request 2%nat).1
  ∧ ¬ at_most_one_pending
        (views.status_htmx sample_defaults march_15 two_instances
           sample_request 2%nat).1.
Proof.
  split; [|split].
  - apply at_most_one_pendingb_sound. vm_compute. reflexivity.
  - apply rtc_once. constructor.
  - intros Hinv.
    assert (2%nat = 3%nat) as Habs; [|discriminate].
    eapply (Hinv 1%nat 2%nat 3%nat); vm_compute; reflexivity.
Qed.

(** An edit breaks the bound as well: a form that sets a completed
    instance back to pending is saved as it is. *)
Lemma edit_breaks_bound :
  at_most_one_pending two_instances
  ∧ ¬ at_most_one_pending
        (views.edit CASCADE sample_defaults march_20 two_instances reopen
           2%nat).1.
Proof.
  split.
  - apply at_most_one_pendingb_sound. vm_compute. reflexivity.
  - intros Hinv.
    assert (2%nat = 3%nat) as Habs; [|discriminate].
    eapply (Hinv 1%nat 2%nat 3%nat); vm_compute; reflexivity.
Qed.

(** Turning recurrence on again for a task that kept a pending instance
    from an earlier time as a template adds a second one. *)
Lemma reenabling_recurrence_breaks_bound :
  at_most_one_pending former_template
  ∧ ¬ at_most_one_pending
        (views.edit CASCADE sample_defaults march_20 former_template
           make_weekly 1%nat).1.
Proof.
  split.
  - apply at_most_one_pendingb_sound. vm_compute. reflexivity.
  - intros Hinv.
    assert (2%nat = 3%nat) as Habs; [|discriminate].
    eapply (Hinv 1%nat 2%nat 3%nat); vm_compute; reflexivity.
Qed.

(** C1 (amended): starting from a table with at most one pending, live
    instance per template, the bound holds after every sequence of
    toggles and edits, through either entry point, that contains none of
    three kinds of request: a toggle that reverts a live instance whose
    template has a pending, live instance; an edit that keeps the
    recurrence of a live instance and sets it to pending when it was not,
    while its template has a pending, live instance; an edit that turns
    recurrence on for a non-recurring task without [parent_task] that
    still has a pending, live instance. *)
Theorem bounded_steps_keep_one_pending (on_delete : OnDelete)
    (Task_defaults : Task) (s s' : Store) :
  at_most_one_pending s →
  rtc (bounded_step on_delete Task_defaults) s s' →
  at_most_one_pending s'.
Proof.
  intros Hinv Hsteps. induction Hsteps as [|s1 s2 s3 Hstep _ IH]; [done|].
  apply IH. by eapply bounded_step_keeps_bound.
Qed.

Lemma bounded_steps_keep_one_pending_witness :
  at_most_one_pending
    (views.edit CASCADE sample_defaults march_20
       (views.status_htmx sample_defaults march_15
          (views.status march_15 one_instance sample_request 2%nat "tasks").1
          sample_request 2%nat).1
       rename_next 2%nat).1.
Proof.
  apply (bounded_steps_keep_one_pending CASCADE sample_defaults one_instance).
  - apply at_most_one_pendingb_sound. vm_compute. reflexivity.
  - eapply rtc_l; [|eapply rtc_l; [|apply rtc_once]].
    + apply (bounded_status CASCADE sample_defaults one_instance march_15
               sample_request 2%nat "tasks").
      vm_compute. reflexivity.
    + apply (bounded_status_htmx CASCADE sample_defaults _ march_15
               sample_request 2%nat).
      vm_compute. reflexivity.
    + apply bounded_edit. vm_compute. reflexivity.
Defined.

(** ** Toggling twice *)

(** C4, as stated, fails: a task completed on an earlier day, toggled
    twice, ends with today's date as its [completed_date]. *)
Lemma second_toggle_restamps_completed_date :
  completed_date
    <$> (views.status march_15
           (views.status march_15 done_yesterday sample_request 1%nat "tasks").1
           sample_request 1%nat "tasks").1 !! 1%nat
  ≠ completed_date <$> done_yesterday !! 1%nat.
Proof. vm_compute. discriminate. Qed.

(** C4 (amended): toggling a task twice in a row, through [status] or
    through [status_htmx], returns it to its original status; its
    [completed_date] is then null if the task was pending and the date of
    the second toggle if it was complete. *)
Theorem toggle_twice (Task_defaults : Task) (today1 today2 : date)
    (s : Store) (request1 request2 : Request) (id : pk) (origin : string)
    (t : Task) :
  s !! id = Some t →
  (∃ t2,
     (views.status today2 (views.status today1 s request1 id origin).1
        request2 id origin).1 !! id = Some t2
     ∧ status t2 = status t
     ∧ completed_date t2
       = match status t with Pending => None | Complete => Some today2 end)
  ∧ (∃ t2,
       (views.status_htmx Task_defaults today2
          (views.status_htmx Task_defaults today1 s request1 id).1
          request2 id).1 !! id = Some t2
       ∧ status t2 = status t
       ∧ completed_date t2
         = match status t with Pending => None | Complete => Some today2 end).
Proof.
  intros Hl. split.
  - exists (toggled today2 (toggled today1 t)).
    split; [|split].
    + apply status_row. by apply status_row.
    + rewrite !toggled_status. by destruct (status t).
    + rewrite toggled_completed_date, toggled_status. by destruct (status t).
  - destruct (status_htmx_row Task_defaults today1 s request1 id t Hl)
      as (t1 & Hl1 & Hs1 & _).
    destruct (status_htmx_row Task_defaults today2 _ request2 id t1 Hl1)
      as (t2 & Hl2 & Hs2 & Hc2).
    exists t2. split; [done|].
    rewrite toggled_status in Hs1, Hs2.
    rewrite toggled_completed_date in Hc2.
    rewrite Hs2, Hc2, Hs1. by destruct (status t).
Qed.

Lemma toggle_twice_witness :
  ∃ t2,
    (views.status march_15
       (views.status march_15 done_yesterday sample_request 1%nat "tasks").1
       sample_request 1%nat "tasks").1 !! 1%nat = Some t2
    ∧ status t2 = Complete
    ∧ completed_date t2 = Some march_15.
Proof.
  destruct (toggle_twice sample_defaults march_15 march_15 done_yesterday
              sample_request sample_request 1%nat "tasks"
              (mkTask 1%nat None "File taxes" 2 Complete (Some march_14) None
                 (Some march_14) false false None None None None None))
    as [H _]; [reflexivity|].
  exact H.
Defined.

(** ** The two entry points *)

(** C2: the plain [status] view completes the pending instance of a live
    recurring template without creating the next instance and without
    stamping the template, where [status_htmx] on the same table creates
    the instance dated today. *)
Theorem status_completion_spawns_nothing :
  let plain :=
    (views.status march_15 one_instance sample_request 2%nat "tasks").1 in
  let htmx :=
    (views.status_htmx sample_defaults march_15 one_instance sample_request
       2%nat).1 in
  status <$> plain !! 2%nat = Some Complete
  ∧ dom plain = dom one_instance
  ∧ plain !! 1%nat = one_instance !! 1%nat
  ∧ htmx !! 3%nat
    = Some (mkTask 1%nat (Some 7%nat) "Water plants" 3 Pending (Some march_15)
              None None false false None None None None (Some 1%nat))
  ∧ last_generated <$> htmx !! 1%nat = Some (Some march_15).
Proof.
  cbv zeta. split; [|split; [|split; [|split]]].
  - vm_compute. reflexivity.
  - apply set_eq. intros k. rewrite !elem_of_dom.
    unfold views.status. change (one_instance !! 2%nat)
      with (Some (sample_instance Pending march_15 None)).
    cbn [fst]. rewrite lookup_save. case_decide as Hk; [|done].
    subst k. split; intros _; eexists; reflexivity.
  - vm_compute. reflexivity.
  - vm_compute. reflexivity.
  - vm_compute. reflexivity.
Qed.

(** C3: the two entry points of a trigger leave different tables.  On the
    same request [status] and [status_htmx] differ (the next instance is
    missing after [status]).  On the same form [edit] and [task_form]
    differ: for a form that marks a pending task complete, [edit] stores
    the status with [completed_date] left null, where [task_form] fails
    on the unbound [date] and stores nothing; for a form that sets a
    completed task back to pending, [edit] keeps the old
    [completed_date], where [task_form] clears it. *)
Theorem entry_points_diverge :
  (views.status march_15 one_instance sample_request 2%nat "tasks").1
  ≠ (views.status_htmx sample_defaults march_15 one_instance sample_request
       2%nat).1
  ∧ (views.edit CASCADE sample_defaults march_15 standalone complete_it
       1%nat).1
    ≠ (views.task_form CASCADE sample_defaults march_15 standalone
         complete_it 1%nat).1
  ∧ (λ t, (status t, completed_date t))
      <$> (views.edit CASCADE sample_defaults march_15 standalone complete_it
             1%nat).1 !! 1%nat = Some (Complete, None)
  ∧ views.task_form CASCADE sample_defaults march_15 standalone complete_it
      1%nat = (standalone, Uncaught "UnboundLocalError")
  ∧ (λ t, (status t, completed_date t))
      <$> (views.edit CASCADE sample_defaults march_15 done_yesterday
             reopen_it 1%nat).1 !! 1%nat = Some (Pending, Some march_14)
  ∧ (λ t, (status t, completed_date t))
      <$> (views.task_form CASCADE sample_defaults march_15 done_yesterday
             reopen_it 1%nat).1 !! 1%nat = Some (Pending, None).
Proof.
  split; [|split; [|split; [|split; [|split]]]].
  - intros Heq. apply (f_equal (λ m : Store, m !! 3%nat)) in Heq.
    vm_compute in Heq. discriminate.
  - intros Heq. apply (f_equal (λ m : Store, m !! 1%nat)) in Heq.
    vm_compute in Heq. discriminate.
  - vm_compute. reflexivity.
  - vm_compute. reflexivity.
  - vm_compute. reflexivity.
  - vm_compute. reflexivity.
Qed.

(** ** What an edit stores *)

(** C5: an edit that turns recurrence on for a task without
    [parent_task] that was not recurring adds exactly one row: a pending
    instance of the edited task with the task's user, folder, title,
    priority, due date and due time.  The edited task is recurring and
    stamped with today's date; the due date of the instance is the due
    date of the form, not today.  This holds through [edit] for every
    valid form, and through [task_form] for every valid form but one that
    marks complete a task that was not: there [task_form] fails before
    its first write and the task stays non-recurring
    ([task_form_unbound]). *)
Theorem first_instance_on_becoming_recurring (on_delete : OnDelete)
    (Task_defaults : Task) (today : date) (s s' : Store) (request : Request)
    (id : pk) (t : Task) (form : forms.TaskForm) (ttl : string) :
  s !! id = Some t →
  parent_task t = None →
  is_recurring t = false →
  method request = POST →
  cleaned_data request = Some form →
  capitalize (forms.title form) = Some ttl →
  truthy (forms.recurrence form) = true →
  s' = (views.edit on_delete Task_defaults today s request id).1
  ∨ (completes form t = false
     ∧ s' = (views.task_form on_delete Task_defaults today s request id).1) →
  ∃ n task inst,
    s !! n = None ∧ s' !! n = Some inst ∧ s' !! id = Some task
    ∧ (∀ k, k ≠ n → k ≠ id → s' !! k = s !! k)
    ∧ is_recurring task = true ∧ last_generated task = Some today
    ∧ user inst = user task ∧ folder inst = folder task
    ∧ title inst = title task ∧ priority inst = priority task
    ∧ due_date inst = due_date task ∧ due_time inst = due_time task
    ∧ status inst = Pending ∧ parent_task inst = Some id
    ∧ user task = request_user request ∧ folder task = forms.folder form
    ∧ (is_ascii (forms.title form) = true → title task = ttl)
    ∧ priority task = forms.priority form
    ∧ due_date task = forms.due_date form
    ∧ due_time task = forms.due_time form.
Proof.
  intros Hl Hpar Hrec Hm Hf Hc Htr Hs'.
  assert (fetch_parent s t = NoParent) as Hfetch by by apply fetch_parent_None.
  destruct (edit_cases on_delete Task_defaults today s s' request id t form
              ttl Hl Hm Hf Hc) as (task0 & -> & Hcols);
    [by rewrite Hfetch|done|].
  destruct Hcols as (Hu & Hfo & Ht & Hp & _ & Hdd & Hdt & _).
  rewrite Hfetch, Hrec.
  destruct (edit_writes_first_instance on_delete Task_defaults today s id task0
              (forms.recurrence form) Htr)
    as (n & tk & inst & Hn & Hin & Hid & Hrest & Hr & Hlg & Hsame & Hi).
  exists n, tk, inst.
  destruct Hsame as (Su & Sf & St & Sp & _ & Sdd & Sdt & _).
  repeat (split; [first [done | apply Hi | congruence]|]).
  congruence.
Qed.

Lemma first_instance_on_becoming_recurring_witness :
  (∃ n inst,
     standalone !! n = None
     ∧ (views.edit CASCADE sample_defaults march_20 standalone make_weekly
          1%nat).1 !! n = Some inst
     ∧ due_date inst = Some march_15
     ∧ status inst = Pending
     ∧ parent_task inst = Some 1%nat)
  ∧ (∃ n inst,
       standalone !! n = None
       ∧ (views.task_form CASCADE sample_defaults march_20 standalone
            make_weekly 1%nat).1 !! n = Some inst
       ∧ due_date inst = Some march_15
       ∧ status inst = Pending
       ∧ parent_task inst = Some 1%nat).
Proof.
  split.
  - destruct (first_instance_on_becoming_recurring CASCADE sample_defaults
                march_20 standalone
                (views.edit CASCADE sample_defaults march_20 standalone
                   make_weekly 1%nat).1
                make_weekly 1%nat taxes weekly_form "File taxes")
      as (n & task & inst & Hn & Hinst & _ & _ & _ & _ & _ & _ & _ & _ & Hdd
          & _ & Hst & Hpar & _ & _ & _ & _ & Hform & _);
      [reflexivity|reflexivity|reflexivity|reflexivity|reflexivity
      |reflexivity|reflexivity|by left|].
    exists n, inst. split; [exact Hn|]. split; [exact Hinst|].
    split; [|split; [exact Hst|exact Hpar]].
    rewrite Hdd, Hform. reflexivity.
  - destruct (first_instance_on_becoming_recurring CASCADE sample_defaults
                march_20 standalone
                (views.task_form CASCADE sample_defaults march_20 standalone
                   make_weekly 1%nat).1
                make_weekly 1%nat taxes weekly_form "File taxes")
      as (n & task & inst & Hn & Hinst & _ & _ & _ & _ & _ & _ & _ & _ & Hdd
          & _ & Hst & Hpar & _ & _ & _ & _ & Hform & _);
      [reflexivity|reflexivity|reflexivity|reflexivity|reflexivity
      |reflexivity|reflexivity|right; split; reflexivity|].
    exists n, inst. split; [exact Hn|]. split; [exact Hinst|].
    split; [|split; [exact Hst|exact Hpar]].
    rewrite Hdd, Hform. reflexivity.
Defined.

(** C6: when an edit, through [edit] or [task_form], names a recurrence,
    the recurrence columns it stores follow the derivation rule on the due
    date of the form: on the edited task when it has no [parent_task], on
    its template when it has one.  With a due date, daily clears
    [recurrence_day], monthly stores the day of the month, weekly the
    weekday (0 to 6, Monday is 0), yearly the day of the month and the
    month; [recurrence_month] is otherwise untouched.  Without a due date
    both columns keep the values they had.  Through [task_form] this is
    for the forms the view gets through: one that marks complete a task
    that was not stops it before anything is stored. *)
Theorem recurrence_fields_follow_rule (on_delete : OnDelete)
    (Task_defaults : Task) (today : date) (s s' : Store) (request : Request)
    (id : pk) (t : Task) (form : forms.TaskForm) (ttl : string) :
  s !! id = Some t →
  method request = POST →
  cleaned_data request = Some form →
  capitalize (forms.title form) = Some ttl →
  truthy (forms.recurrence form) = true →
  s' = (views.edit on_delete Task_defaults today s request id).1
  ∨ (completes form t = false
     ∧ s' = (views.task_form on_delete Task_defaults today s request id).1) →
  match parent_task t with
  | None =>
      ∃ task,
        s' !! id = Some task
        ∧ is_recurring task = true
        ∧ recurrence_type task = Some (forms.recurrence form)
        ∧ follows_derivation_rule (forms.recurrence form)
            (forms.due_date form) t task
  | Some p =>
      ∀ parent, s !! p = Some parent →
        ∃ template,
          s' !! p = Some template
          ∧ recurrence_type template = Some (forms.recurrence form)
          ∧ follows_derivation_rule (forms.recurrence form)
              (forms.due_date form) parent template
  end.
Proof.
  intros Hl Hm Hf Hc Htr Hs'.
  destruct (parent_task t) as [p|] eqn:Hpar.
  - intros parent Hp.
    assert (fetch_parent s t = Parent p parent) as Hfetch
      by by apply fetch_parent_Some.
    destruct (edit_cases on_delete Task_defaults today s s' request id t form
                ttl Hl Hm Hf Hc) as (task & -> & Hcols); [by rewrite Hfetch|done|].
    destruct Hcols as (_ & _ & _ & _ & _ & Hdd & _).
    rewrite Hfetch, edit_writes_template_row by done.
    eexists. split; [reflexivity|]. rewrite Hdd. split.
    + by destruct (derive_recurrence_same (forms.recurrence form)
                     (forms.due_date form)
                     (set_recurrence_type (Some (forms.recurrence form))
                        (synced task parent))) as (_ & _ & -> & _).
    + by apply derive_recurrence_rule.
  - assert (fetch_parent s t = NoParent) as Hfetch by by apply fetch_parent_None.
    destruct (edit_cases on_delete Task_defaults today s s' request id t form
                ttl Hl Hm Hf Hc) as (task & -> & Hcols); [by rewrite Hfetch|done|].
    destruct Hcols as (_ & _ & _ & _ & _ & Hdd & _ & _ & Hday & Hmonth & Hp & _).
    rewrite Hfetch.
    destruct (edit_writes_plain_row on_delete Task_defaults today s id
                (is_recurring t) (forms.recurrence form) task)
      as (row & Hrow & Hshape); [congruence|].
    exists row. split; [done|].
    destruct (recurrence_applied_same (forms.recurrence form) task)
      as (_ & Hrec & _).
    pose proof (recurrence_applied_type (forms.recurrence form) task Htr)
      as Hty.
    assert (follows_derivation_rule (forms.recurrence form)
              (forms.due_date form) t
              (recurrence_applied (forms.recurrence form) task)) as Hrule.
    { unfold recurrence_applied. rewrite Htr. cbv zeta.
      change (due_date (set_recurrence_type (Some (forms.recurrence form))
                          (set_is_recurring true task)))
        with (due_date task).
      rewrite Hdd. by apply derive_recurrence_rule. }
    destruct Hshape as [-> | ->].
    + split; [congruence|]. split; [done|done].
    + split; [cbn; congruence|]. split; [done|done].
Qed.

(** The week of 11 March 2024 runs from Monday (0) to Sunday (6);
    15 March 2024 is a Friday. *)
Example weekday_week_of_march_11 :
  map (λ d, weekday (mkDate 2024 3 d)) [11; 12; 13; 14; 15; 16; 17]
  = [0; 1; 2; 3; 4; 5; 6].
Proof. reflexivity. Qed.

Lemma recurrence_fields_follow_rule_witness :
  ∃ task,
    (views.edit CASCADE sample_defaults march_20 standalone make_yearly
       1%nat).1 !! 1%nat = Some task
    ∧ recurrence_day task = Some 15
    ∧ recurrence_month task = Some 3.
Proof.
  pose proof (recurrence_fields_follow_rule CASCADE sample_defaults march_20
                standalone
                (views.edit CASCADE sample_defaults march_20 standalone
                   make_yearly 1%nat).1
                make_yearly 1%nat taxes yearly_form "File taxes"
                eq_refl eq_refl eq_refl eq_refl eq_refl (or_introl eq_refl))
    as H.
  change (∃ task,
            (views.edit CASCADE sample_defaults march_20 standalone
               make_yearly 1%nat).1 !! 1%nat = Some task
            ∧ is_recurring task = true
            ∧ recurrence_type task = Some "yearly"
            ∧ follows_derivation_rule "yearly" (Some march_15) taxes task)
    in H.
  destruct H as (task & Hl & _ & _ & _ & _ & _ & Hyearly).
  destruct (Hyearly eq_refl) as [Hd Hm].
  exists task. split; [exact Hl|]. split; [exact Hd|exact Hm].
Defined.

(** C7: on a form that clears the recurrence of an instance and marks it
    complete, [task_form] fails on the unbound [date] before it reaches
    [parent_task.delete()]: the template stays and the instance still
    points at it.  [edit], given the same form, deletes the template and
    leaves the instance standalone. *)
Theorem task_form_stops_before_detaching :
  views.task_form CASCADE sample_defaults march_20 one_instance
    complete_and_clear 2%nat
  = (one_instance, Uncaught "UnboundLocalError")
  ∧ one_instance !! 1%nat = Some sample_template
  ∧ parent_task <$> one_instance !! 2%nat = Some (Some 1%nat)
  ∧ (views.edit CASCADE sample_defaults march_20 one_instance
       complete_and_clear 2%nat).1 !! 1%nat = None
  ∧ parent_task
      <$> (views.edit CASCADE sample_defaults march_20 one_instance
             complete_and_clear 2%nat).1 !! 2%nat = Some None.
Proof. repeat split; vm_compute; reflexivity. Qed.

(** X26: every other edit of an instance with an empty recurrence
    detaches it, through [edit] for every valid form and through
    [task_form] for the forms the view gets through (not one that marks
    complete a task that was not): the template the instance points at
    is deleted and the instance is left, saved with the values of the
    form and a null [parent_task], as a standalone task. *)
Theorem clearing_recurrence_detaches (on_delete : OnDelete)
    (Task_defaults : Task) (today : date) (s s' : Store) (request : Request)
    (id p : pk) (t parent : Task) (form : forms.TaskForm) (ttl : string) :
  s !! id = Some t →
  parent_task t = Some p →
  p ≠ id →
  s !! p = Some parent →
  method request = POST →
  cleaned_data request = Some form →
  capitalize (forms.title form) = Some ttl →
  truthy (forms.recurrence form) = false →
  s' = (views.edit on_delete Task_defaults today s request id).1
  ∨ (completes form t = false
     ∧ s' = (views.task_form on_delete Task_defaults today s request id).1) →
  s' !! p = None
  ∧ ∃ task,
      s' !! id = Some task
      ∧ parent_task task = None
      ∧ is_recurring task = is_recurring t
      ∧ user task = request_user request
      ∧ folder task = forms.folder form
      ∧ (is_ascii (forms.title form) = true → title task = ttl)
      ∧ priority task = forms.priority form
      ∧ status task = forms.status form
      ∧ due_date task = forms.due_date form
      ∧ due_time task = forms.due_time form.
Proof.
  intros Hl Hpar Hne Hp Hm Hf Hc Htr Hs'.
  assert (fetch_parent s t = Parent p parent) as Hfetch
    by by apply fetch_parent_Some.
  destruct (edit_cases on_delete Task_defaults today s s' request id t form
              ttl Hl Hm Hf Hc) as (task & -> & Hcols); [by rewrite Hfetch|done|].
  rewrite Hfetch.
  destruct (edit_writes_detach on_delete Task_defaults today s id
              (is_recurring t) (forms.recurrence form) task p parent Htr Hne)
    as [Hgone Hrow].
  split; [done|]. exists (set_parent_task None task). split; [done|].
  destruct Hcols as (? & ? & ? & ? & ? & ? & ? & ? & _).
  by repeat split.
Qed.

Lemma clearing_recurrence_detaches_witness :
  (views.task_form CASCADE sample_defaults march_20 one_instance
     clear_recurrence 2%nat).1 !! 1%nat = None
  ∧ ∃ task,
      (views.task_form CASCADE sample_defaults march_20 one_instance
         clear_recurrence 2%nat).1 !! 2%nat = Some task
      ∧ parent_task task = None.
Proof.
  destruct (clearing_recurrence_detaches CASCADE sample_defaults march_20
              one_instance
              (views.task_form CASCADE sample_defaults march_20 one_instance
                 clear_recurrence 2%nat).1
              clear_recurrence 2%nat 1%nat
              (sample_instance Pending march_15 None) sample_template
              cleared_form "Water plants")
    as (Hgone & task & Hl & Hpar & _);
    try reflexivity; [lia|right; split; reflexivity|].
  split; [exact Hgone|]. exists task. split; [exact Hl|exact Hpar].
Defined.

(** ** Ownership *)

(** C9: [delete] and [delete_htmx] answer 404 and write nothing when the
    task belongs to another user.  [status], [status_htmx], [edit] and
    [task_form] find the task by its key alone: for a task of another
    user the toggles flip its status, the edits store the columns of the
    form ([task_form] for the forms it gets through, which does not
    depend on the user), and neither edit view answers 404. *)
Theorem only_deletes_check_the_owner (on_delete : OnDelete)
    (Task_defaults : Task) (today : date) (s : Store) (request : Request)
    (id : pk) (origin : string) (t : Task) :
  s !! id = Some t →
  user t ≠ request_user request →
  views.delete on_delete s request id = (s, Http404)
  ∧ views.delete_htmx on_delete s request id = (s, Http404)
  ∧ views.status today s request id origin
    = (save id (toggled today t) s, Redirect origin)
  ∧ (∃ row,
       (views.status_htmx Task_defaults today s request id).1 !! id = Some row
       ∧ status row = status (toggled today t)
       ∧ completed_date row = completed_date (toggled today t))
  ∧ (∀ form ttl s',
       method request = POST →
       cleaned_data request = Some form →
       capitalize (forms.title form) = Some ttl →
       fetch_parent s t ≠ Missing →
       s' = (views.edit on_delete Task_defaults today s request id).1
       ∨ (completes form t = false
          ∧ s' = (views.task_form on_delete Task_defaults today s request
                    id).1) →
       ∃ row,
         s' !! id = Some row
         ∧ folder row = forms.folder form
         ∧ (is_ascii (forms.title form) = true → title row = ttl)
         ∧ priority row = forms.priority form
         ∧ due_time row = forms.due_time form)
  ∧ (views.edit on_delete Task_defaults today s request id).2 ≠ Http404
  ∧ (views.task_form on_delete Task_defaults today s request id).2 ≠ Http404.
Proof.
  intros Hl Hown. split; [|split; [|split; [|split; [|split; [|split]]]]].
  - unfold views.delete. rewrite Hl.
    by rewrite bool_decide_eq_false_2.
  - unfold views.delete_htmx. rewrite Hl.
    by rewrite bool_decide_eq_false_2.
  - unfold views.status. by rewrite Hl.
  - by apply status_htmx_row.
  - intros form ttl s' Hm Hf Hc Hnm Hs'.
    destruct (edit_cases on_delete Task_defaults today s s' request id t form
                ttl Hl Hm Hf Hc Hnm Hs') as (task & -> & Hcols).
    destruct Hcols as (_ & Hfo & Ht & Hp & _ & _ & Hdt & _ & _ & _ & Hpar & _).
    destruct (edit_writes_row on_delete Task_defaults today s id t
                (forms.recurrence form) task Hnm Hpar)
      as (row & Hrow & Rf & Rt & Rp & Rdt).
    exists row. split; [done|]. repeat split; congruence.
  - unfold views.edit. rewrite Hl. cbv zeta.
    repeat (case_match; try done).
  - unfold views.task_form. rewrite Hl. cbv zeta.
    repeat (case_match; try done).
Qed.

Lemma only_deletes_check_the_owner_witness :
  views.delete CASCADE one_instance stranger 2%nat = (one_instance, Http404)
  ∧ views.status march_20 one_instance stranger 2%nat "tasks"
    = (save 2%nat (toggled march_20 (sample_instance Pending march_15 None))
         one_instance,
       Redirect "tasks").
Proof.
  destruct (only_deletes_check_the_owner CASCADE sample_defaults march_20
              one_instance stranger 2%nat "tasks"
              (sample_instance Pending march_15 None))
    as (Hdel & _ & Hstatus & _); [reflexivity|cbn; lia|].
  split; [exact Hdel|exact Hstatus].
Defined.

(** ** Reminder mails *)

Section Mail.

Variable send_mail : string → string → string → list string → email.Outcome nat.
Variables SERVER_EMAIL SITE_NAME : string.
Variable strftime_date : date → string.
Variable strftime_time : time → string.
Variable folder_name : folder_id → string.

Lemma report_failure (e : string) :
  structured_report
    {[ "success" := email.PyBool false; "error" := email.PyStr e ]}.
Proof.
  unfold structured_report. rewrite lookup_insert_eq.
  exists e. rewrite lookup_insert_ne by done. apply lookup_singleton_eq.
Qed.

Lemma report_success :
  structured_report {[ "success" := email.PyBool true ]}.
Proof. unfold structured_report. by rewrite lookup_singleton_eq. Qed.

(** Without an address nothing is sent and the failure is reported. *)
Lemma no_address_reported user task_id task reminder_type tasks log :
  email.py_not (email.py_or (email.notification_email user)
                  (email.user_email user)) = true →
  email.send_task_reminder_email send_mail SERVER_EMAIL SITE_NAME
    strftime_date strftime_time folder_name user task_id task reminder_type log
  = (email.Returns
       {[ "success" := email.PyBool false;
          "error" := email.PyStr "User has no email address" ]}, log)
  ∧ email.send_past_due_digest_email send_mail SERVER_EMAIL SITE_NAME
      strftime_date folder_name user tasks log
    = (email.Returns
         {[ "success" := email.PyBool false;
            "error" := email.PyStr "User has no email address" ]}, log).
Proof.
  intros Hno. unfold email.send_task_reminder_email,
    email.send_past_due_digest_email. by rewrite Hno.
Qed.

End Mail.

(** C8: whatever the user, the task and the behaviour of the mail
    transport, [send_task_reminder_email] and [send_past_due_digest_email]
    return (they do not raise) a dict with a boolean [success] and, when it
    is false, a string [error].  For a user without an address the dict
    is the failure [User has no email address]; otherwise the transport
    is called once, for the one recipient, and the dict is the success
    when that call returns and the failure with the text of the
    exception when it raises. *)
Theorem mail_functions_report
    (send_mail : string → string → string → list string → email.Outcome nat)
    (SERVER_EMAIL SITE_NAME : string) (strftime_date : date → string)
    (strftime_time : time → string) (folder_name : folder_id → string)
    (user : email.CustomUser) (task_id : pk) (task : Task)
    (reminder_type : string) (tasks : list Task)
    (log : list email.LogRecord) :
  let recipient :=
    email.py_or (email.notification_email user) (email.user_email user) in
  let owed (d : gmap string email.PyVal) : Prop :=
    match recipient with
    | Some (String c r) =>
        ∃ subject body,
          match send_mail subject body SERVER_EMAIL [String c r] with
          | email.Returns _ => d = {[ "success" := email.PyBool true ]}
          | email.Raises e =>
              d = {[ "success" := email.PyBool false;
                     "error" := email.PyStr e ]}
          end
    | _ =>
        d = {[ "success" := email.PyBool false;
               "error" := email.PyStr "User has no email address" ]}
    end in
  (∃ d log',
     email.send_task_reminder_email send_mail SERVER_EMAIL SITE_NAME
       strftime_date strftime_time folder_name user task_id task
       reminder_type log = (email.Returns d, log')
     ∧ structured_report d ∧ owed d)
  ∧ (∃ d log',
       email.send_past_due_digest_email send_mail SERVER_EMAIL SITE_NAME
         strftime_date folder_name user tasks log = (email.Returns d, log')
       ∧ structured_report d ∧ owed d).
Proof.
  intros recipient owed. subst owed.
  unfold email.send_task_reminder_email, email.send_past_due_digest_email.
  fold recipient.
  destruct recipient as [[|c r]|]; cbn [email.py_not default from_option id];
    try (split; eexists _, _;
         (split; [reflexivity|split; [apply report_failure|reflexivity]])).
  unfold email.try_except, mbind, email.M_bind, email.call,
    email.logger_info, email.logger_error, mret, email.M_ret.
  split.
  - match goal with
    | |- context [send_mail ?subject ?body _ _] =>
        destruct (send_mail subject body SERVER_EMAIL [String c r])
          as [n|e] eqn:Hsent; eexists _, _;
        (split; [reflexivity|split; [|exists subject, body; by rewrite Hsent]])
    end; [apply report_success|apply report_failure].
  - match goal with
    | |- context [send_mail ?subject ?body _ _] =>
        destruct (send_mail subject body SERVER_EMAIL [String c r])
          as [n|e] eqn:Hsent; eexists _, _;
        (split; [reflexivity|split; [|exists subject, body; by rewrite Hsent]])
    end; [apply report_success|apply report_failure].
Qed.

(** ** Bulk status *)

Lemma bulk_qs_plain request t :
  views.bulk_qs request t = true →
  is_recurring t = false ∧ archived t = false.
Proof.
  unfold views.bulk_qs.
  destruct (session_tasks_all request); [|destruct (selected_folder request)];
    destruct (is_recurring t), (archived t);
    rewrite ?andb_false_r, ?andb_true_r; simpl; intros; done.
Qed.

(** A queryset update of [status] and [completed_date]: the rows of the
    queryset that satisfy [cond] get the two columns, the others stay. *)
Lemma update_frame request (cond : Task → bool) (st : Status)
    (done : option date) (s : Store) :
  let s' :=
    (λ t, if views.bulk_qs request t && cond t
          then set_completed_date done (set_status st t) else t) <$> s in
  dom s' = dom s
  ∧ ∀ k t,
      s !! k = Some t →
      ∃ t',
        s' !! k = Some t'
        ∧ same_but_status t t'
        ∧ last_generated t' = last_generated t
        ∧ (t' ≠ t →
             views.bulk_qs request t = true
             ∧ is_recurring t = false ∧ archived t = false).
Proof.
  intros s'. split; [apply dom_fmap_L|]. intros k t Hk.
  unfold s'. rewrite lookup_fmap, Hk. cbn [fmap option_fmap option_map].
  eexists. split; [reflexivity|].
  destruct (views.bulk_qs request t && cond t) eqn:Hb.
  - apply andb_true_iff in Hb as [Hb _].
    split; [reflexivity|]. split; [reflexivity|]. intros _. split; [done|].
    by apply (bulk_qs_plain request).
  - split; [by destruct t|]. split; [done|]. intros Habs. by destruct Habs.
Qed.

(** C10: [bulk_status_htmx] adds and removes no row; a row it changes is
    in its queryset (so neither recurring nor archived) and differs from
    the row before in [status] and [completed_date] only; in particular no
    [last_generated] changes, whatever the rows it marks complete. *)
Theorem bulk_status_frame (today : date) (s : Store) (request : Request) :
  dom (views.bulk_status_htmx today s request).1 = dom s
  ∧ ∀ k t,
      s !! k = Some t →
      ∃ t',
        (views.bulk_status_htmx today s request).1 !! k = Some t'
        ∧ same_but_status t t'
        ∧ last_generated t' = last_generated t
        ∧ (t' ≠ t →
             views.bulk_qs request t = true
             ∧ is_recurring t = false ∧ archived t = false).
Proof.
  unfold views.bulk_status_htmx.
  destruct (GET_status request) as [| |z]; cbn [fst].
  - change (0 =? 1) with false. cbv iota. cbn [fst].
    apply (update_frame request (λ t, bool_decide (status t = Complete))
             Pending None s).
  - split; [done|]. intros k t Hk. exists t. split; [done|].
    split; [by destruct t|]. split; [done|]. intros Habs. by destruct Habs.
  - destruct (z =? 1); cbn [fst].
    + apply (update_frame request (λ t, bool_decide (status t = Pending))
               Complete (Some today) s).
    + apply (update_frame request (λ t, bool_decide (status t = Complete))
               Pending None s).
Qed.

Lemma bulk_status_frame_witness :
  dom (views.bulk_status_htmx march_20 one_instance complete_all).1
  = dom one_instance
  ∧ status
      <$> (views.bulk_status_htmx march_20 one_instance complete_all).1
          !! 2%nat = Some Complete
  ∧ ∃ t',
      (views.bulk_status_htmx march_20 one_instance complete_all).1 !! 1%nat
      = Some t'
      ∧ last_generated t' = Some march_14.
Proof.
  destruct (bulk_status_frame march_20 one_instance complete_all) as [Hdom Hrows].
  split; [exact Hdom|]. split; [vm_compute; reflexivity|].
  destruct (Hrows 1%nat sample_template) as (t' & Hl & _ & Hlast & _);
    [reflexivity|].
  exists t'. split; [exact Hl|exact Hlast].
Defined.

(** * Further properties *)

#[local] Set Warnings "-clear-no-such-hyp".

(** ** Deleting rows *)

Section Deleting.

Implicit Types (s : Store) (t : Task) (D : gset pk).

(** One round of collection. *)
Lemma collect_unfold fuel D s :
  collect (S fuel) D s
  = collect fuel (D ∪ dom (filter (λ kt, refers_to D kt.2 = true) s)) s.
Proof. reflexivity. Qed.

Lemma referrers_in_dom D s :
  dom (filter (λ kt : pk * Task, refers_to D kt.2 = true) s) ⊆ dom s.
Proof. apply subseteq_dom, map_filter_subseteq. Qed.

Lemma collect_fixed fuel D s :
  D ∪ dom (filter (λ kt, refers_to D kt.2 = true) s) = D →
  collect fuel D s = D.
Proof.
  intros Hfix. induction fuel as [|n IH]; [done|].
  rewrite collect_unfold, Hfix. exact IH.
Qed.

(** With as many rounds as rows left to collect, collection has come to
    an end. *)
Lemma collect_saturates fuel D s :
(size (dom s ∖ D) ≤ fuel)%nat →
  collect fuel D s
    ∪ dom (filter (λ kt, refers_to (collect fuel D s) kt.2 = true) s)
  = collect fuel D s.
Proof.
  revert D. induction fuel as [|n IH]; intros D Hsize.
  - simpl. assert (dom s ⊆ D) as Hsub.
    { apply Nat.le_0_r, size_empty_inv in Hsize. set_solver. }
    pose proof (referrers_in_dom D s). set_solver.
  - set (D' := D ∪ dom (filter (λ kt, refers_to D kt.2 = true) s)).
    destruct (decide (D' = D)) as [Heq|Hne].
    + rewrite (collect_fixed (S n) D s Heq). exact Heq.
    + rewrite collect_unfold. fold D'. apply IH.
      assert (dom s ∖ D' ⊂ dom s ∖ D) as Hlt.
      { pose proof (referrers_in_dom D s) as Hin.
        assert (∃ x, x ∈ D' ∧ x ∉ D) as (x & Hx & Hnx).
        { assert (D' ∖ D ≠ ∅) as Hnemp.
          { intros Hemp. apply Hne. apply set_eq. intros x.
            split; [|unfold D'; set_solver]. intros Hx.
            destruct (decide (x ∈ D)) as [|Hnx]; [done|]. exfalso.
            assert (x ∈ D' ∖ D) as Hxd by set_solver.
            rewrite Hemp in Hxd. set_solver. }
          apply set_choose_L in Hnemp as [x Hx]. exists x. set_solver. }
        split; [unfold D'; set_solver|].
        intros Hsub. assert (x ∈ dom s ∖ D) as Hxd.
        { unfold D' in Hx. set_solver. }
        apply Hsub in Hxd. set_solver. }
      apply subset_size in Hlt. lia.
Qed.

(** What a cascade collects is closed under [parent_task]. *)
Lemma collect_closed D s k t p :
  s !! k = Some t → parent_task t = Some p →
  p ∈ collect (size s) D s → k ∈ collect (size s) D s.
Proof.
  intros Hk Hp Hin.
  assert (size (dom s ∖ D) ≤ size s)%nat as Hsize.
  { rewrite <- size_dom. apply subseteq_size. set_solver. }
  rewrite <- (collect_saturates (size s) D s Hsize).
  apply elem_of_union_r, elem_of_dom. exists t.
  apply map_lookup_filter_Some. split; [done|]. simpl.
  unfold refers_to. rewrite Hp. by apply bool_decide_eq_true.
Qed.

(** It holds the rows it started from and rows that have a parent. *)
Lemma collect_members fuel D s k :
  k ∈ collect fuel D s →
  k ∈ D ∨ ∃ t p, s !! k = Some t ∧ parent_task t = Some p.
Proof.
  revert D. induction fuel as [|n IH]; intros D Hin; [by left|].
  rewrite collect_unfold in Hin. apply IH in Hin as [Hin|Hin]; [|by right].
  apply elem_of_union in Hin as [Hin|Hin]; [by left|]. right.
  apply elem_of_dom in Hin as [t Ht].
  apply map_lookup_filter_Some in Ht as [Ht Href]. simpl in Href.
  unfold refers_to in Href. destruct (parent_task t) as [p|] eqn:Hp; [|done].
  eauto.
Qed.

Lemma refers_to_true D t :
  refers_to D t = true ↔ ∃ p, parent_task t = Some p ∧ p ∈ D.
Proof.
  unfold refers_to. destruct (parent_task t) as [p|].
  - rewrite bool_decide_eq_true. split; [eauto|]. by intros (q & [= <-] & Hq).
  - split; [done|]. by intros (q & Hq & _).
Qed.

Lemma delete_row_keeps_references pol k s :
  well_referenced s → well_referenced (delete_row pol k s).
Proof.
  intros Hwr i t p Hi Hp. destruct pol; simpl in *.
  - apply map_lookup_filter_Some in Hi as [Hi Hni]. simpl in Hni.
    destruct (Hwr i t p Hi Hp) as [tp Htp]. exists tp.
    apply map_lookup_filter_Some. split; [done|]. simpl. intros Hdead.
    apply Hni. by eapply collect_closed.
  - rewrite lookup_fmap in Hi.
    destruct (base.delete k s !! i) as [t0|] eqn:Hd; [|done].
    simpl in Hi. injection Hi as <-.
    apply lookup_delete_Some in Hd as [Hne Hd].
    unfold detach in Hp. case_bool_decide as Hk; [done|].
    destruct (Hwr i t0 p Hd Hp) as [tp Htp].
    rewrite lookup_fmap, lookup_delete_ne by congruence. by rewrite Htp.
Qed.

Lemma delete_where_keeps_references pol (P : Task → bool) s :
  well_referenced s → well_referenced (delete_where pol P s).
Proof.
  intros Hwr i t p Hi Hp. destruct pol; unfold delete_where in *.
  - apply map_lookup_filter_Some in Hi as [Hi Hni]. simpl in Hni.
    destruct (Hwr i t p Hi Hp) as [tp Htp]. exists tp.
    apply map_lookup_filter_Some. split; [done|]. simpl. intros Hdead.
    apply Hni. by eapply collect_closed.
  - rewrite lookup_fmap in Hi.
    destruct (filter _ s !! i) as [t0|] eqn:Hd; [|done].
    simpl in Hi. injection Hi as <-.
    apply map_lookup_filter_Some in Hd as [Hd Hni].
    unfold detach_all in Hp.
    destruct (refers_to _ t0) eqn:Href; [done|].
    destruct (Hwr i t0 p Hd Hp) as [tp Htp].
    rewrite lookup_fmap.
    assert (filter (λ kt : pk * Task,
              kt.1 ∉ dom (filter (λ kt0 : pk * Task, P kt0.2 = true) s)) s
            !! p = Some tp) as ->; [|by eexists].
    apply map_lookup_filter_Some. split; [done|]. simpl. intros Hdoomed.
    assert (refers_to (dom (filter (λ kt0 : pk * Task, P kt0.2 = true) s)) t0
            = true) as Habs by (apply refers_to_true; eauto).
    congruence.
Qed.

End Deleting.

(** ** References between rows *)

Section References.

Variable on_delete : OnDelete.
Variable Task_defaults : Task.

Implicit Types (s : Store) (t : Task).

Lemma well_referencedb_sound s :
  well_referencedb s = true → well_referenced s.
Proof.
  unfold well_referencedb. rewrite forallb_forall. intros Hall k t p Hk Hp.
  specialize (Hall (k, t)). simpl in Hall. rewrite Hp in Hall.
  assert (bool_decide (is_Some (s !! p)) = true) as Hb.
  { apply Hall, list_elem_of_In. by apply elem_of_map_to_list. }
  by apply bool_decide_eq_true in Hb.
Qed.

Lemma save_keeps_references k t s :
  well_referenced s →
  (∀ p, parent_task t = Some p → p = k ∨ is_Some (s !! p)) →
  well_referenced (save k t s).
Proof.
  intros Hwr Ht i r p Hi Hp.
  assert (p = k ∨ is_Some (s !! p)) as Hcases.
  { rewrite lookup_save in Hi.
    case_decide; [injection Hi as <-; by apply Ht|].
    right. by eapply Hwr. }
  rewrite lookup_save. destruct (decide (k = p)) as [|Hne]; [by eexists|].
  by destruct Hcases as [->|Hsome].
Qed.

Lemma create_keeps_references t s :
  well_referenced s →
  (∀ p, parent_task t = Some p → is_Some (s !! p)) →
  well_referenced (create t s).
Proof. intros Hwr Ht. apply save_keeps_references; [done|]. eauto. Qed.

Lemma fmap_keeps_references (f : Task → Task) s :
  (∀ t, parent_task (f t) = parent_task t) →
  well_referenced s → well_referenced (f <$> s).
Proof.
  intros Hf Hwr i r p Hi Hp. rewrite lookup_fmap in Hi.
  destruct (s !! i) as [t|] eqn:Hl; [|done]. simpl in Hi. injection Hi as <-.
  rewrite Hf in Hp. destruct (Hwr i t p Hl Hp) as [tp Htp].
  rewrite lookup_fmap, Htp. by eexists.
Qed.

Lemma alter_keeps_references (f : Task → Task) k s :
  (∀ t, parent_task (f t) = parent_task t) →
  well_referenced s → well_referenced (alter f k s).
Proof.
  intros Hf Hwr i r p Hi Hp.
  assert (∃ t, s !! i = Some t ∧ parent_task t = Some p) as (t & Hl & Hpt).
  { rewrite lookup_alter in Hi. case_decide; [|eauto]. subst.
    destruct (s !! i) as [t|]; [|done]. simpl in Hi. injection Hi as <-.
    rewrite Hf in Hp. eauto. }
  destruct (Hwr i t p Hl Hpt) as [tp Htp].
  rewrite lookup_alter. case_decide; subst; rewrite Htp; by eexists.
Qed.

Lemma update_where_keeps_references (P : Task → bool) (f : Task → Task) s :
  (∀ t, parent_task (f t) = parent_task t) →
  well_referenced s → well_referenced (update_where P f s).
Proof.
  intros Hf. apply fmap_keeps_references. intros t. by destruct (P t).
Qed.

Lemma toggled_parent today t : parent_task (toggled today t) = parent_task t.
Proof. unfold toggled. by case_bool_decide. Qed.

Lemma status_keeps_references today s request id origin :
  well_referenced s →
  well_referenced (views.status today s request id origin).1.
Proof.
  intros Hwr. unfold views.status.
  destruct (s !! id) as [t|] eqn:Hl; [|done]. fold (toggled today t).
  apply save_keeps_references; [done|]. intros p Hp. right.
  rewrite toggled_parent in Hp. by eapply Hwr.
Qed.

Lemma status_htmx_keeps_references today s request id :
  well_referenced s →
  well_referenced (views.status_htmx Task_defaults today s request id).1.
Proof.
  intros Hwr. unfold views.status_htmx.
  destruct (s !! id) as [t|] eqn:Hl; [|done]. fold (toggled today t).
  assert (well_referenced (save id (toggled today t) s)) as Hwr1.
  { apply save_keeps_references; [done|]. intros p Hp. right.
    rewrite toggled_parent in Hp. by eapply Hwr. }
  case_bool_decide; [|done].
  destruct (fetch_parent _ _) as [|p parent|] eqn:Hf; simpl; [done| |done].
  destruct (is_recurring parent && negb (archived parent)); [|done].
  destruct (exists_row _ _); simpl; [done|].
  apply alter_keeps_references; [done|].
  apply create_keeps_references; [done|]. intros q [= <-].
  unfold fetch_parent in Hf. destruct (parent_task _); [|done].
  destruct (save id (toggled today t) s !! p0) eqn:Hq; [|done].
  injection Hf as <- <-. by eexists.
Qed.

Lemma synced_parent task other : parent_task (synced task other) = parent_task other.
Proof. reflexivity. Qed.

Lemma edit_writes_keeps_references today s id t recurrence task :
  s !! id = Some t →
  parent_task task = parent_task t →
  well_referenced s →
  well_referenced
    (edit_writes on_delete Task_defaults today s id (is_recurring t)
       (fetch_parent s t) recurrence task).
Proof.
  intros Hl Hpar Hwr.
  assert (well_referenced (save id task s)) as Hwr1.
  { apply save_keeps_references; [done|]. intros p Hp. right.
    rewrite Hpar in Hp. by eapply Hwr. }
  unfold fetch_parent.
  destruct (parent_task t) as [p|] eqn:Hp.
  - destruct (s !! p) as [parent|] eqn:Hlp.
    + unfold edit_writes. destruct (truthy recurrence); cbv zeta.
      * apply save_keeps_references; [done|]. intros q Hq. right.
        destruct (derive_recurrence_same recurrence (due_date task)
                    (set_recurrence_type (Some recurrence)
                       (synced task parent)))
          as ((_ & _ & _ & _ & _ & _ & _ & _ & _ & Hpa) & _).
        rewrite Hpa in Hq. cbn in Hq.
        destruct (Hwr p parent q Hlp Hq) as [tq Htq].
        rewrite lookup_save. case_decide; by eexists.
      * apply save_keeps_references; [|done].
        by apply delete_row_keeps_references.
    + unfold edit_writes.
      destruct (recurrence_applied_same recurrence task) as (Hsame & _).
      exfalso. destruct (Hwr id t p Hl Hp) as [? ?]. congruence.
  - unfold edit_writes.
    destruct (recurrence_applied_same recurrence task) as (Hsame & _).
    set (task' := recurrence_applied recurrence task) in *.
    cbv zeta.
    assert (parent_task task' = None) as Hnone.
    { destruct Hsame as (_ & _ & _ & _ & _ & _ & _ & _ & _ & ->). congruence. }
    assert (well_referenced (save id task' s)) as Hwr2.
    { apply save_keeps_references; [done|]. intros q Hq. congruence. }
    destruct (is_recurring task' && negb (is_recurring t)).
    { apply alter_keeps_references; [done|].
      apply create_keeps_references; [done|]. intros q [= <-].
      rewrite lookup_save_eq. by eexists. }
    destruct (is_recurring task' && is_recurring t); [|done].
    destruct (first_of _) as [[k li]|] eqn:Hfirst; [|done].
    apply first_of_elem, elem_of_rows in Hfirst as [Hk _].
    apply save_keeps_references; [done|]. intros q Hq. right.
    rewrite synced_parent in Hq. by eapply Hwr2.
Qed.

Lemma edit_views_keep_references today s s' request id :
  s' = (views.edit on_delete Task_defaults today s request id).1
  ∨ s' = (views.task_form on_delete Task_defaults today s request id).1 →
  well_referenced s → well_referenced s'.
Proof.
  intros Hs' Hwr.
  destruct (edit_views_write_or_not on_delete Task_defaults today s s'
              request id Hs')
    as [->|(t & form & ttl & Hl & Hm & Hf & Hc & Hnm & Hcase)]; [done|].
  destruct (edit_cases on_delete Task_defaults today s s' request id t form
              ttl Hl Hm Hf Hc Hnm Hcase) as (task & -> & Hcols).
  destruct Hcols as (_ & _ & _ & _ & _ & _ & _ & _ & _ & _ & Hpar & _).
  by apply edit_writes_keeps_references.
Qed.

Lemma request_step_keeps_references s s' :
  parent_task Task_defaults = None →
  request_step on_delete Task_defaults s s' →
  well_referenced s → well_referenced s'.
Proof.
  intros Hdef Hstep Hwr. destruct Hstep as
    [s2 [today request id origin | today request id | today request id
         | today request id]
    | request id | request id | today request | folders request ttl fid
    | folders request ttl fid | request | request | request id prio
    | request | folders request fid].
  - by apply status_keeps_references.
  - by apply status_htmx_keeps_references.
  - eapply edit_views_keep_references; [by left|done].
  - eapply edit_views_keep_references; [by right|done].
  - unfold views.delete. destruct (s !! id); [|done].
    case_bool_decide; [|done]. by apply delete_row_keeps_references.
  - unfold views.delete_htmx. destruct (s !! id); [|done].
    case_bool_decide; [|done]. by apply delete_row_keeps_references.
  - unfold views.bulk_status_htmx.
    destruct (GET_status request) as [| |z]; [|done|];
      [change (0 =? 1) with false; cbv iota|destruct (z =? 1)]; cbn [fst];
      (apply fmap_keeps_references; [|done]); intros t;
      by destruct (_ && _).
  - unfold views.add. destruct (method request); [done|].
    destruct ttl as [ttl|]; [|done]. cbn [title set_title].
    destruct (capitalize ttl); [|done].
    destruct (get_by_pk folders fid); cbn [fst]; [| done|];
      (apply create_keeps_references; [done|]); cbn; intros q Hq; congruence.
  - unfold views.add_htmx. destruct (method request); [done|].
    cbn [title set_title]. destruct (truthy _); [|done].
    destruct (capitalize _); [|done]. cbn [fst].
    apply create_keeps_references; [done|].
    destruct (get_by_pk folders fid); cbn; intros q Hq; congruence.
  - unfold views.clear. by apply update_where_keeps_references.
  - unfold views.clear_htmx. by apply update_where_keeps_references.
  - unfold views.priority_htmx. destruct (s !! id); [|done].
    destruct prio; try done. by apply alter_keeps_references.
  - unfold views.delete_completed_htmx. by apply delete_where_keeps_references.
  - unfold views.move_folder_htmx.
    destruct fid; cbn [fst]; try by apply update_where_keeps_references.
    + done.
    + destruct (get_by_pk folders (Number z)); [|done|done].
      case_bool_decide; [|done]. by apply update_where_keeps_references.
Qed.

End References.

(** X1: no sequence of requests to the views that write tasks leaves a
    [parent_task] without its row: when the model gives a new task no
    parent, a table in which every [parent_task] names a row stays so
    through toggles, edits, additions, archiving, bulk updates, moves and
    deletions, under either deletion policy. *)
Theorem requests_keep_references (on_delete : OnDelete)
    (Task_defaults : Task) (s s' : Store) :
  parent_task Task_defaults = None →
  well_referenced s →
  rtc (request_step on_delete Task_defaults) s s' →
  well_referenced s'.
Proof.
  intros Hdef Hwr Hsteps. induction Hsteps as [|s1 s2 s3 Hstep _ IH]; [done|].
  apply IH. by eapply request_step_keeps_references.
Qed.

Lemma requests_keep_references_witness :
  well_referenced
    (views.delete CASCADE
       (views.status_htmx sample_defaults march_15 one_instance
          sample_request 2%nat).1
       sample_request 1%nat).1.
Proof.
  apply (requests_keep_references CASCADE sample_defaults one_instance).
  - reflexivity.
  - apply well_referencedb_sound. vm_compute. reflexivity.
  - eapply rtc_l; [|apply rtc_once].
    + apply req_engine. apply step_status_htmx.
    + apply req_delete.
Defined.

Lemma fetch_parent_found (s : Store) (id : pk) (t : Task) :
  well_referenced s → s !! id = Some t → fetch_parent s t ≠ Missing.
Proof.
  intros Hwr Hl. unfold fetch_parent.
  destruct (parent_task t) as [p|] eqn:Hp; [|done].
  destruct (Hwr id t p Hl Hp) as [tp ->]. done.
Qed.

Lemma filter_eqb_nil (f : nat) (l : list nat) :
  List.filter (Nat.eqb f) l = [] ↔ f ∉ l.
Proof.
  split.
  - intros Hnil Hin. apply list_elem_of_In in Hin.
    assert (In f (List.filter (Nat.eqb f) l)) as Hf.
    { apply filter_In. split; [done|]. apply Nat.eqb_refl. }
    by rewrite Hnil in Hf.
  - intros Hnot. destruct (List.filter (Nat.eqb f) l) as [|x l'] eqn:Hfl; [done|].
    exfalso. apply Hnot.
    assert (In x (List.filter (Nat.eqb f) l)) as Hx by (rewrite Hfl; by left).
    apply filter_In in Hx as [Hx Heq]. apply Nat.eqb_eq in Heq. subst x.
    by apply list_elem_of_In.
Qed.

(** X2: in a table in which every [parent_task] names a row, no toggle
    and no edit fails on a missing parent: [status_htmx], [task_form] and
    a POST to [edit] never answer with an uncaught [DoesNotExist].  A GET
    to [edit] does so for another reason, and only then: when the task is
    in a folder that is not among the folders of the requester. *)
Theorem references_rule_out_missing_parent (on_delete : OnDelete)
    (Task_defaults : Task) (today : date) (s : Store) (request : Request)
    (id : pk) :
  well_referenced s →
  (views.status_htmx Task_defaults today s request id).2
    ≠ Uncaught "DoesNotExist"
  ∧ (views.task_form on_delete Task_defaults today s request id).2
      ≠ Uncaught "DoesNotExist"
  ∧ (method request = POST →
       (views.edit on_delete Task_defaults today s request id).2
       ≠ Uncaught "DoesNotExist")
  ∧ (∀ t, method request = GET → s !! id = Some t →
       (views.edit on_delete Task_defaults today s request id).2
       = Uncaught "DoesNotExist"
       ↔ ∃ f, folder t = Some f ∧ f ∉ task_folders request).
Proof.
  intros Hwr. split; [|split; [|split]].
  - unfold views.status_htmx.
    destruct (s !! id) as [t|] eqn:Hl; [|done]. fold (toggled today t).
    case_bool_decide; [|done].
    assert (fetch_parent (save id (toggled today t) s) (toggled today t)
            ≠ Missing) as Hf.
    { apply (fetch_parent_found _ id); [|apply lookup_save_eq].
      apply save_keeps_references; [done|]. intros p Hp. right.
      rewrite toggled_parent in Hp. by eapply Hwr. }
    destruct (fetch_parent _ _) as [|p parent|]; [done| |done].
    destruct (is_recurring parent && negb (archived parent)); [|done].
    by destruct (exists_row _ _).
  - unfold views.task_form.
    destruct (s !! id) as [t|] eqn:Hl; [|done].
    pose proof (fetch_parent_found s id t Hwr Hl) as Hf.
    destruct (method request);
      destruct (fetch_parent s t) as [|p parent|]; try done;
      destruct (cleaned_data request) as [form|]; try done;
      destruct (capitalize _); try done; cbv zeta;
      repeat match goal with
             | |- context [if ?b then _ else _] => destruct b; cbv beta iota
             | |- context [first_of ?l] => destruct (first_of l) as [[? ?]|]
             end; done.
  - intros Hm. unfold views.edit. rewrite Hm.
    destruct (s !! id) as [t|] eqn:Hl; try done;
      pose proof (fetch_parent_found s id t Hwr Hl) as Hf;
      destruct (fetch_parent s t) as [|p parent|]; try done;
      destruct (cleaned_data request) as [form|]; try done;
      destruct (capitalize _); try done; cbv zeta;
      repeat match goal with
             | |- context [if ?b then _ else _] => destruct b; cbv beta iota
             | |- context [first_of ?l] => destruct (first_of l) as [[? ?]|]
             end; done.
  - intros t Hm Hl. unfold views.edit. rewrite Hm, Hl. cbv zeta.
    pose proof (fetch_parent_found s id t Hwr Hl) as Hf.
    assert ((match fetch_parent s t with
             | Missing => (s, Uncaught "DoesNotExist")
             | _ => (s, Render "tasks/content.html")
             end).2 ≠ Uncaught "DoesNotExist") as Hdisplay
      by by destruct (fetch_parent s t).
    destruct (folder t) as [f|] eqn:Hfo.
    + pose proof (filter_eqb_nil f (task_folders request)) as Hnil.
      destruct (List.filter (Nat.eqb f) (task_folders request))
        as [|x [|y l]] eqn:Hfl.
      * split; [|done]. intros _. exists f. split; [done|]. by apply Hnil.
      * split; [done|]. intros (f' & [= <-] & Hnot).
        by apply Hnil in Hnot.
      * split; [done|]. intros (f' & [= <-] & Hnot).
        by apply Hnil in Hnot.
    + split; [done|]. by intros (f' & ? & _).
Qed.

Lemma references_rule_out_missing_parent_witness :
  (views.status_htmx sample_defaults march_15 one_instance stranger
     2%nat).2 ≠ Uncaught "DoesNotExist"
  ∧ (views.edit CASCADE sample_defaults march_15 one_instance stranger
       2%nat).2 = Uncaught "DoesNotExist".
Proof.
  destruct (references_rule_out_missing_parent CASCADE sample_defaults march_15
              one_instance stranger 2%nat) as (Htoggle & _ & _ & Hget).
  { apply well_referencedb_sound. vm_compute. reflexivity. }
  split; [exact Htoggle|].
  apply (Hget (sample_instance Pending march_15 None));
    [reflexivity|reflexivity|].
  exists 7%nat. split; [reflexivity|]. apply not_elem_of_nil.
Defined.

(** ** Deleting a task *)

(** X3: [delete] and [delete_htmx], asked by the owner, remove the row.
    A row that points at it through [parent_task] is removed as well under
    CASCADE and stays, with a null [parent_task], under SET_NULL; a row
    without [parent_task] is left as it is. *)
Theorem owner_delete_removes_row (on_delete : OnDelete) (s : Store)
    (request : Request) (id : pk) (t : Task) :
  s !! id = Some t →
  user t = request_user request →
  views.delete on_delete s request id
  = (delete_row on_delete id s, Redirect "tasks")
  ∧ views.delete_htmx on_delete s request id
    = (delete_row on_delete id s, NoContent "tasksChanged")
  ∧ delete_row on_delete id s !! id = None
  ∧ (∀ k r, s !! k = Some r → k ≠ id → parent_task r = Some id →
       delete_row on_delete id s !! k
       = match on_delete with
         | CASCADE => None
         | SET_NULL => Some (set_parent_task None r)
         end)
  ∧ (∀ k r, s !! k = Some r → k ≠ id → parent_task r = None →
       delete_row on_delete id s !! k = Some r).
Proof.
  intros Hl Hown. split; [|split; [|split; [|split]]].
  - unfold views.delete. by rewrite Hl, bool_decide_eq_true_2.
  - unfold views.delete_htmx. by rewrite Hl, bool_decide_eq_true_2.
  - apply delete_row_self.
  - intros k r Hk Hne Hp. destruct on_delete; simpl.
    + apply map_lookup_filter_None. right. intros r' Hk' Hnot. apply Hnot.
      simpl. destruct (size s) as [|n] eqn:Hsize.
      { apply map_size_empty_iff in Hsize. by rewrite Hsize in Hl. }
      rewrite collect_unfold. apply collect_grows.
      apply elem_of_union_r, elem_of_dom. exists r.
      apply map_lookup_filter_Some. split; [done|]. simpl.
      apply refers_to_true. exists id. split; [done|]. set_solver.
    + rewrite lookup_fmap, lookup_delete_ne, Hk by done. simpl. f_equal.
      unfold detach. by rewrite bool_decide_eq_true_2.
  - intros k r Hk Hne Hp. destruct on_delete; simpl.
    + apply map_lookup_filter_Some. split; [done|]. simpl. intros Hin.
      apply collect_members in Hin as [Hin|(r' & p & Hk' & Hp')].
      * set_solver.
      * congruence.
    + rewrite lookup_fmap, lookup_delete_ne, Hk by done. simpl. f_equal.
      unfold detach. rewrite bool_decide_eq_false_2; [done|congruence].
Qed.

Lemma owner_delete_removes_row_witness :
  delete_row CASCADE 1%nat one_instance !! 1%nat = None
  ∧ delete_row CASCADE 1%nat one_instance !! 2%nat = None.
Proof.
  destruct (owner_delete_removes_row CASCADE one_instance sample_request 1%nat
              sample_template) as (_ & _ & Hgone & Hinst & _);
    [reflexivity|reflexivity|].
  split; [exact Hgone|].
  apply (Hinst 2%nat (sample_instance Pending march_15 None));
    [reflexivity|lia|reflexivity].
Defined.

(** X4: the owner check of [delete] does not protect a task without
    [parent_task]: a valid edit by any user makes that user the owner, and
    the same user's [delete] then removes the task.  The edit is one through [edit], or through
    [task_form] with a form the view gets through (not one that marks
    complete a task that was not). *)
Theorem edit_then_delete_by_anyone (on_delete : OnDelete)
    (Task_defaults : Task) (today : date) (s s1 : Store)
    (request request' : Request) (id : pk) (t : Task) (form : forms.TaskForm)
    (ttl : string) :
  s !! id = Some t →
  parent_task t = None →
  method request = POST →
  cleaned_data request = Some form →
  capitalize (forms.title form) = Some ttl →
  request_user request' = request_user request →
  s1 = (views.edit on_delete Task_defaults today s request id).1
  ∨ (completes form t = false
     ∧ s1 = (views.task_form on_delete Task_defaults today s request id).1) →
  (∃ row, s1 !! id = Some row ∧ user row = request_user request)
  ∧ (views.delete on_delete s1 request' id).2 = Redirect "tasks"
  ∧ (views.delete on_delete s1 request' id).1 !! id = None.
Proof.
  intros Hl Hpar Hm Hf Hc Hsame Hs1.
  assert (fetch_parent s t = NoParent) as Hfetch by by apply fetch_parent_None.
  destruct (edit_cases on_delete Task_defaults today s s1 request id t form
              ttl Hl Hm Hf Hc) as (task & -> & Hcols);
    [by rewrite Hfetch|done|].
  destruct Hcols as (Hu & _ & _ & _ & _ & _ & _ & _ & _ & _ & Hp & _).
  rewrite Hfetch.
  destruct (edit_writes_plain_row on_delete Task_defaults today s id
              (is_recurring t) (forms.recurrence form) task)
    as (row & Hrow & Hshape); [congruence|].
  destruct (recurrence_applied_same (forms.recurrence form) task)
    as ((Su & _) & _).
  assert (user row = request_user request) as Hrowner.
  { destruct Hshape as [-> | ->]; cbn; congruence. }
  split; [eauto|].
  unfold views.delete. rewrite Hrow.
  rewrite bool_decide_eq_true_2 by congruence.
  split; [done|]. apply delete_row_self.
Qed.

Lemma edit_then_delete_by_anyone_witness :
  (views.delete CASCADE
     (views.edit CASCADE sample_defaults march_20 standalone takeover 1%nat).1
     takeover 1%nat).1 !! 1%nat = None.
Proof.
  apply (edit_then_delete_by_anyone CASCADE sample_defaults march_20
           standalone _ takeover takeover 1%nat taxes cleared_form
           "Water plants");
    try reflexivity.
  by left.
Defined.

(** ** When a toggle spawns nothing *)

Section NoSpawn.

Variable Task_defaults : Task.

Implicit Types (s : Store) (t : Task).

(** The table [status_htmx] leaves is the toggled row alone whenever the
    spawn does not run. *)
Lemma status_htmx_store_cases today s request id t :
  s !! id = Some t →
  (views.status_htmx Task_defaults today s request id).1
  = save id (toggled today t) s
  ∨ ∃ p parent,
      status t = Pending
      ∧ parent_task t = Some p
      ∧ save id (toggled today t) s !! p = Some parent
      ∧ is_recurring parent = true ∧ archived parent = false
      ∧ exists_row (λ _ r, pending_instance_of p r)
          (save id (toggled today t) s) = false.
Proof.
  intros Hl. unfold views.status_htmx. rewrite Hl. fold (toggled today t).
  case_bool_decide as Hc; [|by left].
  assert (status t = Pending) as Hpend.
  { rewrite toggled_status in Hc. by destruct (status t). }
  unfold fetch_parent. rewrite toggled_parent.
  destruct (parent_task t) as [p|] eqn:Hp; [|by left].
  destruct (save id (toggled today t) s !! p) as [parent|] eqn:Hlp; [|by left].
  destruct (is_recurring parent) eqn:Hrec; [|by left].
  destruct (archived parent) eqn:Harch; [by left|].
  destruct (exists_row _ _) eqn:Hex; [by left|].
  right. exists p, parent. by repeat split.
Qed.

Lemma status_htmx_skips_plain_parent today s request id t p parent :
  s !! id = Some t → parent_task t = Some p → p ≠ id →
  s !! p = Some parent →
  is_recurring parent = false ∨ archived parent = true →
  (views.status_htmx Task_defaults today s request id).1
  = save id (toggled today t) s.
Proof.
  intros Hl Hp Hne Hlp Hoff.
  destruct (status_htmx_store_cases today s request id t Hl)
    as [Heq|(q & parent' & _ & Hq & Hlq & Hrec & Harch & _)]; [done|].
  rewrite Hp in Hq. injection Hq as <-.
  rewrite lookup_save_ne in Hlq by done. rewrite Hlp in Hlq.
  injection Hlq as <-. destruct Hoff; congruence.
Qed.

End NoSpawn.

(** X5: [status_htmx] writes the toggled row and nothing else (no new
    instance, no stamp on the template) when the toggle reverts a
    completed task, when the task has no [parent_task], when its
    template is not recurring or is archived, or when the template has
    another pending, live instance. *)
Theorem status_htmx_without_spawn (Task_defaults : Task) (today : date)
    (s : Store) (request : Request) (id : pk) (t : Task) :
  s !! id = Some t →
  status t = Complete
  ∨ parent_task t = None
  ∨ (∃ p parent,
       parent_task t = Some p ∧ p ≠ id ∧ s !! p = Some parent
       ∧ (is_recurring parent = false ∨ archived parent = true))
  ∨ (∃ p k r,
       parent_task t = Some p ∧ k ≠ id ∧ s !! k = Some r
       ∧ pending_instance_of p r = true) →
  (views.status_htmx Task_defaults today s request id).1
  = save id (toggled today t) s.
Proof.
  intros Hl Hwhy.
  destruct (status_htmx_store_cases Task_defaults today s request id t Hl)
    as [Heq|(q & parent' & Hpend & Hq & Hlq & Hrec & Harch & Hex)]; [done|].
  exfalso.
  destruct Hwhy as [Hc|[Hnone|[(p & parent & Hp & Hne & Hlp & Hoff)
                                |(p & k & r & Hp & Hne & Hk & Hr)]]].
  - congruence.
  - congruence.
  - rewrite Hp in Hq. injection Hq as <-.
    rewrite lookup_save_ne in Hlq by done. rewrite Hlp in Hlq.
    injection Hlq as <-. destruct Hoff; congruence.
  - rewrite Hp in Hq. injection Hq as <-.
    assert (save id (toggled today t) s !! k = Some r) as Hk1
      by by rewrite lookup_save_ne.
    by rewrite (exists_row_false _ _ _ _ Hex Hk1) in Hr.
Qed.

Lemma status_htmx_without_spawn_witness :
  (views.status_htmx sample_defaults march_20 two_instances sample_request
     2%nat).1
  = save 2%nat
      (toggled march_20 (sample_instance Complete march_14 (Some march_14)))
      two_instances.
Proof.
  apply (status_htmx_without_spawn sample_defaults march_20 two_instances
           sample_request 2%nat
           (sample_instance Complete march_14 (Some march_14)));
    [reflexivity|].
  left. reflexivity.
Defined.

(** ** More on edits *)

(** X6: [edit] and [task_form] write nothing on a GET, for a key without
    a row, for a form that is not valid and for an empty title; for a
    key without a row both answer 404. *)
Theorem edits_refuse_without_writing (on_delete : OnDelete)
    (Task_defaults : Task) (today : date) (s : Store) (request : Request)
    (id : pk) :
  method request = GET
  ∨ s !! id = None
  ∨ cleaned_data request = None
  ∨ (∃ form, cleaned_data request = Some form
             ∧ forms.title form = EmptyString) →
  (views.edit on_delete Task_defaults today s request id).1 = s
  ∧ (views.task_form on_delete Task_defaults today s request id).1 = s
  ∧ (s !! id = None →
       views.edit on_delete Task_defaults today s request id = (s, Http404)
       ∧ views.task_form on_delete Task_defaults today s request id
         = (s, Http404)).
Proof.
  intros Hwhy. split; [|split].
  - destruct (edit_writes_or_not on_delete Task_defaults today s request id)
      as [Heq|(t & form & ttl & Hl & Hm & Hf & Hc & _)]; [done|].
    exfalso. destruct Hwhy as [Hg|[Hn|[Hi|(form' & Hf' & Ht)]]]; try congruence.
    rewrite Hf in Hf'. injection Hf' as <-. by rewrite Ht in Hc.
  - destruct (task_form_writes_or_not on_delete Task_defaults today s request
                id) as [Heq|(t & form & ttl & Hl & Hm & Hf & Hc & _)]; [done|].
    exfalso. destruct Hwhy as [Hg|[Hn|[Hi|(form' & Hf' & Ht)]]]; try congruence.
    rewrite Hf in Hf'. injection Hf' as <-. by rewrite Ht in Hc.
  - intros Hnone. unfold views.edit, views.task_form. rewrite Hnone.
    by destruct (method request).
Qed.

Lemma edits_refuse_without_writing_witness :
  views.edit CASCADE sample_defaults march_20 one_instance make_weekly 5%nat
  = (one_instance, Http404).
Proof.
  destruct (edits_refuse_without_writing CASCADE sample_defaults march_20
              one_instance make_weekly 5%nat) as (_ & _ & H404).
  - right. left. reflexivity.
  - apply H404. reflexivity.
Defined.

(** X7: an edit of an instance that names a recurrence copies the
    folder, title, priority and due time of the form to the template and
    leaves the template's owner, status, due date, dates of completion
    and generation, archived flag and recurring flag as they were; the
    instance takes the status and due date of the form and the requesting
    user as owner; no other row changes.  The edit is one through [edit], or through
    [task_form] with a form the view gets through (not one that marks
    complete a task that was not). *)
Theorem instance_edit_reaches_template (on_delete : OnDelete)
    (Task_defaults : Task) (today : date) (s s' : Store) (request : Request)
    (id p : pk) (t parent : Task) (form : forms.TaskForm) (ttl : string) :
  s !! id = Some t →
  parent_task t = Some p →
  p ≠ id →
  s !! p = Some parent →
  method request = POST →
  cleaned_data request = Some form →
  capitalize (forms.title form) = Some ttl →
  truthy (forms.recurrence form) = true →
  s' = (views.edit on_delete Task_defaults today s request id).1
  ∨ (completes form t = false
     ∧ s' = (views.task_form on_delete Task_defaults today s request id).1) →
  (∃ template,
     s' !! p = Some template
     ∧ folder template = forms.folder form
     ∧ (is_ascii (forms.title form) = true → title template = ttl)
     ∧ priority template = forms.priority form
     ∧ due_time template = forms.due_time form
     ∧ user template = user parent ∧ status template = status parent
     ∧ due_date template = due_date parent
     ∧ completed_date template = completed_date parent
     ∧ archived template = archived parent
     ∧ is_recurring template = is_recurring parent
     ∧ last_generated template = last_generated parent
     ∧ parent_task template = parent_task parent)
  ∧ (∃ inst,
       s' !! id = Some inst
       ∧ user inst = request_user request
       ∧ status inst = forms.status form
       ∧ due_date inst = forms.due_date form
       ∧ parent_task inst = Some p)
  ∧ (∀ k, k ≠ id → k ≠ p → s' !! k = s !! k).
Proof.
  intros Hl Hpar Hne Hp Hm Hf Hc Htr Hs'.
  assert (fetch_parent s t = Parent p parent) as Hfetch
    by by apply fetch_parent_Some.
  destruct (edit_cases on_delete Task_defaults today s s' request id t form
              ttl Hl Hm Hf Hc) as (task & -> & Hcols);
    [by rewrite Hfetch|done|].
  destruct Hcols as (Hu & Hfo & Ht & Hpr & Hst & Hdd & Hdt & _ & _ & _ & Hpt & _).
  rewrite Hfetch. unfold edit_writes. rewrite Htr. cbv zeta.
  split; [|split].
  - eexists. split; [apply lookup_save_eq|].
    destruct (derive_recurrence_same (forms.recurrence form) (due_date task)
                (set_recurrence_type (Some (forms.recurrence form))
                   (synced task parent)))
      as ((-> & -> & -> & -> & -> & -> & -> & -> & -> & ->) & -> & _ & ->).
    cbn. by repeat split.
  - exists task. rewrite lookup_save_ne, lookup_save_eq by done.
    repeat split; congruence.
  - intros k Hk1 Hk2. by rewrite !lookup_save_ne.
Qed.

Lemma instance_edit_reaches_template_witness :
  ∃ template,
    (views.edit CASCADE sample_defaults march_20 one_instance rename_next
       2%nat).1 !! 1%nat = Some template
    ∧ title template = "Water the plants"
    ∧ due_date template = None.
Proof.
  destruct (instance_edit_reaches_template CASCADE sample_defaults march_20
              one_instance
              (views.edit CASCADE sample_defaults march_20 one_instance
                 rename_next 2%nat).1
              rename_next 2%nat 1%nat (sample_instance Pending march_15 None)
              sample_template rename_form "Water the plants")
    as ((template & Hl & _ & Ht & _ & _ & _ & _ & Hdd & _) & _);
    try reflexivity; [lia|by left|].
  exists template. split; [exact Hl|]. split; [exact (Ht eq_refl)|exact Hdd].
Defined.

(** X9: an edit that clears the recurrence of a task without
    [parent_task] turns its recurring flag off and nulls its three
    recurrence columns, leaves every other row, its instances included,
    as it was, and from then on completing one of those instances through
    [status_htmx] spawns nothing.  The edit is one through [edit], or through
    [task_form] with a form the view gets through (not one that marks
    complete a task that was not). *)
Theorem recurrence_off_stops_spawning (on_delete : OnDelete)
    (Task_defaults : Task) (today : date) (s s1 : Store) (request : Request)
    (id : pk) (t : Task) (form : forms.TaskForm) (ttl : string) :
  s !! id = Some t →
  parent_task t = None →
  method request = POST →
  cleaned_data request = Some form →
  capitalize (forms.title form) = Some ttl →
  truthy (forms.recurrence form) = false →
  s1 = (views.edit on_delete Task_defaults today s request id).1
  ∨ (completes form t = false
     ∧ s1 = (views.task_form on_delete Task_defaults today s request id).1) →
  (∃ row,
     s1 !! id = Some row
     ∧ is_recurring row = false ∧ recurrence_type row = None
     ∧ recurrence_day row = None ∧ recurrence_month row = None)
  ∧ (∀ k, k ≠ id → s1 !! k = s !! k)
  ∧ (∀ today' request' k inst,
       s !! k = Some inst → k ≠ id → parent_task inst = Some id →
       (views.status_htmx Task_defaults today' s1 request' k).1
       = save k (toggled today' inst) s1).
Proof.
  intros Hl Hpar Hm Hf Hc Htr Hs1.
  assert (fetch_parent s t = NoParent) as Hfetch by by apply fetch_parent_None.
  destruct (edit_cases on_delete Task_defaults today s s1 request id t form
              ttl Hl Hm Hf Hc) as (task & -> & Hcols);
    [by rewrite Hfetch|done|].
  rewrite Hfetch. unfold edit_writes, recurrence_applied. rewrite Htr.
  cbv zeta. cbn [is_recurring set_recurrence_month set_recurrence_day
                 set_recurrence_type set_is_recurring andb].
  set (row := set_recurrence_month None _).
  assert (save id row s !! id = Some row) as Hrow by apply lookup_save_eq.
  assert (∀ k, k ≠ id → save id row s !! k = s !! k) as Hrest.
  { intros k Hk. by rewrite lookup_save_ne. }
  split; [|split].
  - exists row. by repeat split.
  - exact Hrest.
  - intros today' request' k inst Hk Hne Hp.
    apply (status_htmx_skips_plain_parent Task_defaults today' _ request' k
             inst id row); try done.
    + by rewrite Hrest.
    + by left.
Qed.

Lemma recurrence_off_stops_spawning_witness :
  (views.status_htmx sample_defaults march_20
     (views.edit CASCADE sample_defaults march_15 one_instance
        clear_recurrence 1%nat).1
     sample_request 2%nat).1 !! 3%nat = None.
Proof.
  destruct (recurrence_off_stops_spawning CASCADE sample_defaults march_15
              one_instance
              (views.edit CASCADE sample_defaults march_15 one_instance
                 clear_recurrence 1%nat).1
              clear_recurrence 1%nat sample_template cleared_form
              "Water plants")
    as (_ & Hrest & Hstop);
    [reflexivity|reflexivity|reflexivity|reflexivity|reflexivity
    |reflexivity|by left|].
  rewrite (Hstop march_20 sample_request 2%nat
             (sample_instance Pending march_15 None));
    [|reflexivity|lia|reflexivity].
  rewrite lookup_save_ne by lia. rewrite Hrest by lia. reflexivity.
Defined.

(** ** The instance a template edit reaches *)

Section Latest.

Lemma date_ltb_lt (a b : date) :
  date_ltb a b = true ↔
  year a < year b
  ∨ (year a = year b
     ∧ (month a < month b ∨ (month a = month b ∧ day a < day b))).
Proof.
  unfold date_ltb.
  rewrite !orb_true_iff, !andb_true_iff, !orb_true_iff, !andb_true_iff.
  rewrite !Z.ltb_lt, !Z.eqb_eq. tauto.
Qed.

Lemma date_ltb_irrefl (a : date) : date_ltb a a = false.
Proof.
  destruct (date_ltb a a) eqn:H; [|done]. apply date_ltb_lt in H. lia.
Qed.

Lemma date_ltb_trans (a b c : date) :
  date_ltb a b = true → date_ltb b c = true → date_ltb a c = true.
Proof. rewrite !date_ltb_lt. lia. Qed.

Lemma outranks_irrefl (a : Task) : outranks a a = false.
Proof.
  unfold outranks. destruct (due_date a); [apply date_ltb_irrefl|done].
Qed.

Lemma outranks_sorts_before (a b : pk * Task) :
  outranks a.2 b.2 = true → sorts_before a b = true.
Proof.
  unfold outranks, sorts_before.
  destruct (due_date a.2), (due_date b.2); try done.
  intros ->. done.
Qed.

Lemma outranks_through (y : Task) (a b : pk * Task) :
  sorts_before a b = true → outranks y a.2 = true → outranks y b.2 = true.
Proof.
  unfold outranks, sorts_before.
  destruct (due_date y) as [dy|]; [|done].
  destruct (due_date a.2) as [da|], (due_date b.2) as [db|]; try done.
  intros Hab Hya. apply orb_true_iff in Hab as [Hlt|Heq].
  - by eapply date_ltb_trans.
  - apply andb_true_iff in Heq as [Heq _].
    apply bool_decide_eq_true in Heq. by subst.
Qed.

(** No row of the list outranks the first. *)
Lemma first_of_unrivalled (l : list (pk * Task)) (x y : pk * Task) :
  first_of l = Some x → y ∈ l → outranks y.2 x.2 = false.
Proof.
  revert x. induction l as [|a l IH]; intros x Hfirst Hy.
  { by apply elem_of_nil in Hy. }
  simpl in Hfirst. destruct (first_of l) as [z|] eqn:Hz.
  - destruct (sorts_before a z) eqn:Hab; injection Hfirst as <-.
    + apply elem_of_cons in Hy as [->|Hy]; [apply outranks_irrefl|].
      destruct (outranks y.2 a.2) eqn:Hya; [|done].
      rewrite <- (IH z eq_refl Hy). symmetry. by eapply outranks_through.
    + apply elem_of_cons in Hy as [->|Hy]; [|by apply IH].
      destruct (outranks a.2 z.2) eqn:Haz; [|done].
      apply outranks_sorts_before in Haz. congruence.
  - injection Hfirst as <-. apply first_of_None in Hz. subst.
    apply elem_of_cons in Hy as [->|Hy]; [apply outranks_irrefl|].
    by apply elem_of_nil in Hy.
Qed.

End Latest.

(** X8: an edit of a recurring task without [parent_task] that keeps it
    recurring either finds no pending instance of it and changes no other
    row, or rewrites exactly one pending instance: one that no other
    pending instance beats by due date.  That instance takes the folder,
    title, priority and due time of the form and keeps its own status,
    due date and owner.  The edit is one through [edit], or through
    [task_form] with a form the view gets through (not one that marks
    complete a task that was not). *)
Theorem template_edit_reaches_latest_instance (on_delete : OnDelete)
    (Task_defaults : Task) (today : date) (s s' : Store) (request : Request)
    (id : pk) (t : Task) (form : forms.TaskForm) (ttl : string) :
  s !! id = Some t →
  parent_task t = None →
  is_recurring t = true →
  method request = POST →
  cleaned_data request = Some form →
  capitalize (forms.title form) = Some ttl →
  truthy (forms.recurrence form) = true →
  s' = (views.edit on_delete Task_defaults today s request id).1
  ∨ (completes form t = false
     ∧ s' = (views.task_form on_delete Task_defaults today s request id).1) →
  ((∀ k r, s !! k = Some r → pending_of id r = false)
   ∧ ∀ k, k ≠ id → s' !! k = s !! k)
  ∨ ∃ k li,
      k ≠ id ∧ s !! k = Some li ∧ pending_of id li = true
      ∧ (∀ k' li' d0 d',
           s !! k' = Some li' → pending_of id li' = true →
           due_date li = Some d0 → due_date li' = Some d' →
           date_ltb d0 d' = false)
      ∧ (∃ li2,
           s' !! k = Some li2
           ∧ folder li2 = forms.folder form
           ∧ (is_ascii (forms.title form) = true → title li2 = ttl)
           ∧ priority li2 = forms.priority form
           ∧ due_time li2 = forms.due_time form
           ∧ status li2 = status li ∧ due_date li2 = due_date li
           ∧ user li2 = user li ∧ parent_task li2 = Some id)
      ∧ ∀ k', k' ≠ id → k' ≠ k → s' !! k' = s !! k'.
Proof.
  intros Hl Hpar Hrec Hm Hf Hc Htr Hs'.
  assert (fetch_parent s t = NoParent) as Hfetch by by apply fetch_parent_None.
  destruct (edit_cases on_delete Task_defaults today s s' request id t form
              ttl Hl Hm Hf Hc) as (task & -> & Hcols);
    [by rewrite Hfetch|done|].
  destruct Hcols as (_ & Hfo & Ht & Hpr & _ & _ & Hdt & _ & _ & _ & Hpt & _).
  rewrite Hfetch, Hrec. unfold edit_writes.
  destruct (recurrence_applied_same (forms.recurrence form) task)
    as (Hsame & Hnow & _).
  set (task' := recurrence_applied (forms.recurrence form) task) in *.
  cbv zeta. rewrite Hnow, Htr. cbn [negb andb].
  set (s1 := save id task' s).
  assert (parent_task task' = None) as Hnone.
  { destruct Hsame as (_ & _ & _ & _ & _ & _ & _ & _ & _ & ->). congruence. }
  assert (∀ k r, s !! k = Some r → pending_of id r = true →
                 k ≠ id ∧ s1 !! k = Some r) as Hin1.
  { intros k r Hk Hr. assert (k ≠ id) as Hne.
    { intros ->. rewrite Hl in Hk. injection Hk as <-.
      apply pending_of_parent in Hr. congruence. }
    split; [done|]. unfold s1. by rewrite lookup_save_ne. }
  destruct (first_of (rows (λ _ r, pending_of id r) s1)) as [[k li]|] eqn:Hfirst.
  - right.
    pose proof (first_of_elem _ _ Hfirst) as Helem.
    apply elem_of_rows in Helem as [Hk Hpend].
    assert (k ≠ id) as Hne.
    { intros ->. unfold s1 in Hk. rewrite lookup_save_eq in Hk.
      injection Hk as <-. apply pending_of_parent in Hpend. congruence. }
    assert (s !! k = Some li) as Hks
      by (unfold s1 in Hk; by rewrite lookup_save_ne in Hk).
    exists k, li. split; [done|]. split; [done|]. split; [done|].
    split; [|split].
    + intros k' li' d0 d' Hk' Hp' Hd0 Hd'.
      destruct (Hin1 k' li' Hk' Hp') as [_ Hk1].
      assert ((k', li') ∈ rows (λ _ r, pending_of id r) s1) as Hmem
        by by apply elem_of_rows.
      pose proof (first_of_unrivalled _ _ _ Hfirst Hmem) as Hun.
      unfold outranks in Hun. simpl in Hun. by rewrite Hd', Hd0 in Hun.
    + exists (synced task' li). rewrite lookup_save_eq. split; [done|].
      destruct Hsame as (_ & Sf & St & Sp & _ & _ & Sdt & _).
      cbn. rewrite Sf, St, Sp, Sdt.
      repeat split; try congruence. by apply pending_of_parent.
    + intros k' Hk1 Hk2. rewrite lookup_save_ne by done.
      unfold s1. by rewrite lookup_save_ne.
  - left. apply first_of_None in Hfirst. split.
    + intros k r Hk. destruct (pending_of id r) eqn:Hr; [|done].
      destruct (Hin1 k r Hk Hr) as [_ Hk1].
      assert ((k, r) ∈ rows (λ _ r, pending_of id r) s1) as Hmem
        by by apply elem_of_rows.
      rewrite Hfirst in Hmem. by apply elem_of_nil in Hmem.
    + intros k Hk. unfold s1. by rewrite lookup_save_ne.
Qed.

Lemma template_edit_reaches_latest_instance_witness :
  (∀ k, k ≠ 1%nat →
     (views.edit CASCADE sample_defaults march_20 one_instance rename_next
        1%nat).1 !! k = one_instance !! k)
  ∨ ∃ k li li2,
      one_instance !! k = Some li
      ∧ pending_of 1%nat li = true
      ∧ (views.edit CASCADE sample_defaults march_20 one_instance rename_next
           1%nat).1 !! k = Some li2
      ∧ title li2 = "Water the plants"
      ∧ due_date li2 = due_date li.
Proof.
  destruct (template_edit_reaches_latest_instance CASCADE sample_defaults
              march_20 one_instance
              (views.edit CASCADE sample_defaults march_20 one_instance
                 rename_next 1%nat).1
              rename_next 1%nat sample_template rename_form
              "Water the plants")
    as [[_ Hrest]|(k & li & _ & Hk & Hpend & _ & (li2 & Hk2 & Hcols) & _)];
    [reflexivity|reflexivity|reflexivity|reflexivity|reflexivity|reflexivity
    |reflexivity|by left| |].
  - left. exact Hrest.
  - right. exists k, li, li2.
    destruct Hcols as (_ & Ht & _ & _ & _ & Hdd & _).
    split; [exact Hk|]. split; [exact Hpend|]. split; [exact Hk2|].
    split; [exact (Ht eq_refl)|exact Hdd].
Defined.

(** ** Adding tasks *)

Lemma capitalize_nonempty (ttl : string) :
  truthy ttl = true →
  ∃ c rest, ttl = String c rest ∧ capitalize ttl = Some (String (upper c) rest).
Proof. destruct ttl as [|c rest]; [done|]. intros _. by exists c, rest. Qed.

(** X10: for a posted title of characters below 128, [add_htmx] writes
    nothing on a GET or when the title is missing or blank; otherwise it
    adds exactly one row, under a key that was free, owned by the
    requesting user, titled with the posted title stripped and
    capitalised, in the posted folder if that folder exists and in the
    default folder of the model if not. *)
Theorem add_htmx_adds_one_row (Task_defaults : Task) (s : Store)
    (folders : Folders) (request : Request) (POST_title : option string)
    (POST_folder_id : QueryParam) :
  is_ascii (default EmptyString POST_title) = true →
  (method request = GET
   ∨ strip (default EmptyString POST_title) = EmptyString →
   (views.add_htmx Task_defaults s folders request POST_title
      POST_folder_id).1 = s)
  ∧ (∀ c rest,
       method request = POST →
       strip (default EmptyString POST_title) = String c rest →
       ∃ row,
         s !! fresh_pk s = None
         ∧ (views.add_htmx Task_defaults s folders request POST_title
              POST_folder_id).1 = <[fresh_pk s := row]> s
         ∧ user row = request_user request
         ∧ title row = String (upper c) rest
         ∧ folder row
           = match get_by_pk folders POST_folder_id with
             | Got f _ => Some f
             | _ => folder Task_defaults
             end
         ∧ status row = status Task_defaults
         ∧ archived row = archived Task_defaults
         ∧ parent_task row = parent_task Task_defaults).
Proof.
  intros _. unfold views.add_htmx. cbn [title set_title].
  split.
  - intros [-> | ->]; [done|]. by destruct (method request).
  - intros c rest -> ->. cbn [truthy capitalize fst].
    eexists. split; [apply fresh_pk_None|]. split; [reflexivity|].
    by destruct (get_by_pk folders POST_folder_id).
Qed.

Lemma add_htmx_adds_one_row_witness :
  ∃ row,
    (views.add_htmx sample_defaults standalone no_folders post_request
       (Some "  buy milk ") NoParam).1 = <[2%nat := row]> standalone
    ∧ title row = "Buy milk"
    ∧ folder row = None.
Proof.
  destruct (add_htmx_adds_one_row sample_defaults standalone no_folders
              post_request (Some "  buy milk ") NoParam)
    as (_ & Hadd); [reflexivity|].
  destruct (Hadd "b"%char "uy milk") as (row & _ & Heq & _ & Ht & Hf & _);
    [reflexivity|reflexivity|].
  exists row. split; [exact Heq|]. split; [exact Ht|exact Hf].
Defined.

(** X11: [add] and [add_htmx] part ways on the folder.  For a posted
    title of characters below 128 without surrounding blanks, both add
    the same row when the posted folder exists or is not a number; when
    the folder is missing from the request or names no row, [add] fails
    on [DoesNotExist] and saves nothing, where [add_htmx] saves the task
    without the folder.  Without a title [add] fails as well. *)
Theorem add_loses_task_without_folder (Task_defaults : Task) (s : Store)
    (folders : Folders) (request : Request) (ttl : string)
    (POST_folder_id : QueryParam) :
  method request = POST →
  is_ascii ttl = true →
  truthy ttl = true →
  strip ttl = ttl →
  match get_by_pk folders POST_folder_id with
  | NotFound =>
      views.add Task_defaults s folders request (Some ttl) POST_folder_id
      = (s, Uncaught "DoesNotExist")
      ∧ is_Some
          ((views.add_htmx Task_defaults s folders request (Some ttl)
              POST_folder_id).1 !! fresh_pk s)
  | _ =>
      (views.add Task_defaults s folders request (Some ttl)
         POST_folder_id).1
      = (views.add_htmx Task_defaults s folders request (Some ttl)
           POST_folder_id).1
      ∧ (views.add Task_defaults s folders request (Some ttl)
           POST_folder_id).2 = Redirect "tasks"
  end
  ∧ views.add Task_defaults s folders request None POST_folder_id
    = (s, Uncaught "TypeError")
  ∧ views.add Task_defaults s folders request (Some EmptyString)
      POST_folder_id
    = (s, Uncaught "IndexError").
Proof.
  intros Hm _ Htr Hstrip. unfold views.add, views.add_htmx. rewrite Hm.
  cbn [title set_title].
  change (default EmptyString (Some ttl)) with ttl. rewrite Hstrip, Htr.
  destruct (capitalize_nonempty ttl Htr) as (c & rest & -> & ->).
  split; [|done].
  destruct (get_by_pk folders POST_folder_id); cbn [fst snd]; try done.
  split; [done|]. unfold create. rewrite lookup_insert_eq. by eexists.
Qed.

Lemma add_loses_task_without_folder_witness :
  views.add sample_defaults standalone no_folders post_request
    (Some "buy milk") NoParam
  = (standalone, Uncaught "DoesNotExist").
Proof.
  pose proof (add_loses_task_without_folder sample_defaults standalone
                no_folders post_request "buy milk" NoParam
                eq_refl eq_refl eq_refl eq_refl) as [H _].
  exact (proj1 H).
Defined.

(** ** Archiving, deleting and moving completed tasks *)

Section Housekeeping.

Implicit Types (s : Store) (t : Task) (P : Task → bool).

Lemma lookup_update_where P (f : Task → Task) s k :
  update_where P f s !! k = (λ t, if P t then f t else t) <$> s !! k.
Proof. unfold update_where. apply lookup_fmap. Qed.

Lemma update_where_idem P (f : Task → Task) s :
  (∀ t, f (f t) = f t) →
  update_where P f (update_where P f s) = update_where P f s.
Proof.
  intros Hf. apply map_eq. intros k. rewrite !lookup_update_where.
  destruct (s !! k) as [t|]; [|done]. simpl. f_equal.
  destruct (P t) eqn:HP; [|by rewrite HP].
  destruct (P (f t)); [apply Hf|done].
Qed.

Lemma dom_update_where P (f : Task → Task) s :
  dom (update_where P f s) = dom s.
Proof. unfold update_where. apply dom_fmap_L. Qed.

End Housekeeping.

(** X12: [clear] and [clear_htmx] only archive: the key set is unchanged
    and a row either stays as it is or is a completed row that comes out
    with [archived] set and every other column as before; so no pending
    task is ever archived.  Archiving twice is archiving once. *)
Theorem clearing_only_archives_completed (s : Store) (request : Request) :
  (∀ s',
     s' = (views.clear s request).1 ∨ s' = (views.clear_htmx s request).1 →
     dom s' = dom s
     ∧ ∀ k t,
         s !! k = Some t →
         s' !! k = Some t
         ∨ (status t = Complete ∧ s' !! k = Some (set_archived true t)))
  ∧ (views.clear (views.clear s request).1 request).1
    = (views.clear s request).1
  ∧ (views.clear_htmx (views.clear_htmx s request).1 request).1
    = (views.clear_htmx s request).1.
Proof.
  split; [|split].
  - intros s' [-> | ->]; unfold views.clear, views.clear_htmx; cbn [fst];
      (split; [apply dom_update_where|]); intros k t Hk;
      rewrite lookup_update_where, Hk; simpl.
    + destruct (views.clear_qs request t) eqn:HP; [|by left]. right.
      split; [|done]. unfold views.clear_qs in HP.
      destruct (selected_folder request);
        repeat (apply andb_true_iff in HP as [HP ?]);
        match goal with
        | H : bool_decide (status t = Complete) = true |- _ =>
            by apply bool_decide_eq_true in H
        end.
    + destruct (_ && _) eqn:HP; [|by left]. right. split; [|done].
      apply andb_true_iff in HP as [_ HP]. by apply bool_decide_eq_true in HP.
  - unfold views.clear. cbn [fst]. by apply update_where_idem.
  - unfold views.clear_htmx. cbn [fst]. by apply update_where_idem.
Qed.

Lemma clearing_only_archives_completed_witness :
  (views.clear_htmx two_instances all_folders).1 !! 3%nat
  = Some (sample_instance Pending march_15 None).
Proof.
  destruct (clearing_only_archives_completed two_instances all_folders)
    as [Hframe _].
  destruct (Hframe (views.clear_htmx two_instances all_folders).1) as [_ Hrows];
    [by right|].
  destruct (Hrows 3%nat (sample_instance Pending march_15 None) eq_refl)
    as [Hkept|[Hdone _]]; [exact Hkept|discriminate Hdone].
Defined.

Lemma in_scope_detach_all request (dead : gset pk) (t : Task) :
  views.in_scope request (detach_all dead t) = views.in_scope request t
  ∧ status (detach_all dead t) = status t.
Proof. unfold detach_all. by destruct (refers_to dead t). Qed.

(** X13: after [delete_completed_htmx] no completed task of the folders
    in view is left.  A row that is left is a row of before under the same
    key, unchanged or with its [parent_task] nulled; a pending task
    without [parent_task] always stays, and under SET_NULL every pending
    task stays. *)
Theorem delete_completed_leaves_no_completed (on_delete : OnDelete)
    (s : Store) (request : Request) :
  (∀ k t',
     (views.delete_completed_htmx on_delete s request).1 !! k = Some t' →
     ¬ (views.in_scope request t' = true ∧ status t' = Complete))
  ∧ (∀ k t',
       (views.delete_completed_htmx on_delete s request).1 !! k = Some t' →
       ∃ t, s !! k = Some t ∧ (t' = t ∨ t' = set_parent_task None t))
  ∧ (∀ k t,
       s !! k = Some t → status t = Pending → parent_task t = None →
       (views.delete_completed_htmx on_delete s request).1 !! k = Some t)
  ∧ (on_delete = SET_NULL →
     ∀ k t,
       s !! k = Some t → status t = Pending →
       is_Some ((views.delete_completed_htmx on_delete s request).1 !! k)).
Proof.
  unfold views.delete_completed_htmx. cbn [fst].
  set (P := λ t, views.in_scope request t
                 && bool_decide (status t = Complete)).
  set (doomed := dom (filter (λ kt : pk * Task, P kt.2 = true) s)).
  assert (∀ k t, s !! k = Some t → P t = true → k ∈ doomed) as Hdoomed.
  { intros k t Hk HP. apply elem_of_dom. exists t.
    by apply map_lookup_filter_Some. }
  assert (∀ k, k ∈ doomed → ∃ t, s !! k = Some t ∧ status t = Complete)
    as Hdone.
  { intros k Hk. apply elem_of_dom in Hk as [t Ht].
    apply map_lookup_filter_Some in Ht as [Ht HP]. exists t. split; [done|].
    simpl in HP. unfold P in HP. apply andb_true_iff in HP as [_ HP].
    by apply bool_decide_eq_true in HP. }
  split; [|split; [|split]].
  - intros k t' Hk [Hscope Hst]. destruct on_delete; unfold delete_where in Hk.
    + apply map_lookup_filter_Some in Hk as [Hk Hnot]. apply Hnot. simpl.
      apply collect_grows. apply (Hdoomed k t'); [done|].
      unfold P. rewrite Hscope. by rewrite bool_decide_eq_true_2.
    + rewrite lookup_fmap in Hk. fold doomed in Hk.
      destruct (filter _ s !! k) as [t|] eqn:Hf; [|done].
      simpl in Hk. injection Hk as <-.
      apply map_lookup_filter_Some in Hf as [Hf Hnot]. apply Hnot. simpl.
      destruct (in_scope_detach_all request doomed t) as [Hs1 Hs2].
      apply (Hdoomed k t); [done|].
      unfold P. rewrite <- Hs1, Hscope, <- Hs2.
      by rewrite bool_decide_eq_true_2.
  - intros k t' Hk. destruct on_delete; unfold delete_where in Hk.
    + apply map_lookup_filter_Some in Hk as [Hk _]. eauto.
    + rewrite lookup_fmap in Hk.
      destruct (filter _ s !! k) as [t|] eqn:Hf; [|done].
      simpl in Hk. injection Hk as <-.
      apply map_lookup_filter_Some in Hf as [Hf _]. exists t. split; [done|].
      unfold detach_all. destruct (refers_to _ t); eauto.
  - intros k t Hk Hpend Hpar. destruct on_delete; unfold delete_where.
    + apply map_lookup_filter_Some. split; [done|]. simpl. intros Hin.
      apply collect_members in Hin as [Hin|(r & p & Hr & Hp)].
      * destruct (Hdone k Hin) as (r & Hr & Hc). congruence.
      * congruence.
    + rewrite lookup_fmap. fold doomed.
      assert (filter (λ kt : pk * Task, kt.1 ∉ doomed) s !! k = Some t) as ->.
      { apply map_lookup_filter_Some. split; [done|]. simpl. intros Hin.
        destruct (Hdone k Hin) as (r & Hr & Hc). congruence. }
      simpl. f_equal. unfold detach_all, refers_to. by rewrite Hpar.
  - intros -> k t Hk Hpend. unfold delete_where. rewrite lookup_fmap.
    fold doomed.
    assert (filter (λ kt : pk * Task, kt.1 ∉ doomed) s !! k = Some t) as ->.
    { apply map_lookup_filter_Some. split; [done|]. simpl. intros Hin.
      destruct (Hdone k Hin) as (r & Hr & Hc). congruence. }
    by eexists.
Qed.

Lemma delete_completed_leaves_no_completed_witness :
  (views.delete_completed_htmx CASCADE two_instances all_folders).1 !! 1%nat
  = Some sample_template.
Proof.
  destruct (delete_completed_leaves_no_completed CASCADE two_instances
              all_folders) as (_ & _ & Hstays & _).
  apply Hstays; reflexivity.
Defined.

(** X14: [move_folder_htmx] moves only to a folder of the requesting
    user: for a folder that does not exist or belongs to someone else it
    answers 404 and writes nothing.  Whatever it is asked, the key set is
    unchanged and a row either stays as it is or is a completed,
    unarchived row that comes out with another folder and every other
    column as before; moving twice is moving once. *)
Theorem move_folder_checks_owner (s : Store) (folders : Folders)
    (request : Request) (GET_folder_id : QueryParam) :
  (∀ z,
     GET_folder_id = Number z →
     get_by_pk folders (Number z) = NotFound
     ∨ (∃ f row, get_by_pk folders (Number z) = Got f row
                 ∧ folder_owner row ≠ request_user request) →
     views.move_folder_htmx s folders request GET_folder_id = (s, Http404))
  ∧ dom (views.move_folder_htmx s folders request GET_folder_id).1 = dom s
  ∧ (∀ k t,
       s !! k = Some t →
       (views.move_folder_htmx s folders request GET_folder_id).1 !! k
       = Some t
       ∨ (status t = Complete ∧ archived t = false
          ∧ ∃ dest,
              (views.move_folder_htmx s folders request GET_folder_id).1 !! k
              = Some (set_folder dest t)))
  ∧ (views.move_folder_htmx
       (views.move_folder_htmx s folders request GET_folder_id).1
       folders request GET_folder_id).1
    = (views.move_folder_htmx s folders request GET_folder_id).1.
Proof.
  set (qs := λ t, views.in_scope request t && bool_decide (status t = Complete)
                  && negb (archived t)).
  assert (∀ dest k t,
            s !! k = Some t →
            update_where qs (set_folder dest) s !! k = Some t
            ∨ (status t = Complete ∧ archived t = false
               ∧ ∃ dest',
                   update_where qs (set_folder dest) s !! k
                   = Some (set_folder dest' t))) as Hframe.
  { intros dest k t Hk. rewrite lookup_update_where, Hk. simpl.
    destruct (qs t) eqn:Hq; [|by left]. right. unfold qs in Hq.
    apply andb_true_iff in Hq as [Hq Harch].
    apply andb_true_iff in Hq as [_ Hst].
    apply bool_decide_eq_true in Hst. apply negb_true_iff in Harch.
    split; [done|]. split; [done|]. by exists dest. }
  unfold views.move_folder_htmx. fold qs.
  split; [|split; [|split]].
  - intros z -> [Hnf|(f & row & Hgot & Hown)].
    + by rewrite Hnf.
    + rewrite Hgot. by rewrite bool_decide_eq_false_2.
  - destruct GET_folder_id as [| | |z];
      [apply dom_update_where|apply dom_update_where|done|].
    destruct (get_by_pk folders (Number z)) as [f row| |]; try done.
    case_bool_decide; [apply dom_update_where|done].
  - intros k t Hk.
    destruct GET_folder_id as [| | |z];
      [by apply Hframe|by apply Hframe|by left|].
    destruct (get_by_pk folders (Number z)) as [f row| |]; try (by left).
    case_bool_decide; [by apply Hframe|by left].
  - destruct GET_folder_id as [| | |z];
      [by apply update_where_idem|by apply update_where_idem|done|].
    destruct (get_by_pk folders (Number z)) as [f row| |]; try done.
    case_bool_decide; [by apply update_where_idem|done].
Qed.

Lemma move_folder_checks_owner_witness :
  views.move_folder_htmx two_instances two_folders all_folders (Number 8)
  = (two_instances, Http404).
Proof.
  destruct (move_folder_checks_owner two_instances two_folders all_folders
              (Number 8)) as (H404 & _).
  apply (H404 8); [reflexivity|].
  right. exists 8%nat, (mkFolder 2%nat ∅). split; [reflexivity|cbn; lia].
Defined.

(** ** Editors of a folder *)

(** X15: [add_editor] and [remove_editor] answer 404 and write nothing
    when the folder or the user does not exist, and ask nothing about who
    requests.  Adding an editor who is not one yet and removing that
    editor again gives back the table of folders; adding the same editor
    twice is adding once. *)
Theorem editor_added_then_removed (folders : Folders) (users : gset user_id)
    (request : Request) (f : folder_id) (u : user_id) :
  (folders !! f = None ∨ u ∉ users →
   views.add_editor folders users request f u = (folders, Http404)
   ∧ views.remove_editor folders users request f u = (folders, Http404))
  ∧ (∀ folder,
       folders !! f = Some folder → u ∈ users →
       (views.add_editor folders users request f u).1 !! f
       = Some (mkFolder (folder_owner folder) (folder_editors folder ∪ {[u]}))
       ∧ (views.add_editor (views.add_editor folders users request f u).1
            users request f u).1
         = (views.add_editor folders users request f u).1
       ∧ (u ∉ folder_editors folder →
          (views.remove_editor (views.add_editor folders users request f u).1
             users request f u).1 = folders)).
Proof.
  unfold views.add_editor, views.remove_editor. split.
  - intros [Hnone|Hnot]; [by rewrite Hnone|].
    destruct (folders !! f); [|done]. by rewrite bool_decide_eq_false_2.
  - intros folder Hf Hu. rewrite Hf, (bool_decide_eq_true_2 _ Hu). cbn [fst].
    rewrite !lookup_insert_eq. cbn [fst folder_owner folder_editors].
    split; [done|]. split.
    + rewrite insert_insert_eq. do 2 f_equal. set_solver.
    + intros Hnew. rewrite insert_insert_eq.
      replace ((folder_editors folder ∪ {[u]}) ∖ {[u]})
        with (folder_editors folder) by set_solver.
      apply insert_id. by destruct folder.
Qed.

Lemma editor_added_then_removed_witness :
  (views.remove_editor
     (views.add_editor two_folders three_users stranger 7%nat 9%nat).1
     three_users stranger 7%nat 9%nat).1 = two_folders.
Proof.
  destruct (editor_added_then_removed two_folders three_users stranger 7%nat
              9%nat) as [_ Hok].
  destruct (Hok (mkFolder 1%nat ∅)) as (_ & _ & Hback);
    [reflexivity|set_solver|].
  apply Hback. set_solver.
Defined.

(** ** Housekeeping and the bound on pending instances *)

Section HousekeepingBound.

Variable on_delete : OnDelete.
Variable Task_defaults : Task.

Implicit Types (s : Store) (t : Task).

Lemma fmap_keeps_bound (g : Task → Task) s :
  (∀ T t, pending_instance_of T (g t) = true →
          pending_instance_of T t = true) →
  at_most_one_pending s → at_most_one_pending (g <$> s).
Proof.
  intros Hg. apply at_most_one_pending_shrink. intros T i t' Hi Pi.
  rewrite lookup_fmap in Hi. destruct (s !! i) as [t|]; [|done].
  simpl in Hi. injection Hi as <-. eauto.
Qed.

Lemma update_where_keeps_bound (P : Task → bool) (f : Task → Task) s :
  (∀ T t, pending_instance_of T (f t) = true →
          pending_instance_of T t = true) →
  at_most_one_pending s → at_most_one_pending (update_where P f s).
Proof.
  intros Hf. apply fmap_keeps_bound. intros T t. destruct (P t); eauto.
Qed.

Lemma delete_where_keeps_bound pol (P : Task → bool) s :
  at_most_one_pending s → at_most_one_pending (delete_where pol P s).
Proof.
  apply at_most_one_pending_shrink. intros T i t' Hi Pi.
  destruct pol; unfold delete_where in Hi.
  - apply map_lookup_filter_Some in Hi as [Hi _]. eauto.
  - rewrite lookup_fmap in Hi.
    destruct (filter _ s !! i) as [t|] eqn:Hf; [|done].
    simpl in Hi. injection Hi as <-.
    apply map_lookup_filter_Some in Hf as [Hf _]. exists t. split; [done|].
    unfold detach_all in Pi. destruct (refers_to _ t); [|done].
    by rewrite not_instance_not_pending in Pi.
Qed.

Lemma delete_row_keeps_bound pol k s :
  at_most_one_pending s → at_most_one_pending (delete_row pol k s).
Proof.
  apply at_most_one_pending_shrink. intros T i t' Hi Pi.
  exists t'. split; [|done]. by eapply delete_row_pending.
Qed.

Lemma create_plain_keeps_bound t s :
  parent_task t = None →
  at_most_one_pending s → at_most_one_pending (create t s).
Proof.
  intros Hp. apply at_most_one_pending_shrink. intros T i t' Hi Pi.
  unfold create in Hi. rewrite lookup_insert in Hi. case_decide; [|eauto].
  injection Hi as <-. by rewrite not_instance_not_pending in Pi.
Qed.

Lemma housekeeping_step_keeps_bound s s' :
  parent_task Task_defaults = None →
  housekeeping_step on_delete Task_defaults s s' →
  at_most_one_pending s → at_most_one_pending s'.
Proof.
  intros Hdef Hstep Hinv. destruct Hstep as
    [request id | request id | today request Hone | folders request ttl fid
    | folders request ttl fid | request | request | request id prio
    | request | folders request fid].
  - unfold views.delete. destruct (s !! id); [|done].
    case_bool_decide; [|done]. by apply delete_row_keeps_bound.
  - unfold views.delete_htmx. destruct (s !! id); [|done].
    case_bool_decide; [|done]. by apply delete_row_keeps_bound.
  - unfold views.bulk_status_htmx. rewrite Hone.
    change (1 =? 1) with true. cbv iota. cbn [fst].
    apply fmap_keeps_bound; [|done]. intros T t.
    destruct (_ && _); [|done]. intros Hp.
    by apply pending_instance_of_status in Hp.
  - unfold views.add. destruct (method request); [done|].
    destruct ttl as [ttl|]; [|done]. cbn [title set_title].
    destruct (capitalize ttl); [|done].
    destruct (get_by_pk folders fid); cbn [fst]; [|done|];
      by apply create_plain_keeps_bound.
  - unfold views.add_htmx. destruct (method request); [done|].
    cbn [title set_title]. destruct (truthy _); [|done].
    destruct (capitalize _); [|done]. cbn [fst].
    apply create_plain_keeps_bound; [|done].
    by destruct (get_by_pk folders fid).
  - unfold views.clear. apply update_where_keeps_bound; [|done].
    intros T t Hp. unfold pending_instance_of in Hp. cbn in Hp.
    by rewrite andb_false_r in Hp.
  - unfold views.clear_htmx. apply update_where_keeps_bound; [|done].
    intros T t Hp. unfold pending_instance_of in Hp. cbn in Hp.
    by rewrite andb_false_r in Hp.
  - unfold views.priority_htmx. destruct (s !! id); [|done].
    destruct prio; try done. cbn [fst]. revert Hinv.
    apply at_most_one_pending_shrink. intros T i t' Hi Pi.
    rewrite lookup_alter in Hi. case_decide; [|eauto]. subst.
    destruct (s !! i) as [t0|]; [|done]. simpl in Hi. injection Hi as <-.
    eauto.
  - unfold views.delete_completed_htmx. by apply delete_where_keeps_bound.
  - unfold views.move_folder_htmx.
    destruct fid as [| | |z];
      [by apply update_where_keeps_bound
      |by apply update_where_keeps_bound|done|].
    destruct (get_by_pk folders (Number z)); [|done|done].
    case_bool_decide; [|done]. by apply update_where_keeps_bound.
Qed.

End HousekeepingBound.

(** X16: the bound of one pending, live instance per template survives
    housekeeping.  When the model gives a new task no parent, the bound
    holds after every sequence that mixes the requests it survives in the
    engine (the toggles and the edits of [bounded_step]) with adding,
    archiving, reprioritising, moving and deleting tasks and with marking
    the visible tasks complete. *)
Theorem housekeeping_keeps_one_pending (on_delete : OnDelete)
    (Task_defaults : Task) (s s' : Store) :
  parent_task Task_defaults = None →
  at_most_one_pending s →
  rtc (λ a b, bounded_step on_delete Task_defaults a b
              ∨ housekeeping_step on_delete Task_defaults a b) s s' →
  at_most_one_pending s'.
Proof.
  intros Hdef Hinv Hsteps.
  induction Hsteps as [|s1 s2 s3 [Hstep|Hstep] _ IH]; [done| |]; apply IH.
  - by eapply bounded_step_keeps_bound.
  - by eapply housekeeping_step_keeps_bound.
Qed.

Lemma housekeeping_keeps_one_pending_witness :
  at_most_one_pending
    (views.clear_htmx
       (views.status_htmx sample_defaults march_15 one_instance
          sample_request 2%nat).1
       all_folders).1.
Proof.
  apply (housekeeping_keeps_one_pending CASCADE sample_defaults one_instance).
  - reflexivity.
  - apply at_most_one_pendingb_sound. vm_compute. reflexivity.
  - eapply rtc_l; [|apply rtc_once].
    + left.
      apply (bounded_status_htmx CASCADE sample_defaults one_instance
               march_15 sample_request 2%nat).
      vm_compute. reflexivity.
    + right. apply hk_clear_htmx.
Defined.

(** Marking the visible tasks pending is not among them: two completed
    instances of one template come out pending together. *)
Lemma bulk_reopen_breaks_bound :
  at_most_one_pending two_completed
  ∧ ¬ at_most_one_pending
        (views.bulk_status_htmx march_20 two_completed all_folders).1.
Proof.
  split.
  - apply at_most_one_pendingb_sound. vm_compute. reflexivity.
  - intros Hinv.
    assert (2%nat = 3%nat) as Habs; [|discriminate].
    eapply (Hinv 1%nat 2%nat 3%nat); vm_compute; reflexivity.
Qed.

(** ** The session: sorting and the due view *)

Lemma String_ne_tail (c : ascii) (s : string) : String c s ≠ s.
Proof.
  revert c. induction s as [|a s IH]; intros c; [done|].
  intros [= -> Heq]. by apply (IH a).
Qed.

(** X17: [tasks_order_by] toggles the direction of a column: asked for
    the column the list is sorted by, it sorts descending; asked again, it
    sorts ascending again; asked for another column it sorts by that
    column ascending, and a second time descending.  Each call sets the
    page to 1, drops the stashed filter and leaves every other key of the
    filter as it was. *)
Theorem tasks_order_by_toggles (ss : session.Session) (order : string) :
  current_sort (views.tasks_order_by ss order).1
  = (if bool_decide (current_sort ss = FStr order)
     then FStr (String "-" order) else FStr order)
  ∧ current_sort
      (views.tasks_order_by (views.tasks_order_by ss order).1 order).1
    = (if bool_decide (current_sort ss = FStr order)
       then FStr order else FStr (String "-" order))
  ∧ session.tasks_page (views.tasks_order_by ss order).1 = Some 1
  ∧ session.tasks_filter_stash (views.tasks_order_by ss order).1 = None
  ∧ ∀ key, key ≠ "sort" →
      filter_data (views.tasks_order_by ss order).1 !! key
      = filter_data ss !! key.
Proof.
  assert (∀ ss0,
            current_sort (views.tasks_order_by ss0 order).1
            = (if bool_decide (current_sort ss0 = FStr order)
               then FStr (String "-" order) else FStr order)) as Hone.
  { intros ss0. unfold views.tasks_order_by, current_sort, filter_data.
    cbn [fst session.tasks_filter session.set_tasks_filter
         session.set_tasks_page session.set_tasks_filter_stash default].
    unfold id. rewrite lookup_insert_eq. cbn.
    case_bool_decide; [done|]. by case_bool_decide. }
  split; [apply Hone|]. split; [|split; [done|split; [done|]]].
  - rewrite Hone, Hone.
    destruct (bool_decide (current_sort ss = FStr order)).
    + rewrite bool_decide_eq_false_2; [done|].
      intros [= Heq]. by apply String_ne_tail in Heq.
    + by rewrite bool_decide_eq_true_2.
  - intros key Hkey. unfold views.tasks_order_by, filter_data.
    cbn [fst session.tasks_filter session.set_tasks_filter
         session.set_tasks_page session.set_tasks_filter_stash].
    cbn [default from_option]. unfold id. by rewrite lookup_insert_ne.
Qed.

Section DueView.

Variable strftime_ymd : date → string.

Implicit Types (ss : session.Session).

(** What [tasks_due] does when it does not restore. *)
Lemma tasks_due_enters today ss tf :
  ¬ in_due_view ss ∨ session.tasks_filter_stash ss = None →
  views.tasks_due strftime_ymd today ss tf
  = (session.mkSession
       (Some {[ "filter_label" := FStr "due";
                "status" := FStr "Pending";
                "due_date_max" := FStr (strftime_ymd today);
                "sort" := FStr "due_date" ]})
       (Some (session.mkStash (filter_data ss)
                (default false (session.tasks_all ss)) tf))
       (Some true) (session.tasks_page ss),
     0, Render "tasks/tasks-with-folders-oob.html").
Proof.
  intros Hwhy. unfold views.tasks_due. fold (filter_data ss).
  destruct (session.tasks_filter_stash ss) as [stash|] eqn:Hst; [|done].
  destruct Hwhy as [Hnot|?]; [|done].
  by rewrite bool_decide_eq_false_2.
Qed.

Lemma tasks_due_restores today ss tf stash :
  in_due_view ss → session.tasks_filter_stash ss = Some stash →
  views.tasks_due strftime_ymd today ss tf
  = (session.mkSession (Some (session.stash_tasks_filter stash)) None
       (Some (session.stash_tasks_all stash)) (session.tasks_page ss),
     session.stash_tasks_folder stash,
     Render "tasks/tasks-with-folders-oob.html").
Proof.
  intros Hdue Hst. unfold views.tasks_due. fold (filter_data ss).
  rewrite Hst. by rewrite bool_decide_eq_true_2.
Qed.

Lemma due_filter_label (d : string) :
  ({[ "filter_label" := FStr "due"; "status" := FStr "Pending";
      "due_date_max" := FStr d; "sort" := FStr "due_date" ]}
     : gmap string FilterVal) !! "filter_label" = Some (FStr "due").
Proof. apply lookup_insert_eq. Qed.

Lemma tasks_due_stays_stuck today ss tf :
  stuck ss → stuck (views.tasks_due strftime_ymd today ss tf).1.1.
Proof.
  intros [Hdue Hstash].
  destruct (session.tasks_filter_stash ss) as [stash|] eqn:Hst.
  - rewrite (tasks_due_restores today ss tf stash Hdue Hst). by split.
  - rewrite (tasks_due_enters today ss tf) by by right.
    split; [apply due_filter_label|exact Hdue].
Qed.

End DueView.

(** X18: [tasks_due] is a switch.  From a session that is not in the due
    view, or has nothing stashed, a first call puts the due view on (all
    folders, no selected folder, the filter of tasks due up to today) and
    a second call gives back the filter, the all-folders flag and the
    selected folder of before, with nothing left stashed and the page
    untouched. *)
Theorem tasks_due_round_trip (strftime_ymd : date → string)
    (today1 today2 : date) (ss : session.Session) (tasks_folder : Z) :
  ¬ in_due_view ss ∨ session.tasks_filter_stash ss = None →
  let after1 := (views.tasks_due strftime_ymd today1 ss tasks_folder).1 in
  let after2 :=
    (views.tasks_due strftime_ymd today2 after1.1 after1.2).1 in
  in_due_view after1.1
  ∧ session.tasks_all after1.1 = Some true
  ∧ after1.2 = 0
  ∧ filter_data after1.1 !! "due_date_max" = Some (FStr (strftime_ymd today1))
  ∧ filter_data after2.1 = filter_data ss
  ∧ session.tasks_all after2.1 = Some (default false (session.tasks_all ss))
  ∧ after2.2 = tasks_folder
  ∧ session.tasks_filter_stash after2.1 = None
  ∧ session.tasks_page after2.1 = session.tasks_page ss.
Proof.
  intros Hwhy after1 after2. subst after2 after1.
  rewrite (tasks_due_enters strftime_ymd today1 ss tasks_folder Hwhy).
  cbn [fst snd].
  erewrite tasks_due_restores; [|apply due_filter_label|reflexivity].
  cbn [fst snd]. split; [apply due_filter_label|].
  repeat split; try done.
Qed.

Lemma tasks_due_round_trip_witness :
  filter_data
    (views.tasks_due (λ _, "2024-03-15") march_15
       (views.tasks_due (λ _, "2024-03-15") march_15 sorted_by_title 7).1.1
       (views.tasks_due (λ _, "2024-03-15") march_15 sorted_by_title 7).1.2
    ).1.1
  = filter_data sorted_by_title.
Proof.
  destruct (tasks_due_round_trip (λ _, "2024-03-15") march_15 march_15
              sorted_by_title 7) as (_ & _ & _ & _ & Hback & _).
  - right. reflexivity.
  - exact Hback.
Defined.

Lemma tasks_due_each_stuck (strftime_ymd : date → string) (days : list date)
    (ss : session.Session) (tasks_folder : Z) :
  stuck ss → stuck (tasks_due_each strftime_ymd days ss tasks_folder).1.
Proof.
  unfold tasks_due_each. revert ss tasks_folder.
  induction days as [|today days IH]; intros ss tf Hstuck; [done|].
  simpl.
  destruct (views.tasks_due strftime_ymd today ss tf) as [[ss1 tf1] r] eqn:Hr.
  apply IH.
  pose proof (tasks_due_stays_stuck strftime_ymd today ss tf Hstuck) as H1.
  by rewrite Hr in H1.
Qed.

(** X19: sorting by a column while the due view is on makes the due view
    permanent: the stashed filter is dropped, so however often [tasks_due]
    is called afterwards, the list stays in the due view and the filter of
    before is not restored. *)
Theorem due_view_sticks_after_sorting (strftime_ymd : date → string)
    (today : date) (ss : session.Session) (tasks_folder : Z) (order : string)
    (days : list date) :
  ¬ in_due_view ss ∨ session.tasks_filter_stash ss = None →
  let entered := (views.tasks_due strftime_ymd today ss tasks_folder).1 in
  let sorted := (views.tasks_order_by entered.1 order).1 in
  in_due_view (tasks_due_each strftime_ymd days sorted entered.2).1.
Proof.
  intros Hwhy entered sorted.
  apply (tasks_due_each_stuck strftime_ymd days sorted entered.2).
  subst sorted entered.
  rewrite (tasks_due_enters strftime_ymd today ss tasks_folder Hwhy).
  cbn [fst snd]. split; [|done].
  unfold in_due_view, filter_data, views.tasks_order_by.
  cbn [fst session.tasks_filter session.set_tasks_filter
       session.set_tasks_page session.set_tasks_filter_stash default
       from_option].
  unfold id. rewrite lookup_insert_ne by done. apply lookup_insert_eq.
Qed.

Lemma due_view_sticks_after_sorting_witness :
  in_due_view
    (tasks_due_each (λ _, "2024-03-15") [march_15; march_20]
       (views.tasks_order_by
          (views.tasks_due (λ _, "2024-03-15") march_15 sorted_by_title 7).1.1
          "priority").1
       0).1.
Proof.
  apply (due_view_sticks_after_sorting (λ _, "2024-03-15") march_15
           sorted_by_title 7 "priority" [march_15; march_20]).
  right. reflexivity.
Defined.

(** X20: a posted filter is kept in the session without the CSRF token
    and always under the label [custom], whatever label is posted; every
    other posted item is kept as posted, and the stashed filter is
    dropped.  A GET changes nothing. *)
Theorem posted_filter_is_custom (ss : session.Session) (request : Request)
    (POST_items : gmap string string) :
  (method request = POST →
   filter_data (views.task_filter ss request POST_items).1
     !! "csrfmiddlewaretoken" = None
   ∧ filter_data (views.task_filter ss request POST_items).1
       !! "filter_label" = Some (FStr "custom")
   ∧ (∀ key, key ≠ "csrfmiddlewaretoken" → key ≠ "filter_label" →
        filter_data (views.task_filter ss request POST_items).1 !! key
        = FStr <$> POST_items !! key)
   ∧ session.tasks_filter_stash (views.task_filter ss request POST_items).1
     = None)
  ∧ (method request = GET →
     (views.task_filter ss request POST_items).1 = ss).
Proof.
  unfold views.task_filter, filter_data. split; intros ->; [|done].
  cbn [fst session.tasks_filter session.set_tasks_filter
       session.set_tasks_filter_stash session.tasks_filter_stash default
       from_option].
  unfold id. split; [|split; [|split; [|done]]].
  - rewrite lookup_insert_ne, lookup_fmap by done.
    rewrite map_lookup_filter_None_2; [done|]. right. by intros v _ [].
  - apply lookup_insert_eq.
  - intros key Hk1 Hk2. rewrite lookup_insert_ne, !lookup_fmap by done.
    destruct (POST_items !! key) as [v|] eqn:Hv.
    + by rewrite (map_lookup_filter_Some_2 _ _ key v).
    + rewrite map_lookup_filter_None_2; [done|]. by left.
Qed.

Lemma posted_filter_is_custom_witness :
  filter_data
    (views.task_filter sorted_by_title post_request
       {[ "csrfmiddlewaretoken" := "t0k3n"; "filter_label" := "due";
          "status" := "Pending" ]}).1 !! "filter_label"
  = Some (FStr "custom").
Proof.
  destruct (posted_filter_is_custom sorted_by_title post_request
              {[ "csrfmiddlewaretoken" := "t0k3n"; "filter_label" := "due";
                 "status" := "Pending" ]}) as [Hpost _].
  destruct (Hpost eq_refl) as (_ & Hlabel & _). exact Hlabel.
Defined.

(** ** More on the reminder mails *)

(** X21: the two mail functions log each attempt once and only attempts.
    For a user without an address they report the failure and leave the
    log as it was; for a user with an address they append exactly one
    record: an INFO record when they report success, an ERROR record when
    they report the failure of the transport. *)
Theorem mail_attempts_are_logged_once
    (send_mail : string → string → string → list string → email.Outcome nat)
    (SERVER_EMAIL SITE_NAME : string) (strftime_date : date → string)
    (strftime_time : time → string) (folder_name : folder_id → string)
    (user : email.CustomUser) (task_id : pk) (task : Task)
    (reminder_type : string) (tasks : list Task)
    (log : list email.LogRecord) :
  ∀ result,
    result = email.send_task_reminder_email send_mail SERVER_EMAIL SITE_NAME
               strftime_date strftime_time folder_name user task_id task
               reminder_type log
    ∨ result = email.send_past_due_digest_email send_mail SERVER_EMAIL
                 SITE_NAME strftime_date folder_name user tasks log →
    if email.py_not (email.py_or (email.notification_email user)
                       (email.user_email user))
    then
      result
      = (email.Returns
           {[ "success" := email.PyBool false;
              "error" := email.PyStr "User has no email address" ]}, log)
    else
      (∃ msg,
         result
         = (email.Returns {[ "success" := email.PyBool true ]},
            (log ++ [email.INFO msg])%list))
      ∨ (∃ msg e,
           result
           = (email.Returns
                {[ "success" := email.PyBool false;
                   "error" := email.PyStr e ]},
              (log ++ [email.ERROR msg])%list)).
Proof.
  intros result [-> | ->];
    unfold email.send_task_reminder_email, email.send_past_due_digest_email;
    (destruct (email.py_not _); [done|]);
    unfold email.try_except, mbind, email.M_bind, email.call,
      email.logger_info, email.logger_error, mret, email.M_ret;
    (destruct (send_mail _ _ _ _) as [n|e]; [left|right]); eauto.
Qed.

Lemma mail_attempts_are_logged_once_witness :
  email.send_past_due_digest_email (λ _ _ _ _, email.Raises "refused")
    "server@example.org" "cloudportal" (λ _, "March 15, 2024")
    (λ _, "Inbox") (email.mkUser None None) [taxes] []
  = (email.Returns
       {[ "success" := email.PyBool false;
          "error" := email.PyStr "User has no email address" ]}, []).
Proof.
  apply (mail_attempts_are_logged_once (λ _ _ _ _, email.Raises "refused")
           "server@example.org" "cloudportal" (λ _, "March 15, 2024")
           (λ _, "9:00 AM") (λ _, "Inbox") (email.mkUser None None) 1%nat
           taxes "overdue" [taxes] []).
  right. reflexivity.
Defined.

(** X22: a mail goes from the server address to one recipient, the
    notification address of the user when there is one and the account
    address otherwise: the outcome of either function depends on the
    transport only through what it does for that sender and that single
    recipient. *)
Theorem mail_goes_to_one_recipient
    (send_mail1 send_mail2
       : string → string → string → list string → email.Outcome nat)
    (SERVER_EMAIL SITE_NAME : string) (strftime_date : date → string)
    (strftime_time : time → string) (folder_name : folder_id → string)
    (user : email.CustomUser) (task_id : pk) (task : Task)
    (reminder_type : string) (tasks : list Task)
    (log : list email.LogRecord) :
  let recipient :=
    match email.notification_email user with
    | Some (String c rest) => String c rest
    | _ => default EmptyString (email.user_email user)
    end in
  (∀ subject body,
     send_mail1 subject body SERVER_EMAIL [recipient]
     = send_mail2 subject body SERVER_EMAIL [recipient]) →
  email.send_task_reminder_email send_mail1 SERVER_EMAIL SITE_NAME
    strftime_date strftime_time folder_name user task_id task reminder_type
    log
  = email.send_task_reminder_email send_mail2 SERVER_EMAIL SITE_NAME
      strftime_date strftime_time folder_name user task_id task reminder_type
      log
  ∧ email.send_past_due_digest_email send_mail1 SERVER_EMAIL SITE_NAME
      strftime_date folder_name user tasks log
    = email.send_past_due_digest_email send_mail2 SERVER_EMAIL SITE_NAME
        strftime_date folder_name user tasks log.
Proof.
  intros recipient Hsame.
  assert (default EmptyString
            (email.py_or (email.notification_email user)
               (email.user_email user)) = recipient) as Hrec.
  { unfold recipient, email.py_or.
    by destruct (email.notification_email user) as [[|c rest]|]. }
  unfold email.send_task_reminder_email, email.send_past_due_digest_email.
  destruct (email.py_not _); [done|]. rewrite Hrec.
  unfold email.try_except, mbind, email.M_bind, email.call.
  by rewrite !Hsame.
Qed.

Lemma mail_goes_to_one_recipient_witness :
  email.send_past_due_digest_email
    (λ _ _ _ to,
       if bool_decide (to = ["notify@example.org"]) then email.Returns 1%nat
       else email.Raises "wrong recipient")
    "server@example.org" "cloudportal" (λ _, "March 15, 2024")
    (λ _, "Inbox")
    (email.mkUser (Some "notify@example.org") (Some "account@example.org"))
    [taxes] []
  = email.send_past_due_digest_email (λ _ _ _ _, email.Returns 1%nat)
      "server@example.org" "cloudportal" (λ _, "March 15, 2024")
      (λ _, "Inbox")
      (email.mkUser (Some "notify@example.org") (Some "account@example.org"))
      [taxes] [].
Proof.
  apply (mail_goes_to_one_recipient
           (λ _ _ _ to,
              if bool_decide (to = ["notify@example.org"])
              then email.Returns 1%nat else email.Raises "wrong recipient")
           (λ _ _ _ _, email.Returns 1%nat)
           "server@example.org" "cloudportal" (λ _, "March 15, 2024")
           (λ _, "9:00 AM") (λ _, "Inbox")
           (email.mkUser (Some "notify@example.org")
              (Some "account@example.org"))
           1%nat taxes "overdue" [taxes] []).
  intros subject body. reflexivity.
Defined.

(** ** More on bulk status, the spawn and cleared recurrence *)

Lemma bulk_qs_same_columns request (t t' : Task) :
  user t' = user t → folder t' = folder t →
  is_recurring t' = is_recurring t → archived t' = archived t →
  views.bulk_qs request t' = views.bulk_qs request t.
Proof. unfold views.bulk_qs. by intros -> -> -> ->. Qed.

Lemma bulk_update_row request (from to : Status) (done : option date)
    (s : Store) (k : pk) (t' : Task) :
  from ≠ to →
  ((λ t, if views.bulk_qs request t && bool_decide (status t = from)
         then set_completed_date done (set_status to t) else t) <$> s) !! k
  = Some t' →
  views.bulk_qs request t' = true →
  status t' = to
  ∧ ∃ t,
      s !! k = Some t
      ∧ completed_date t'
        = if bool_decide (status t = to) then completed_date t else done.
Proof.
  intros Hne Hl Hqs. rewrite lookup_fmap in Hl.
  destruct (s !! k) as [t|]; [|done]. simpl in Hl. injection Hl as Heq.
  assert (views.bulk_qs request t = true) as Ht.
  { rewrite <- Hqs, <- Heq. destruct (_ && _); [|done].
    by apply bulk_qs_same_columns. }
  rewrite Ht in Heq. cbn [andb] in Heq.
  destruct (decide (status t = from)) as [Hfrom|Hnfrom].
  - rewrite bool_decide_eq_true_2 in Heq by done. subst t'.
    split; [done|]. exists t. split; [done|].
    rewrite bool_decide_eq_false_2 by congruence. done.
  - rewrite bool_decide_eq_false_2 in Heq by done. subst t'.
    assert (status t = to) as Hto by (destruct (status t), from, to; congruence).
    split; [done|]. exists t. split; [done|].
    by rewrite bool_decide_eq_true_2.
Qed.

(** X23: [bulk_status_htmx] reads its parameter as "complete" for the
    number 1 and as "pending" for every other number and when it is
    missing.  Afterwards every task of its queryset has the status asked
    for; a task it completes is dated today, a task it reopens loses its
    completion date, and a task that had the status already keeps its
    date. *)
Theorem bulk_status_reaches_all (today : date) (s : Store)
    (request : Request) (k : pk) (t' : Task) :
  GET_status request ≠ Malformed →
  (views.bulk_status_htmx today s request).1 !! k = Some t' →
  views.bulk_qs request t' = true →
  let asked :=
    match GET_status request with Int 1 => Complete | _ => Pending end in
  status t' = asked
  ∧ ∃ t,
      s !! k = Some t
      ∧ completed_date t'
        = if bool_decide (status t = asked) then completed_date t
          else match asked with
               | Complete => Some today
               | Pending => None
               end.
Proof.
  intros Hok Hk Hqs asked. subst asked. unfold views.bulk_status_htmx in Hk.
  destruct (GET_status request) as [| |z] eqn:Hparam; [|done|].
  - change (0 =? 1) with false in Hk. cbv iota in Hk. cbn [fst] in Hk.
    by apply (bulk_update_row request Complete Pending None s k t').
  - destruct (z =? 1) eqn:Hz; cbn [fst] in Hk.
    + apply Z.eqb_eq in Hz. subst z.
      by apply (bulk_update_row request Pending Complete (Some today) s k t').
    + assert (match z with 1 => Complete | _ => Pending end = Pending) as ->.
      { destruct z as [|[]|]; try done. }
      by apply (bulk_update_row request Complete Pending None s k t').
Qed.

Lemma bulk_status_reaches_all_witness :
  status (sample_instance Pending march_15 None) = Pending
  ∧ ∃ t,
      two_completed !! 3%nat = Some t
      ∧ completed_date (sample_instance Pending march_15 None)
        = if bool_decide (status t = Pending) then completed_date t else None.
Proof.
  apply (bulk_status_reaches_all march_20 two_completed all_folders 3%nat
           (sample_instance Pending march_15 None));
    [discriminate|reflexivity|reflexivity].
Defined.

(** X24: the spawn hands the template over: when the model creates tasks
    unarchived and a live recurring template has exactly one pending, live
    instance, completing that instance through [status_htmx] leaves the
    template, still live and recurring, with exactly one pending, live
    instance again, the new row; so the next completion spawns in turn. *)
Theorem completion_hands_over (Task_defaults : Task) (today : date)
    (s : Store) (request : Request) (id p : pk) (t parent : Task) :
  archived Task_defaults = false →
  s !! id = Some t → pending_instance_of p t = true → p ≠ id →
  s !! p = Some parent →
  is_recurring parent = true → archived parent = false →
  (∀ k r, s !! k = Some r → k ≠ id → pending_instance_of p r = false) →
  ∃ n inst parent',
    s !! n = None
    ∧ (views.status_htmx Task_defaults today s request id).1 !! n = Some inst
    ∧ pending_instance_of p inst = true
    ∧ n ≠ p
    ∧ (views.status_htmx Task_defaults today s request id).1 !! p
      = Some parent'
    ∧ is_recurring parent' = true ∧ archived parent' = false
    ∧ (∀ k r,
         (views.status_htmx Task_defaults today s request id).1 !! k = Some r →
         k ≠ n → pending_instance_of p r = false).
Proof.
  intros Hdef Hl Hpend Hne Hlp Hrec Harch Hsole.
  pose proof (pending_instance_of_status _ _ Hpend) as Hst.
  pose proof (pending_instance_of_parent _ _ Hpend) as Hpar.
  destruct (status_htmx_spawns Task_defaults today s request id p t parent
              Hl Hst Hpar Hne Hlp Hrec Harch Hsole)
    as (n & inst & Hn & Hin & Hid & Hp' & Hrest & _ & _ & _ & _ & _ & _
        & Hist & Hipar).
  assert (archived inst = false) as Hiarch.
  { unfold views.status_htmx in Hin. rewrite Hl in Hin.
    fold (toggled today t) in Hin.
    rewrite (bool_decide_eq_true_2 _ (toggled_pending today t Hst)) in Hin.
    unfold fetch_parent in Hin. rewrite toggled_parent, Hpar in Hin.
    rewrite lookup_save_ne, Hlp, Hrec, Harch in Hin by done.
    cbn [andb negb] in Hin.
    destruct (exists_row _ _) eqn:Hex; cbn [negb fst] in Hin.
    - rewrite lookup_save_ne in Hin by (intros ->; congruence). congruence.
    - rewrite lookup_save_last_generated in Hin.
      case_decide as Hpn; [subst; congruence|].
      unfold create in Hin. rewrite lookup_insert in Hin.
      case_decide as Hfn.
      + injection Hin as <-. exact Hdef.
      + rewrite lookup_save_ne in Hin by (intros ->; congruence). congruence. }
  exists n, inst, (set_last_generated (Some today) parent).
  assert (n ≠ p) as Hnp by (intros ->; congruence).
  split; [done|]. split; [done|]. split.
  { unfold pending_instance_of.
    by rewrite Hipar, Hist, Hiarch, !bool_decide_eq_true_2. }
  split; [done|]. split; [done|]. split; [done|]. split; [done|].
  intros k r Hk Hkn.
  destruct (decide (k = id)) as [->|Hkid].
  { rewrite Hid in Hk. injection Hk as <-.
    destruct (pending_instance_of p (toggled today t)) eqn:Hq; [|done].
    apply pending_instance_of_status in Hq.
    rewrite (toggled_pending today t Hst) in Hq. done. }
  destruct (decide (k = p)) as [->|Hkp].
  { rewrite Hp' in Hk. injection Hk as <-.
    rewrite <- (Hsole p parent Hlp Hne). by apply pending_instance_of_cols. }
  rewrite Hrest in Hk by done. by apply (Hsole k r).
Qed.

Lemma completion_hands_over_witness :
  ∃ n inst,
    (views.status_htmx sample_defaults march_20 one_instance sample_request
       2%nat).1 !! n = Some inst
    ∧ pending_instance_of 1%nat inst = true.
Proof.
  destruct (completion_hands_over sample_defaults march_20 one_instance
              sample_request 2%nat 1%nat
              (sample_instance Pending march_15 None) sample_template)
    as (n & inst & _ & _ & Hin & Hpend & _);
    [reflexivity|reflexivity|reflexivity|lia|reflexivity|reflexivity
    |reflexivity| |].
  - intros k r Hk Hne.
    destruct (pending_instance_of 1%nat r) eqn:Hp; [|reflexivity].
    exfalso. apply Hne.
    assert (at_most_one_pending one_instance) as Hinv
      by (apply at_most_one_pendingb_sound; vm_compute; reflexivity).
    apply (Hinv 1%nat k 2%nat r (sample_instance Pending march_15 None));
      [exact Hk|reflexivity|exact Hp|reflexivity].
  - exists n, inst. split; [exact Hin|exact Hpend].
Defined.

Lemma delete_row_referrer (pol : OnDelete) (s : Store) (p k : pk) (r : Task) :
  s !! k = Some r → k ≠ p → parent_task r = Some p →
  delete_row pol p s !! k
  = match pol with
    | CASCADE => None
    | SET_NULL => Some (set_parent_task None r)
    end.
Proof.
  intros Hk Hne Hp. destruct pol; simpl.
  - apply map_lookup_filter_None. right. intros r' Hk' Hnot. apply Hnot.
    simpl. destruct (size s) as [|n] eqn:Hsize.
    { apply map_size_empty_iff in Hsize. by rewrite Hsize in Hk. }
    rewrite collect_unfold. apply collect_grows.
    apply elem_of_union_r, elem_of_dom. exists r.
    apply map_lookup_filter_Some. split; [done|]. simpl.
    apply refers_to_true. exists p. split; [done|]. set_solver.
  - rewrite lookup_fmap, lookup_delete_ne, Hk by done. simpl. f_equal.
    unfold detach. by rewrite bool_decide_eq_true_2.
Qed.

(** X25: an edit of an instance that clears the recurrence reaches the
    other instances of the template too: deleting the template removes
    each of them under CASCADE, completed ones included, and leaves each
    of them as a standalone task under SET_NULL.  The edit is one through [edit], or through
    [task_form] with a form the view gets through (not one that marks
    complete a task that was not). *)
Theorem clearing_recurrence_reaches_siblings (on_delete : OnDelete)
    (Task_defaults : Task) (today : date) (s s' : Store) (request : Request)
    (id p : pk) (t parent : Task) (form : forms.TaskForm) (ttl : string) :
  s !! id = Some t →
  parent_task t = Some p →
  s !! p = Some parent →
  method request = POST →
  cleaned_data request = Some form →
  capitalize (forms.title form) = Some ttl →
  truthy (forms.recurrence form) = false →
  s' = (views.edit on_delete Task_defaults today s request id).1
  ∨ (completes form t = false
     ∧ s' = (views.task_form on_delete Task_defaults today s request id).1) →
  ∀ k r,
    s !! k = Some r → k ≠ id → k ≠ p → parent_task r = Some p →
    s' !! k
    = match on_delete with
      | CASCADE => None
      | SET_NULL => Some (set_parent_task None r)
      end.
Proof.
  intros Hl Hpar Hp Hm Hf Hc Htr Hs' k r Hk Hkid Hkp Hrp.
  assert (fetch_parent s t = Parent p parent) as Hfetch
    by by apply fetch_parent_Some.
  destruct (edit_cases on_delete Task_defaults today s s' request id t form
              ttl Hl Hm Hf Hc) as (task & -> & _); [by rewrite Hfetch|done|].
  rewrite Hfetch. unfold edit_writes. rewrite Htr. cbv zeta.
  rewrite lookup_save_ne by done.
  apply delete_row_referrer; [|done|done]. by rewrite lookup_save_ne.
Qed.

Lemma clearing_recurrence_reaches_siblings_witness :
  (views.edit CASCADE sample_defaults march_20 two_instances clear_recurrence
     3%nat).1 !! 2%nat = None.
Proof.
  apply (clearing_recurrence_reaches_siblings CASCADE sample_defaults march_20
           two_instances _ clear_recurrence 3%nat 1%nat
           (sample_instance Pending march_15 None) sample_template
           cleared_form "Water plants" eq_refl eq_refl eq_refl eq_refl eq_refl
           eq_refl eq_refl (or_introl eq_refl) 2%nat
           (sample_instance Complete march_14 (Some march_14)));
    [reflexivity|lia|lia|reflexivity].
Defined.
